(** * ClimateGuard: memory service and context compactor

    A shallow embedding of [src/memory/compactor.py] and
    [src/memory/memory_service.py], followed by the properties of the
    compaction algorithm, the fact extractor, the keyword retrieval and
    the profile / footprint store.

    Conventions of the embedding.
    - A Python [str] is a [string]; the text is ASCII (on bytes above 127
      [lower], [\d], [\s] and [\w] act as on characters that are neither
      letters, digits nor blanks).
    - A Python [int] is a [Z]; a [float] is a binary64 [float].
    - A [dict] keyed by user id is a [gmap string _]; a [dict] whose
      iteration order is observed is an association list.
    - [list(set(xs))] iterates in an order Python leaves unspecified; it
      is a parameter of the development ([SetOrder]).
    - The clock, the UUID generator and the printing, rounding and
      summing of floats belong to the interpreter; they are a parameter
      too ([Runtime]).
    - A coroutine of the service is the function from the state before
      to the state after and the outcome: a returned value or a raised
      exception. Where a function of the service returns [None] the
      input is outside the embedding; each such place says why. *)

From Stdlib Require Import ZArith List String Ascii Bool Lia Permutation DecimalString
  DecimalNat.
From Stdlib Require Import Sorting.Sorted.
From Stdlib Require Import Numbers.Cyclic.Int63.Uint63 Floats.PrimFloat.
From stdpp Require Import base option gmap strings.
Import ListNotations.

Local Open Scope string_scope.
Local Open Scope list_scope.
Local Open Scope Z_scope.

(* ================================================================== *)
(** * Part I: the embedding                                            *)
(* ================================================================== *)

(** ** Python strings and slices *)

Module PyStr.

Definition in_range (lo hi : nat) (c : ascii) : bool :=
  let n := nat_of_ascii c in (Nat.leb lo n && Nat.leb n hi)%bool.

(** [str.isspace] on ASCII: TAB..CR, FS..US and the blank. The same
    class is used by [str.split()], [str.strip()] and the regex [\s]. *)
Definition is_space (c : ascii) : bool := (in_range 9 13 c || in_range 28 32 c)%bool.
Definition is_digit (c : ascii) : bool := in_range 48 57 c.
Definition is_upper (c : ascii) : bool := in_range 65 90 c.
Definition is_lower (c : ascii) : bool := in_range 97 122 c.
(** The regex class [\w]. *)
Definition is_word (c : ascii) : bool :=
  (is_digit c || is_upper c || is_lower c || Ascii.eqb c "_")%bool.

Definition lower_char (c : ascii) : ascii :=
  if is_upper c then ascii_of_nat (nat_of_ascii c + 32) else c.

(** [s.lower()] on ASCII text: [A]..[Z] go to [a]..[z] and every other
    byte stays. Outside ASCII Python lowers some characters by their
    context, so that [w in c] need not give [w.lower() in c.lower()];
    a statement that passes from a text to its lower case says that
    the text is ASCII. *)
Fixpoint lower (s : string) : string :=
  match s with
  | EmptyString => EmptyString
  | String c s' => String (lower_char c) (lower s')
  end.

(** [len(s)] *)
Definition len (s : string) : Z := Z.of_nat (String.length s).

(** [needle in hay] *)
Fixpoint contains (needle hay : string) : bool :=
  (String.prefix needle hay ||
   match hay with
   | EmptyString => false
   | String _ hay' => contains needle hay'
   end)%bool.

Fixpoint lstrip (s : string) : string :=
  match s with
  | EmptyString => EmptyString
  | String c s' => if is_space c then lstrip s' else s
  end.

Fixpoint rstrip (s : string) : string :=
  match s with
  | EmptyString => EmptyString
  | String c s' =>
      match rstrip s' with
      | EmptyString => if is_space c then EmptyString else String c EmptyString
      | r => String c r
      end
  end.

(** [s.strip()] *)
Definition strip (s : string) : string := rstrip (lstrip s).

(** Splitting at every character of a class: [re.split(r'[...]', s)].
    Empty pieces are kept. *)
Fixpoint split_on (p : ascii -> bool) (s : string) : list string :=
  match s with
  | EmptyString => [EmptyString]
  | String c s' =>
      if p c then EmptyString :: split_on p s'
      else match split_on p s' with
           | h :: t => String c h :: t
           | [] => [String c EmptyString]
           end
  end.

Definition nonempty (s : string) : bool :=
  match s with EmptyString => false | _ => true end.

(** [s.split()]: the maximal runs of non-blank characters. *)
Definition split (s : string) : list string :=
  List.filter nonempty (split_on is_space s).

(** [sep.join(parts)] *)
Definition join (sep : string) (parts : list string) : string :=
  String.concat sep parts.

Fixpoint take (n : nat) (s : string) : string :=
  match n, s with
  | S n', String c s' => String c (take n' s')
  | _, _ => EmptyString
  end.

Fixpoint drop (n : nat) (s : string) : string :=
  match n, s with
  | S n', String _ s' => drop n' s'
  | _, _ => s
  end.

(** [s[:stop]]: a negative [stop] counts from the end. *)
Definition slice_to (stop : Z) (s : string) : string :=
  if 0 <=? stop then take (Z.to_nat stop) s
  else take (String.length s - Z.to_nat (- stop)) s.

(** [l[:stop]] and [l[start:]] on lists, with Python's negative indices. *)
Definition list_slice_to {A} (stop : Z) (l : list A) : list A :=
  if 0 <=? stop then firstn (Z.to_nat stop) l
  else firstn (length l - Z.to_nat (- stop)) l.

Definition list_slice_from {A} (start : Z) (l : list A) : list A :=
  if 0 <=? start then skipn (Z.to_nat start) l
  else skipn (length l - Z.to_nat (- start)) l.

(** [any(w in text for w in ws)] *)
Definition any_in (ws : list string) (text : string) : bool :=
  existsb (fun w => contains w text) ws.

End PyStr.

(** ** The iteration order of a Python set of strings

    [set_list xs] stands for [list(set(xs))], and for iterating over a
    set that was filled by adding [xs] in that order: the same elements,
    each once, in an order the language does not fix. *)
Record SetOrder := {
  set_list : list string -> list string;
  set_list_perm : forall xs, Permutation (set_list xs) (nodup string_dec xs)
}.

(** ** The fragment of [re] used by the fact extractor

    Backtracking matcher in continuation-passing style: alternatives are
    tried left to right, [?], [*] and [+] are greedy. Quantifiers [*] and
    [+] are applied to character classes only, as in every pattern of the
    source. One capture group. *)
Module Re.
Import PyStr.

Inductive regex :=
| Lit (s : string)
| Cls (p : ascii -> bool)
| Seq (r1 r2 : regex)
| Alt (r1 r2 : regex)
| Opt (r : regex)
| Many (p : ascii -> bool)
| Many1 (p : ascii -> bool)
| Group (r : regex).

Fixpoint many {A} (p : ascii -> bool) (s : string) (k : string -> option A) : option A :=
  match s with
  | String c s' =>
      if p c then match many p s' k with Some x => Some x | None => k s end
      else k s
  | EmptyString => k s
  end.

Fixpoint rmatch {A} (r : regex) (s : string) (g : option string)
    (k : string -> option string -> option A) : option A :=
  match r with
  | Lit l => if String.prefix l s then k (drop (String.length l) s) g else None
  | Cls p => match s with
             | String c s' => if p c then k s' g else None
             | EmptyString => None
             end
  | Seq r1 r2 => rmatch r1 s g (fun s' g' => rmatch r2 s' g' k)
  | Alt r1 r2 => match rmatch r1 s g k with
                 | Some x => Some x
                 | None => rmatch r2 s g k
                 end
  | Opt r1 => match rmatch r1 s g k with
              | Some x => Some x
              | None => k s g
              end
  | Many p => many p s (fun s' => k s' g)
  | Many1 p => match s with
               | String c s' => if p c then many p s' (fun s'' => k s'' g) else None
               | EmptyString => None
               end
  | Group r1 =>
      rmatch r1 s g
        (fun s' _ => k s' (Some (take (String.length s - String.length s') s)))
  end.

(** A match anchored at the start of [s]: its length and group 1. *)
Definition match_here (r : regex) (s : string) : option (nat * option string) :=
  rmatch r s None (fun s' g => Some ((String.length s - String.length s')%nat, g)).

(** [re.search(r, s)]: leftmost match, as (group 0, group 1). *)
Fixpoint search (r : regex) (s : string) : option (string * option string) :=
  match match_here r s with
  | Some (n, g) => Some (take n s, g)
  | None => match s with
            | EmptyString => None
            | String _ s' => search r s'
            end
  end.

(** [m.group(0) for m in re.finditer(r, s)]: the non-overlapping
    matches from left to right; [skip] characters of the last match are
    still to be passed. *)
Fixpoint finditer_from (r : regex) (skip : nat) (s : string) {struct s} : list string :=
  match skip, s with
  | S k, String _ s' => finditer_from r k s'
  | S _, EmptyString => []
  | O, _ =>
      match match_here r s with
      | Some (n, _) =>
          take n s :: match s with
                      | EmptyString => []
                      | String _ s' => finditer_from r (n - 1) s'
                      end
      | None => match s with
                | EmptyString => []
                | String _ s' => finditer_from r 0 s'
                end
      end
  end.

Definition finditer (r : regex) (s : string) : list string := finditer_from r 0 s.

(** [(?:w|w1|...)] *)
Fixpoint alts (w : string) (ws : list string) : regex :=
  match ws with
  | [] => Lit w
  | w' :: ws' => Alt (Lit w) (alts w' ws')
  end.

(** A concatenation; the empty one matches the empty string. *)
Fixpoint seq (rs : list regex) : regex :=
  match rs with
  | [] => Lit ""
  | [r] => r
  | r :: rs' => Seq r (seq rs')
  end.

End Re.

(** ** [src/memory/compactor.py] *)

Module Compactor.
Import PyStr Re.

(** [CompactionConfig] after [__post_init__]. *)
Record CompactionConfig := {
  max_tokens : Z;
  min_turns_to_keep : Z;
  overlap_size : Z;
  summary_max_length : Z;
  priority_keywords : list string
}.

Definition default_priority_keywords : list string :=
  [ "co2"; "carbon"; "emissions"; "footprint"; "kg"; "tons";
    "vegetarian"; "vegan"; "meat"; "beef"; "chicken";
    "car"; "drive"; "bicycle"; "transit"; "flight";
    "electric"; "solar"; "renewable";
    "commit"; "goal"; "plan"; "will"; "promise";
    "meatless"; "reduce"; "switch"; "change";
    "live"; "city"; "country"; "home" ].

(** The dataclass constructor: [None] keywords become the defaults. *)
Definition make_config (mt mk ov sm : Z) (kw : option (list string)) : CompactionConfig :=
  {| max_tokens := mt; min_turns_to_keep := mk; overlap_size := ov;
     summary_max_length := sm;
     priority_keywords := match kw with
                          | Some l => l
                          | None => default_priority_keywords
                          end |}.

(** [CompactionConfig()] *)
Definition default_config : CompactionConfig := make_config 4000 3 1 500 None.

Record CompactionResult := {
  original_tokens : Z;
  compacted_tokens : Z;
  compression_ratio : float;
  summary : string;
  preserved_facts : list string;
  kept_turns : Z;
  compacted_turns : Z
}.

(** A turn is a dict; [content] is [None] when the key is missing, and
    a [str] otherwise (on any other value the join of [compact]
    raises). *)
Record Turn := { role : option string; content : option string }.

(** [t.get("content", "")] *)
Definition get_content (t : Turn) : string :=
  match content t with Some c => c | None => "" end.

(** What the loop of [compact] can read: an ADK event object (with or
    without a truthy [content], whose [parts] is a list of parts that
    may carry text; an absent [parts] is the empty list), a dict, or
    anything else. *)
Record EventContent := { ev_role : option string; ev_parts : list (option string) }.

Inductive Event :=
| EvObject (c : option EventContent)
| EvDict (t : Turn)
| EvOther.


(** [estimate_tokens] *)
Definition estimate_tokens (text : string) : Z := len text / 4.

(** *** [extract_key_facts] *)

(** [(\d+(?:\.\d+)?)\s*(?:kg|tons?|tonnes?)\s*(?:co2|carbon|emissions?)] *)
Definition co2_pattern : regex :=
  seq [ Group (Seq (Many1 is_digit) (Opt (Seq (Lit ".") (Many1 is_digit))));
        Many is_space;
        Alt (Lit "kg") (Alt (Seq (Lit "ton") (Opt (Lit "s")))
                            (Seq (Lit "tonne") (Opt (Lit "s"))));
        Many is_space;
        Alt (Lit "co2") (Alt (Lit "carbon") (Seq (Lit "emission") (Opt (Lit "s")))) ].

Definition commitment_words : list string :=
  [ "commit"; "will"; "plan to"; "going to"; "promise"; "goal" ].

(** The class [[.!?]] *)
Definition is_sentence_end (c : ascii) : bool :=
  (Ascii.eqb c "." || Ascii.eqb c "!" || Ascii.eqb c "?")%bool.

(** [\w+(?:\s+\w+)?] *)
Definition one_or_two_words : regex :=
  Seq (Many1 is_word) (Opt (Seq (Many1 is_space) (Many1 is_word))).

(** [(?:i am|i'm|we are|we're)\s+(?:a\s+)?(vegetarian|vegan|omnivore|pescatarian)] *)
Definition diet_pattern : regex :=
  seq [ alts "i am" ["i'm"; "we are"; "we're"];
        Many1 is_space;
        Opt (Seq (Lit "a") (Many1 is_space));
        Group (alts "vegetarian" ["vegan"; "omnivore"; "pescatarian"]) ].

(** [(?:i|we)\s+(?:drive|use|take|ride)\s+(?:a\s+)?(\w+(?:\s+\w+)?)\s+(?:to work|daily|regularly)] *)
Definition transport_pattern : regex :=
  seq [ alts "i" ["we"];
        Many1 is_space;
        alts "drive" ["use"; "take"; "ride"];
        Many1 is_space;
        Opt (Seq (Lit "a") (Many1 is_space));
        Group one_or_two_words;
        Many1 is_space;
        alts "to work" ["daily"; "regularly"] ].

(** [(?:live|living)\s+in\s+(\w+(?:\s+\w+)?)] *)
Definition location_pattern : regex :=
  seq [ alts "live" ["living"];
        Many1 is_space;
        Lit "in";
        Many1 is_space;
        Group one_or_two_words ].

(** Each pattern with the text that precedes [{}] in its template. *)
Definition preference_patterns : list (regex * string) :=
  [ (diet_pattern, "Diet: ");
    (transport_pattern, "Transport: ");
    (location_pattern, "Location: ") ].

Definition emission_facts (text_lower : string) : list string :=
  map (fun m => "Emissions data: " +:+ m) (finditer co2_pattern text_lower).

Definition commitment_facts (cfg : CompactionConfig) (text : string) : list string :=
  flat_map
    (fun sentence =>
       let sentence_lower := lower sentence in
       if any_in commitment_words sentence_lower then
         if any_in (priority_keywords cfg) sentence_lower then
           ["Commitment: " +:+ strip sentence]
         else []
       else [])
    (split_on is_sentence_end text).

Definition preference_facts (text_lower : string) : list string :=
  flat_map
    (fun '(pattern, template) =>
       match search pattern text_lower with
       | Some (_, g) => [template +:+ match g with Some x => x | None => "None" end]
       | None => []
       end)
    preference_patterns.

(** The list [facts] before [list(set(facts))]. *)
Definition raw_facts (cfg : CompactionConfig) (text : string) : list string :=
  let text_lower := lower text in
  emission_facts text_lower ++ commitment_facts cfg text ++ preference_facts text_lower.

Section WithSetOrder.
Variable o : SetOrder.

Definition extract_key_facts (cfg : CompactionConfig) (text : string) : list string :=
  set_list o (raw_facts cfg text).

(** *** [summarize_turns] *)

Definition topic_keywords : list (string * list string) :=
  [ ("diet", ["food"; "eat"; "meal"; "meat"; "vegetarian"]);
    ("transport", ["car"; "drive"; "commute"; "flight"; "train"]);
    ("energy", ["electricity"; "energy"; "power"; "heating"]);
    ("footprint", ["footprint"; "emissions"; "carbon"; "co2"]) ].

(** The topics added to the set while reading one turn, in order. *)
Definition topics_of (t : Turn) : list string :=
  let content_lower := lower (get_content t) in
  map fst (List.filter (fun '(_, keywords) => any_in keywords content_lower) topic_keywords).

Definition summarize_turns (cfg : CompactionConfig) (turns : list Turn) : string :=
  match turns with
  | [] => ""
  | _ =>
      let all_facts := flat_map (fun t => extract_key_facts cfg (get_content t)) turns in
      let topics := flat_map topics_of turns in
      let part_topics :=
        match topics with
        | [] => []
        | _ => ["[Previous discussion covered: " +:+ join ", " (set_list o topics) +:+ "]"]
        end in
      let part_facts :=
        match all_facts with
        | [] => []
        | _ => ["[Key facts: " +:+ join "; " (firstn 5 (set_list o all_facts)) +:+ "]"]
        end in
      let summary := join " " (part_topics ++ part_facts) in
      if summary_max_length cfg <? len summary then
        slice_to (summary_max_length cfg - 3) summary +:+ "..."
      else summary
  end.

(** *** [compact] *)

(** The loop that turns events into turns. *)
Definition turn_of_event (e : Event) : list Turn :=
  match e with
  | EvObject (Some c) =>
      let text :=
        fold_left (fun acc part =>
                     match part with
                     | Some (String a rest) => acc +:+ String a rest
                     | _ => acc
                     end) (ev_parts c) "" in
      match text with
      | EmptyString => []
      | _ => [ {| role := Some match ev_role c with Some r => r | None => "unknown" end;
                  content := Some text |} ]
      end
  | EvObject None => []
  | EvDict t => [t]
  | EvOther => []
  end.

Definition turns_of (events : list Event) : list Turn := flat_map turn_of_event events.


(** [" ".join(t.get("content", "") for t in turns)] *)
Definition joined_content (turns : list Turn) : string :=
  join " " (map get_content turns).

(** Python's [a / b] on token counts (exact below 2^53). *)
Definition true_div (a b : Z) : float :=
  PrimFloat.div (PrimFloat.of_uint63 (Uint63.of_Z a)) (PrimFloat.of_uint63 (Uint63.of_Z b)).

Definition keep_count (cfg : CompactionConfig) (turns : list Turn) : Z :=
  Z.max (min_turns_to_keep cfg) (Z.of_nat (length turns) / 3).

Definition compact_turns (cfg : CompactionConfig) (turns : list Turn) : CompactionResult :=
  match turns with
  | [] =>
      {| original_tokens := 0; compacted_tokens := 0; compression_ratio := 1%float;
         summary := ""; preserved_facts := []; kept_turns := 0; compacted_turns := 0 |}
  | _ =>
      let original_text := joined_content turns in
      let original_tokens := estimate_tokens original_text in
      if original_tokens <=? max_tokens cfg then
        {| original_tokens := original_tokens;
           compacted_tokens := original_tokens;
           compression_ratio := 1%float;
           summary := "";
           preserved_facts := extract_key_facts cfg original_text;
           kept_turns := Z.of_nat (length turns);
           compacted_turns := 0 |}
      else
        let keep_count := keep_count cfg turns in
        let turns_to_summarize := list_slice_to (- keep_count) turns in
        let turns_to_keep := list_slice_from (- keep_count) turns in
        let summary := summarize_turns cfg turns_to_summarize in
        let all_facts := extract_key_facts cfg original_text in
        let kept_text := joined_content turns_to_keep in
        let compacted_tokens := estimate_tokens (summary +:+ " " +:+ kept_text) in
        {| original_tokens := original_tokens;
           compacted_tokens := compacted_tokens;
           compression_ratio :=
             if 0 <? original_tokens then true_div compacted_tokens original_tokens
             else 1%float;
           summary := summary;
           preserved_facts := list_slice_to 10 all_facts;
           kept_turns := Z.of_nat (length turns_to_keep);
           compacted_turns := Z.of_nat (length turns_to_summarize) |}
  end.

Definition compact (cfg : CompactionConfig) (events : list Event) : CompactionResult :=
  compact_turns cfg (turns_of events).


(** *** [get_compacted_context] *)
Definition get_compacted_context (cfg : CompactionConfig) (events : list Event) : string :=
  let result := compact cfg events in
  match summary result with
  | EmptyString => ""
  | _ =>
      let context_parts :=
        [summary result] ++
        match preserved_facts result with
        | [] => []
        | _ => ["[Preserved facts: " +:+ join "; " (preserved_facts result) +:+ "]"]
        end in
      join (String (ascii_of_nat 10) "") context_parts
  end.

End WithSetOrder.

End Compactor.

(** ** [src/memory/memory_service.py] *)

Module MemoryService.
Import PyStr.

(** Python values that reach the store. *)
Inductive PyVal :=
| VNone
| VBool (b : bool)
| VInt (z : Z)
| VFloat (f : float)
| VStr (s : string)
| VStrList (l : list string).

(** A [dict] with string keys, in insertion order. *)
Definition Dict := list (string * PyVal).

Fixpoint dict_get (d : Dict) (key : string) : option PyVal :=
  match d with
  | [] => None
  | (k, v) :: d' => if String.eqb k key then Some v else dict_get d' key
  end.

(** [d[key] = v]: an existing key keeps its place. *)
Fixpoint dict_set (d : Dict) (key : string) (v : PyVal) : Dict :=
  match d with
  | [] => [(key, v)]
  | (k, w) :: d' => if String.eqb k key then (k, v) :: d' else (k, w) :: dict_set d' key v
  end.

Definition dict_has (d : Dict) (key : string) : bool :=
  match dict_get d key with Some _ => true | None => false end.

(** What the interpreter and its library supply: the clock and the
    UUID generator (by number of the draw), [str] of a float and of a
    list, [round(x, 2)] and [sum] on floats. *)
Record Runtime := {
  now_isoformat : nat -> string;
  uuid4_hex12 : nat -> string;
  float_str : float -> string;
  list_str : list string -> string;
  round2 : float -> float;
  float_sum : list float -> float
}.

(** [str(v)], as an f-string formats it. *)
Definition py_str (rt : Runtime) (v : PyVal) : string :=
  match v with
  | VNone => "None"
  | VBool true => "True"
  | VBool false => "False"
  | VInt z => NilZero.string_of_int (Z.to_int z)
  | VFloat f => float_str rt f
  | VStr s => s
  | VStrList l => list_str rt l
  end.

(** *** [UserProfile]

    An instance is its attribute dictionary. The dataclass declares
    the fields below; the class also defines [to_dict] and
    [from_dict]. *)
Definition profile_fields : list string :=
  [ "user_id"; "created_at"; "updated_at";
    "city"; "country"; "climate_zone";
    "diet_type"; "meat_meals_per_week"; "local_food_percentage";
    "primary_transport"; "car_type"; "commute_distance_km"; "flights_per_year";
    "home_type"; "electricity_kwh_monthly"; "gas_m3_monthly";
    "renewable_energy_percentage";
    "shopping_frequency"; "recycling_habits";
    "reduction_goal_percentage"; "priority_areas" ].

Definition profile_methods : list string := [ "to_dict"; "from_dict" ].

Definition UserProfile := Dict.

Definition in_list (key : string) (l : list string) : bool :=
  existsb (String.eqb key) l.

(** The class attributes that the dataclass leaves behind: the fields
    with a plain default ([default_factory] fields leave none). *)
Definition class_defaults : Dict :=
  [ ("city", VStr ""); ("country", VStr ""); ("climate_zone", VStr "");
    ("diet_type", VStr ""); ("meat_meals_per_week", VInt 0);
    ("local_food_percentage", VInt 0);
    ("primary_transport", VStr ""); ("car_type", VStr "");
    ("commute_distance_km", VInt 0); ("flights_per_year", VInt 0);
    ("home_type", VStr ""); ("electricity_kwh_monthly", VInt 0);
    ("gas_m3_monthly", VInt 0); ("renewable_energy_percentage", VInt 0);
    ("shopping_frequency", VStr ""); ("recycling_habits", VStr "");
    ("reduction_goal_percentage", VInt 20) ].

(** [UserProfile(user_id=..., **kwargs)]: the fields in declaration
    order, with their defaults; [None] on an unexpected keyword
    ([TypeError]). The two timestamps are the clock readings of the
    default factories. *)
Definition new_profile (created updated : string) (user_id : PyVal) (kwargs : Dict)
    : option UserProfile :=
  let defaults : Dict :=
    [ ("user_id", user_id); ("created_at", VStr created); ("updated_at", VStr updated) ]
    ++ class_defaults ++ [ ("priority_areas", VStrList []) ] in
  if forallb (fun kv => in_list (fst kv) profile_fields) kwargs then
    Some (fold_left (fun d kv => dict_set d (fst kv) (snd kv)) kwargs defaults)
  else None.

(** [profile.<name>]: the instance dictionary, then the class. *)
Definition getattr (p : UserProfile) (name : string) : option PyVal :=
  match dict_get p name with
  | Some v => Some v
  | None => dict_get class_defaults name
  end.

(** [hasattr(profile, key)] for a key that does not start with an
    underscore: an instance attribute or an attribute of the class,
    its methods included. *)
Definition hasattr (p : UserProfile) (key : string) : bool :=
  (dict_has p key || dict_has class_defaults key || in_list key profile_methods)%bool.

(** [setattr(profile, key, value)]: the dataclass is neither frozen
    nor slotted, so the instance dictionary takes the value, also
    under the name of a method. *)
Definition setattr (p : UserProfile) (key : string) (v : PyVal) : UserProfile :=
  dict_set p key v.

(** [asdict(profile)]: the declared fields only; [None] when one is
    missing ([AttributeError]). *)
Fixpoint asdict_fields (p : UserProfile) (fields : list string) : option Dict :=
  match fields with
  | [] => Some []
  | f :: fs =>
      match getattr p f, asdict_fields p fs with
      | Some v, Some d => Some ((f, v) :: d)
      | _, _ => None
      end
  end.

Definition asdict (p : UserProfile) : option Dict := asdict_fields p profile_fields.

Record FootprintRecord := {
  record_id : string;
  fr_user_id : string;
  fr_timestamp : string;
  fr_category : string;
  activity : string;
  emissions_kg_co2 : float;
  details : Dict
}.

Inductive Metadata :=
| MetaDict (d : Dict)
| MetaFootprint (r : FootprintRecord).

Record MemoryEntry := {
  entry_id : string;
  me_user_id : string;
  app_name : string;
  me_content : string;
  me_category : string;
  me_timestamp : string;
  metadata : Metadata
}.

(** The service: its three dictionaries, the profile objects they
    refer to (a profile is stored by reference and patched in place),
    and how many times the clock and the UUID generator were read. *)
Record State := {
  heap : gmap nat UserProfile;
  _profiles : gmap string nat;
  _memories : gmap string (list MemoryEntry);
  _footprint_history : gmap string (list FootprintRecord);
  clock : nat;
  uuids : nat
}.

(** [ClimateGuardMemoryService()] *)
Definition init : State :=
  {| heap := ∅; _profiles := ∅; _memories := ∅; _footprint_history := ∅;
     clock := 0; uuids := 0 |}.

(** The caller builds a profile object: the next free reference. *)
Definition alloc (st : State) (p : UserProfile) : State * nat :=
  let ref := fresh (dom (heap st)) in
  ({| heap := <[ref := p]> (heap st); _profiles := _profiles st;
      _memories := _memories st; _footprint_history := _footprint_history st;
      clock := clock st; uuids := uuids st |}, ref).

Inductive outcome (A : Type) :=
| Returned (a : A)
| Raised (exc : string).
Arguments Returned {A} a.
Arguments Raised {A} exc.

Section WithRuntime.
Variable rt : Runtime.
Variable o : SetOrder.

(** [_generate_id] *)
Definition _generate_id (st : State) (prefix : string) : State * string :=
  ({| heap := heap st; _profiles := _profiles st; _memories := _memories st;
      _footprint_history := _footprint_history st;
      clock := clock st; uuids := S (uuids st) |},
   prefix +:+ "_" +:+ uuid4_hex12 rt (uuids st)).

(** [datetime.now().isoformat()] *)
Definition now (st : State) : State * string :=
  ({| heap := heap st; _profiles := _profiles st; _memories := _memories st;
      _footprint_history := _footprint_history st;
      clock := S (clock st); uuids := uuids st |},
   now_isoformat rt (clock st)).

(** [add_memory]; [metadata or {}] *)
Definition add_memory (st : State) (user_id app content category : string)
    (meta : option Metadata) : State * Dict :=
  let '(st1, id) := _generate_id st "mem" in
  let '(st2, ts) := now st1 in
  let entry :=
    {| entry_id := id; me_user_id := user_id; app_name := app;
       me_content := content; me_category := category; me_timestamp := ts;
       metadata := match meta with Some m => m | None => MetaDict [] end |} in
  let old := default [] (_memories st2 !! user_id) in
  ({| heap := heap st2; _profiles := _profiles st2;
      _memories := <[user_id := old ++ [entry]]> (_memories st2);
      _footprint_history := _footprint_history st2;
      clock := clock st2; uuids := uuids st2 |},
   [ ("status", VStr "success"); ("entry_id", VStr id);
     ("message", VStr "Memory added successfully") ]).

(** [profile.<name>] inside an f-string; a missing attribute raises. *)
Definition attr_str (p : UserProfile) (name : string) : option string :=
  option_map (py_str rt) (getattr p name).

Definition set_heap (st : State) (ref : nat) (p : UserProfile) : State :=
  {| heap := <[ref := p]> (heap st); _profiles := _profiles st;
     _memories := _memories st; _footprint_history := _footprint_history st;
     clock := clock st; uuids := uuids st |}.

Definition set_profile (st : State) (user_id : string) (ref : nat) : State :=
  {| heap := heap st; _profiles := <[user_id := ref]> (_profiles st);
     _memories := _memories st; _footprint_history := _footprint_history st;
     clock := clock st; uuids := uuids st |}.

(** [save_profile(profile)], the profile given by reference. [None]
    where the embedding stops: a dangling reference, or a [user_id]
    that is not a [str]. *)
Definition save_profile (st : State) (ref : nat) : option (State * outcome Dict) :=
  match heap st !! ref with
  | None => None
  | Some p =>
      let '(st1, ts) := now st in
      let p1 := setattr p "updated_at" (VStr ts) in
      let st2 := set_heap st1 ref p1 in
      match getattr p1 "user_id" with
      | None => Some (st2, Raised "AttributeError")
      | Some (VStr uid) =>
          let st3 := set_profile st2 uid ref in
          match attr_str p1 "diet_type", attr_str p1 "primary_transport",
                attr_str p1 "city" with
          | Some diet, Some transport, Some city =>
              (* metadata=profile.to_dict(): an instance attribute of that
                 name hides the method, and a value is not callable *)
              if dict_has p1 "to_dict" then Some (st3, Raised "TypeError")
              else
                match asdict p1 with
                | None => Some (st3, Raised "AttributeError")
                | Some d =>
                    let content := "User profile: " +:+ diet +:+ " diet, " +:+ transport
                                   +:+ " transport, lives in " +:+ city in
                    let '(st4, _) := add_memory st3 uid "climateguard" content "profile"
                                       (Some (MetaDict d)) in
                    Some (st4, Returned [ ("status", VStr "success");
                                          ("user_id", VStr uid);
                                          ("message", VStr "Profile saved") ])
                end
          | _, _, _ => Some (st3, Raised "AttributeError")
          end
      | Some _ => None
      end
  end.

(** [get_profile]: the stored object, or [None]. *)
Definition get_profile (st : State) (user_id : string) : option UserProfile :=
  match _profiles st !! user_id with
  | Some ref => heap st !! ref
  | None => None
  end.

Definition starts_with_underscore (key : string) : bool := String.prefix "_" key.

(** The loop of [update_profile] over [updates.items()]. *)
Definition apply_updates (p : UserProfile) (updates : Dict) : UserProfile :=
  fold_left (fun q kv => if hasattr q (fst kv) then setattr q (fst kv) (snd kv) else q)
            updates p.

(** [update_profile(user_id, updates)]. [None] where the embedding
    stops: a key that starts with an underscore (there [hasattr]
    depends on the interpreter's object model), and where
    [save_profile] stops. *)
Definition update_profile (st : State) (user_id : string) (updates : Dict)
    : option (State * outcome Dict) :=
  match _profiles st !! user_id with
  | None =>
      Some (st, Returned [ ("status", VStr "error");
                           ("message", VStr ("Profile not found for user " +:+ user_id)) ])
  | Some ref =>
      match heap st !! ref with
      | None => None
      | Some p =>
          if existsb (fun kv => starts_with_underscore (fst kv)) updates then None
          else
            let p1 := apply_updates p updates in
            let '(st1, ts) := now st in
            let p2 := setattr p1 "updated_at" (VStr ts) in
            save_profile (set_heap st1 ref p2) ref
      end
  end.

(** *** Retrieval *)

Record SearchHit := {
  hit_entry_id : string;
  hit_content : string;
  hit_category : string;
  hit_timestamp : string;
  relevance_score : Z;
  hit_metadata : Metadata
}.

(** Truth value of an optional string argument. *)
Definition truthy (c : option string) : bool :=
  match c with Some (String _ _) => true | _ => false end.

Definition category_skips (category : option string) (c : string) : bool :=
  match category with
  | Some cat => (truthy category && negb (String.eqb c cat))%bool
  | None => false
  end.

(** [set(query.lower().split())], as it is iterated. *)
Definition query_words (query : string) : list string :=
  set_list o (split (lower query)).

(** [sum(1 for word in query_words if word in content_lower)] *)
Definition score_of (words : list string) (mem : MemoryEntry) : Z :=
  let content_lower := lower (me_content mem) in
  Z.of_nat (length (List.filter (fun w => contains w content_lower) words)).

Definition scored_results (words : list string) (category : option string)
    (memories : list MemoryEntry) : list (Z * MemoryEntry) :=
  flat_map (fun mem =>
              if category_skips category (me_category mem) then []
              else let score := score_of words mem in
                   if 0 <? score then [(score, mem)] else [])
           memories.

(** [l.sort(key=lambda x: x[0], reverse=True)]: descending and
    stable, equal keys keep their order. *)
Fixpoint insert_desc (x : Z * MemoryEntry) (l : list (Z * MemoryEntry)) :=
  match l with
  | [] => [x]
  | y :: l' => if fst y <=? fst x then x :: l else y :: insert_desc x l'
  end.

Definition sort_desc (l : list (Z * MemoryEntry)) : list (Z * MemoryEntry) :=
  fold_right insert_desc [] l.

Definition hit_of (sm : Z * MemoryEntry) : SearchHit :=
  {| hit_entry_id := entry_id (snd sm); hit_content := me_content (snd sm);
     hit_category := me_category (snd sm); hit_timestamp := me_timestamp (snd sm);
     relevance_score := fst sm; hit_metadata := metadata (snd sm) |}.

Definition search_memory (st : State) (app user_id query : string)
    (category : option string) (limit : Z) : list SearchHit :=
  match default [] (_memories st !! user_id) with
  | [] => []
  | memories =>
      let scored := scored_results (query_words query) category memories in
      map hit_of (list_slice_to limit (sort_desc scored))
  end.

(** *** Footprint history *)

Definition record_footprint (st : State) (user_id category act : string)
    (emissions : float) (det : option Dict) : State * Dict :=
  let '(st1, id) := _generate_id st "fp" in
  let '(st2, ts) := now st1 in
  let record :=
    {| record_id := id; fr_user_id := user_id; fr_timestamp := ts;
       fr_category := category; activity := act; emissions_kg_co2 := emissions;
       details := match det with Some d => d | None => [] end |} in
  let old := default [] (_footprint_history st2 !! user_id) in
  let st3 :=
    {| heap := heap st2; _profiles := _profiles st2; _memories := _memories st2;
       _footprint_history := <[user_id := old ++ [record]]> (_footprint_history st2);
       clock := clock st2; uuids := uuids st2 |} in
  let content := "Footprint recorded: " +:+ act +:+ " - " +:+ float_str rt emissions
                 +:+ " kg CO2 (" +:+ category +:+ ")" in
  let '(st4, _) := add_memory st3 user_id "climateguard" content "footprint"
                     (Some (MetaFootprint record)) in
  (st4, [ ("status", VStr "success"); ("record_id", VStr id);
          ("emissions_kg_co2", VFloat emissions) ]).

Record History := {
  h_status : string;
  h_user_id : string;
  records_count : Z;
  total_emissions_kg_co2 : float;
  by_category : list (string * float);
  h_records : list FootprintRecord;
  trend : string
}.

(** [by_category[c] = by_category.get(c, 0) + x] *)
Fixpoint add_to_category (d : list (string * float)) (c : string) (x : float) :=
  match d with
  | [] => [(c, PrimFloat.add 0 x)]
  | (k, v) :: d' =>
      if String.eqb k c then (k, PrimFloat.add v x) :: d'
      else (k, v) :: add_to_category d' c x
  end.

Definition first_emissions (records : list FootprintRecord) : float :=
  match records with r :: _ => emissions_kg_co2 r | [] => 0%float end.

Definition last_emissions (records : list FootprintRecord) : float :=
  match rev records with r :: _ => emissions_kg_co2 r | [] => 0%float end.

(** [get_footprint_history(user_id, category, days)] *)
Definition get_footprint_history (st : State) (user_id : string)
    (category : option string) (days : Z) : History :=
  let all := default [] (_footprint_history st !! user_id) in
  let records :=
    match category with
    | Some cat => if truthy category
                  then List.filter (fun r => String.eqb (fr_category r) cat) all
                  else all
    | None => all
    end in
  let by_cat :=
    fold_left (fun d r => add_to_category d (fr_category r) (emissions_kg_co2 r))
              records [] in
  {| h_status := "success";
     h_user_id := user_id;
     records_count := Z.of_nat (length records);
     total_emissions_kg_co2 :=
       match records with
       | [] => 0%float (* the empty sum is the integer 0, and so is its rounding *)
       | _ => round2 rt (float_sum rt (map emissions_kg_co2 records))
       end;
     by_category := map (fun kv => (fst kv, round2 rt (snd kv))) by_cat;
     h_records := list_slice_from (-10) records;
     trend := if ((1 <? Z.of_nat (length records)) &&
                  PrimFloat.ltb (last_emissions records) (first_emissions records))%bool
              then "improving" else "needs_attention" |}.

End WithRuntime.

End MemoryService.

(** ** The rest of [src/memory/memory_service.py]: [from_dict],
    sessions and habits *)

Module ServiceRest.
Import PyStr MemoryService.

(** [bool(v)] *)
Definition py_truthy (v : PyVal) : bool :=
  match v with
  | VNone => false
  | VBool b => b
  | VInt z => negb (z =? 0)
  | VFloat f => negb (PrimFloat.eqb f 0)
  | VStr s => nonempty s
  | VStrList l => match l with [] => false | _ :: _ => true end
  end.

(** [UserProfile.from_dict(data)]: the entries of [data] that name a
    declared field are the keyword arguments of the constructor;
    [None] when [user_id] is not among them ([TypeError]). A [Dict] has
    distinct keys. The two timestamps are what the default factories
    would read when [data] does not give them. *)
Definition from_dict (created updated : string) (data : Dict) : option UserProfile :=
  let kwargs := List.filter (fun kv => in_list (fst kv) profile_fields) data in
  match dict_get kwargs "user_id" with
  | Some uid => new_profile created updated uid kwargs
  | None => None
  end.

(** An ADK session as [add_session_to_memory] reads it: the
    attributes [user_id] and [id], each possibly absent. *)
Record Session := { session_user_id : option string; session_id : option string }.

(** [m.metadata.get("completed", False)], as a truth value. *)
Definition meta_completed (m : Metadata) : bool :=
  match m with
  | MetaDict d => match dict_get d "completed" with
                  | Some v => py_truthy v
                  | None => false
                  end
  | MetaFootprint _ => false
  end.

Record Streak := {
  streak_status : string;
  streak_habit : string;
  total_tracked : Z;
  streak_completed : Z;
  completion_rate : float;
  streak_message : string
}.

(** [str(n)] of an [int]. *)
Definition int_str (n : Z) : string := NilZero.string_of_int (Z.to_int n).

Section WithRuntime.
Variable rt : Runtime.
(** [round(x, 1)] on floats, of the interpreter. *)
Variable round1 : float -> float.

(** [round(c / n * 100, 1) if n else 0] *)
Definition percentage (c n : Z) : float :=
  if 0 <? n then round1 (PrimFloat.mul (Compactor.true_div c n) 100)
  else 0%float.

(** [add_session_to_memory(session)] *)
Definition add_session_to_memory (st : State) (session : Session) : State * Dict :=
  let user_id := match session_user_id session with Some u => u | None => "unknown" end in
  let sid := match session_id session with Some i => i | None => "unknown" end in
  let extracted_facts :=
    [ "Session " +:+ sid +:+ " completed"; "User discussed carbon footprint goals" ] in
  let st' :=
    fold_left (fun s fact =>
                 fst (add_memory rt s user_id "climateguard" fact "conversation"
                        (Some (MetaDict [("session_id", VStr sid)]))))
              extracted_facts st in
  (st', [ ("status", VStr "success");
          ("facts_extracted", VInt (Z.of_nat (length extracted_facts)));
          ("message", VStr "Session transferred to memory") ]).

(** [record_habit(user_id, habit, completed)] *)
Definition record_habit (st : State) (user_id habit : string) (completed : bool)
    : State * Dict :=
  let content := "Habit " +:+ (if completed then "completed" else "missed") +:+ ": " +:+ habit in
  let '(st', _) := add_memory rt st user_id "climateguard" content "habit"
                     (Some (MetaDict [("habit", VStr habit); ("completed", VBool completed)])) in
  (st', [ ("status", VStr "success"); ("habit", VStr habit);
          ("completed", VBool completed); ("message", VStr "Habit recorded") ]).

(** The memories [get_habit_streak] counts. *)
Definition habit_memories (st : State) (user_id habit : string) : list MemoryEntry :=
  List.filter (fun m => (String.eqb (me_category m) "habit" &&
                         contains (lower habit) (lower (me_content m)))%bool)
              (default [] (_memories st !! user_id)).

(** [get_habit_streak(user_id, habit)] *)
Definition get_habit_streak (st : State) (user_id habit : string) : Streak :=
  let found := habit_memories st user_id habit in
  let completed_count :=
    Z.of_nat (length (List.filter (fun m => meta_completed (metadata m)) found)) in
  {| streak_status := "success";
     streak_habit := habit;
     total_tracked := Z.of_nat (length found);
     streak_completed := completed_count;
     completion_rate := percentage completed_count (Z.of_nat (length found));
     streak_message := "Keep going! " +:+ int_str completed_count
                       +:+ " completions recorded." |}.

End WithRuntime.

End ServiceRest.

(** ** The tools of the agents that call the service

    [src/agents/profile.py], [src/agents/supervisor.py] and
    [src/agents/planner.py]. Each tool fetches the shared service and
    runs one or two of its coroutines to completion; here it is the
    function of the service state. A tool that runs one coroutine
    answers alike whether or not an event loop is running where it is
    called; [get_user_status] runs two and does not. *)

Module AgentTools.
Import PyStr MemoryService ServiceRest.

(** The answer of [get_user_profile]. *)
Inductive ProfileReply :=
| ProfileFound (profile : Dict)       (* {"status": "success", "profile": ...} *)
| ProfileNotFound (message : string). (* {"status": "not_found", "message": ...} *)

(** [get_user_profile(user_id)] *)
Definition get_user_profile (st : State) (user_id : string) : outcome ProfileReply :=
  match get_profile st user_id with
  | Some p =>
      if dict_has p "to_dict" then Raised "TypeError"
      else match asdict p with
           | Some d => Returned (ProfileFound d)
           | None => Raised "AttributeError"
           end
  | None =>
      Returned (ProfileNotFound ("No profile found for " +:+ user_id
                                 +:+ ". Please complete onboarding first."))
  end.

(** [update_user_preference(user_id, preference_key, preference_value)] *)
Definition update_user_preference (rt : Runtime) (st : State)
    (user_id preference_key preference_value : string) : option (State * outcome Dict) :=
  update_profile rt st user_id [(preference_key, VStr preference_value)].

(** [profile.<name>] for an attribute with a class-level default: the
    lookup cannot fail. *)
Definition attr_or_default (p : UserProfile) (name : string) : PyVal :=
  match getattr p name with Some v => v | None => VStr "" end.

Record UserStatus := {
  us_user_id : string;
  has_profile : bool;
  (** location, diet, transport *)
  us_profile_summary : option (string * PyVal * PyVal);
  has_footprint_history : bool;
  footprint_records : Z;
  recommended_next_step : string
}.

(** [get_user_status(user_id)] of the supervisor. The tool runs two
    coroutines, and the second under [except Exception: history = None].
    [loop_running] says whether an event loop is running in the calling
    thread. When one is, both coroutines run in a worker thread and the
    history is read. When none is, the [asyncio.run] that fetched the
    profile leaves the thread without an event loop, the
    [asyncio.get_event_loop()] of the second block raises
    [RuntimeError], and the history is [None]. *)
Definition get_user_status (rt : Runtime) (loop_running : bool) (st : State)
    (user_id : string) : UserStatus :=
  let profile := get_profile st user_id in
  let history :=
    match profile with
    | Some _ =>
        if loop_running then Some (get_footprint_history rt st user_id None 30)
        else None
    | None => None
    end in
  let has_profile := match profile with Some _ => true | None => false end in
  let has_history :=
    match history with Some h => 0 <? records_count h | None => false end in
  {| us_user_id := user_id;
     has_profile := has_profile;
     us_profile_summary :=
       match profile with
       | Some p => Some (py_str rt (attr_or_default p "city") +:+ ", "
                         +:+ py_str rt (attr_or_default p "country"),
                         attr_or_default p "diet_type",
                         attr_or_default p "primary_transport")
       | None => None
       end;
     has_footprint_history := has_history;
     footprint_records := match history with Some h => records_count h | None => 0 end;
     recommended_next_step :=
       if (has_profile && negb has_history)%bool then "Calculate your footprint"
       else if (has_profile && has_history)%bool then "Create a weekly plan"
       else "Complete your profile first" |}.

Record PlanProgress := {
  pp_user_id : string;
  habits_tracked : Z;
  habits_completed : Z;
  pp_completion_rate : float;
  estimated_co2_saved_kg : Z;
  pp_message : string;
  next_milestone : string
}.

(** [get_plan_progress(user_id, plan_id)] of the planner; [plan_id] is
    not read. *)
Definition get_plan_progress (o : SetOrder) (round1 : float -> float) (st : State)
    (user_id : string) (plan_id : option string) : PlanProgress :=
  let habits := search_memory o st "climateguard" user_id "habit completed" (Some "habit") 5 in
  let completed_count :=
    Z.of_nat (length (List.filter (fun h => contains "completed" (lower (hit_content h)))
                                  habits)) in
  let total_tracked := Z.of_nat (length habits) in
  {| pp_user_id := user_id;
     habits_tracked := total_tracked;
     habits_completed := completed_count;
     pp_completion_rate := percentage round1 completed_count total_tracked;
     estimated_co2_saved_kg := completed_count * 5;
     pp_message := "You've completed " +:+ int_str completed_count
                   +:+ " sustainable actions! Keep it up!";
     next_milestone := "Complete " +:+ int_str (10 - completed_count mod 10)
                       +:+ " more actions to reach your next milestone!" |}.

End AgentTools.

(** ** [src/agents/planner.py]: the table of actions and
    [track_action_completion] *)

Module Planner.
Import PyStr MemoryService ServiceRest.

(** An entry of [CARBON_ACTIONS]. Its description is left out: no
    function embedded here reads it. *)
Record Action := {
  action_id : string;
  action_name : string;
  weekly_savings_kg : float;
  difficulty : string;
  action_category : string
}.

Definition action (id name : string) (savings : float) (level category : string) : Action :=
  {| action_id := id; action_name := name; weekly_savings_kg := savings;
     difficulty := level; action_category := category |}.

Definition CARBON_ACTIONS : list (string * list Action) :=
  [ ("diet",
     [ action "meatless_monday" "Meatless Monday" 6.75 "easy" "diet";
       action "reduce_beef" "Swap Beef for Chicken" 10.0 "easy" "diet";
       action "plant_lunch" "Plant-Based Lunches" 15.0 "medium" "diet";
       action "local_food" "Buy Local This Week" 3.0 "easy" "diet" ]);
    ("transport",
     [ action "transit_day" "Public Transit Day" 8.0 "easy" "transport";
       action "carpool" "Carpool Twice" 10.5 "easy" "transport";
       action "bike_short_trips" "Bike for Errands" 5.0 "medium" "transport";
       action "combine_trips" "Combine Errands" 4.0 "easy" "transport";
       action "wfh_day" "Work From Home Day" 10.5 "easy" "transport" ]);
    ("energy",
     [ action "thermostat_adjust" "Adjust Thermostat" 3.0 "easy" "energy";
       action "unplug_devices" "Unplug Standby Devices" 1.5 "easy" "energy";
       action "short_showers" "Shorter Showers" 2.0 "easy" "energy";
       action "cold_wash" "Cold Water Laundry" 1.0 "easy" "energy";
       action "air_dry" "Air Dry Clothes" 2.5 "easy" "energy" ]);
    ("lifestyle",
     [ action "no_plastic_week" "Plastic-Free Week" 1.0 "medium" "lifestyle";
       action "declutter_donate" "Declutter & Donate" 2.0 "easy" "lifestyle";
       action "repair_item" "Repair Don't Replace" 5.0 "medium" "lifestyle" ]) ].

(** The search of [track_action_completion]: in each category the
    inner loop stops at the first action with the identifier; the
    outer loop goes on, so a later category overrides an earlier one. *)
Definition find_action (id : string) : option Action :=
  fold_left (fun found category =>
               match find (fun a => String.eqb (action_id a) id) (snd category) with
               | Some a => Some a
               | None => found
               end)
            CARBON_ACTIONS None.

(** The answer of [track_action_completion], without its message,
    which for a completed action holds a character outside ASCII. The
    saving of a missed action, the integer 0, is the float 0. *)
Inductive TrackReply :=
| ActionNotFound (message : string)
| Tracked (id name : string) (completed : bool) (co2_saved_kg : float)
          (notes encouragement : string).

(** [track_action_completion(user_id, action_id, completed, notes)] *)
Definition track_action_completion (rt : Runtime) (st : State)
    (user_id id : string) (completed : bool) (notes : string) : State * TrackReply :=
  match find_action id with
  | None => (st, ActionNotFound ("Action " +:+ id +:+ " not found"))
  | Some a =>
      let '(st', _) := record_habit rt st user_id (action_name a) completed in
      (st', Tracked id (action_name a) completed
              (if completed then weekly_savings_kg a else 0%float)
              notes
              (if completed
               then "Every action counts! Keep building those sustainable habits."
               else "Tomorrow is a new opportunity!"))
  end.

End Planner.

(* ================================================================== *)
(** * Part II: the notions of the statements                           *)
(* ================================================================== *)

(** ** Text *)

Module TextNotions.
Import PyStr.

(** Every character of [s] satisfies [q]. *)
Fixpoint all_chars (q : ascii -> bool) (s : string) : bool :=
  match s with
  | EmptyString => true
  | String c s' => (q c && all_chars q s')%bool
  end.


(** The text is ASCII: there [lower] is Python's [str.lower]. *)
Definition ascii_text (s : string) : bool :=
  all_chars (fun c => Nat.ltb (nat_of_ascii c) 128) s.

End TextNotions.

(** ** One iteration order *)

Module SetOrders.

(** The order in which [nodup] lists the elements: one admissible
    iteration order, used for the concrete runs below. *)
Definition list_order : SetOrder :=
  {| set_list := nodup string_dec;
     set_list_perm := fun xs => Permutation_refl (nodup string_dec xs) |}.

End SetOrders.

(** ** Concrete conversations *)

Module Conversations.
Import PyStr Compactor.

Definition user (text : string) : Turn := {| role := Some "user"; content := Some text |}.
Definition assistant (text : string) : Turn :=
  {| role := Some "assistant"; content := Some text |}.

(** The conversation of the module's self-test. *)
Definition mock_turns : list Turn :=
  [ user "Hi! I want to reduce my carbon footprint. I live in San Francisco.";
    assistant "Great! Let me help you. First, tell me about your diet and transportation habits.";
    user "I eat beef about 4 times a week and drive a petrol car 30km daily to work.";
    assistant "Your estimated daily emissions are 15.2 kg CO2. The beef consumption contributes about 27 kg CO2 per week.";
    user "Wow that's a lot! I commit to trying Meatless Mondays starting next week.";
    assistant "Excellent commitment! Meatless Mondays could save you approximately 108 kg CO2 per month.";
    user "I will also look into switching to an electric vehicle next year.";
    assistant "That's a great goal! An EV switch could reduce your transport emissions by 75%.";
    user "What's my total weekly footprint now?";
    assistant "Your current weekly footprint is approximately 150 kg CO2, including food, transport, and home energy." ].


(** Ten turns, the fifth with the commitment, and ten measurements
    reported in the first. *)
Definition crowded_turns : list Turn :=
  [ user "1 kg co2 2 kg co2 3 kg co2 4 kg co2 5 kg co2 6 kg co2 7 kg co2 8 kg co2 9 kg co2 10 kg co2";
    assistant "Noted."; user "Good"; assistant "Anything else?";
    user "I commit to Meatless Mondays";
    assistant "Good."; user "What else?"; assistant "Cycle more.";
    user "Thanks"; assistant "You are welcome" ].

(** One turn that reports eleven measurements. *)
Definition eleven_measurements : list Turn :=
  [ user "1 kg co2 2 kg co2 3 kg co2 4 kg co2 5 kg co2 6 kg co2 7 kg co2 8 kg co2 9 kg co2 10 kg co2 11 kg co2" ].

(** One turn with a commitment and nothing before it. *)
Definition lone_commitment : list Turn := [ user "I commit to reduce emissions" ].



End Conversations.

(** ** Profiles, histories and patches *)

Module StoreNotions.
Import PyStr MemoryService.

(** Every declared field is an instance attribute: a profile object
    as the constructor leaves it, whatever was then written to it. *)
Definition has_fields (p : UserProfile) : bool := forallb (dict_has p) profile_fields.

(** The same, and [to_dict] is still the method of the class. *)
Definition intact (p : UserProfile) : bool :=
  (has_fields p && negb (dict_has p "to_dict"))%bool.

(** [str(profile.<name>)] *)
Definition field_str (rt : Runtime) (p : UserProfile) (name : string) : string :=
  match getattr p name with Some v => py_str rt v | None => "" end.

(** The text of the memory entry that describes a profile. *)
Definition profile_summary (rt : Runtime) (p : UserProfile) : string :=
  "User profile: " +:+ field_str rt p "diet_type" +:+ " diet, "
  +:+ field_str rt p "primary_transport" +:+ " transport, lives in "
  +:+ field_str rt p "city".

Definition profile_saved (uid : string) : Dict :=
  [ ("status", VStr "success"); ("user_id", VStr uid); ("message", VStr "Profile saved") ].

(** The records a history query looks at: those of the identity,
    restricted to the category when one is given. *)
Definition filtered_records (st : State) (uid : string) (category : option string)
    : list FootprintRecord :=
  let all := default [] (_footprint_history st !! uid) in
  match category with
  | Some (String a c) => List.filter (fun r => String.eqb (fr_category r) (String a c)) all
  | _ => all
  end.

(** The instance attributes are exactly the declared fields, in order:
    a profile object as the constructor builds it. *)
Definition plain (p : UserProfile) : Prop := map fst p = profile_fields.

(** The entries of a patch that name a declared field. *)
Definition recognized (updates : Dict) : Dict :=
  List.filter (fun kv => in_list (fst kv) profile_fields) updates.

(** Writing each entry of a patch to the object. *)
Definition write_all (p : UserProfile) (updates : Dict) : UserProfile :=
  fold_left (fun q kv => setattr q (fst kv) (snd kv)) updates p.

End StoreNotions.

(** ** Retrieval, in the words of the specification *)

Module RetrievalNotions.
Import PyStr MemoryService.


(** The query as a set of lower-cased words. *)
Definition word_set (query : string) : list string :=
  nodup string_dec (split (lower query)).

(** How many words of the set occur in the lower-cased content. *)
Definition overlap (query : string) (mem : MemoryEntry) : Z :=
  Z.of_nat (length (List.filter (fun w => contains w (lower (me_content mem)))
                                (word_set query))).

(** No category asked for, or the entry's own. *)
Definition in_category (category : option string) (mem : MemoryEntry) : bool :=
  match category with
  | Some (String a c) => String.eqb (me_category mem) (String a c)
  | _ => true
  end.

(** The entries that score, with their score, in insertion order. *)
Definition candidates (query : string) (category : option string)
    (memories : list MemoryEntry) : list (Z * MemoryEntry) :=
  map (fun m => (overlap query m, m))
      (List.filter (fun m => (in_category category m && (0 <? overlap query m))%bool)
                   memories).

End RetrievalNotions.

(** ** Concrete stores *)

Module Stores.
Import PyStr MemoryService.

(** A stand-in runtime for the concrete runs: the clock and the UUID
    generator count their draws. No run below looks at how numbers
    are printed, rounded or summed. *)
Definition clockwork : Runtime :=
  {| now_isoformat := fun n => "2025-01-01T00:00:" +:+ NilZero.string_of_uint (Nat.to_uint n);
     uuid4_hex12 := fun n => "00000000000" +:+ NilZero.string_of_uint (Nat.to_uint n);
     float_str := fun _ => "<float>";
     list_str := fun _ => "<list>";
     round2 := fun x => x;
     float_sum := fun l => fold_left PrimFloat.add l 0%float |}.

Definition built (p : option UserProfile) : UserProfile := default [] p.

(** [UserProfile(user_id="", city="Paris", diet_type="vegan")] *)
Definition anonymous : UserProfile :=
  built (new_profile "2025-01-01T00:00:00" "2025-01-01T00:00:00" (VStr "")
           [ ("city", VStr "Paris"); ("diet_type", VStr "vegan") ]).

(** [UserProfile(user_id="alice", city="Oslo", primary_transport="car")] *)
Definition alice : UserProfile :=
  built (new_profile "2025-01-01T00:00:00" "2025-01-01T00:00:00" (VStr "alice")
           [ ("city", VStr "Oslo"); ("primary_transport", VStr "car") ]).

(** A fresh service and one profile object in the caller's hands. *)
Definition with_object (p : UserProfile) : State := fst (alloc init p).

(** The service after [save_profile(alice)]. *)
Definition alice_saved : State :=
  match save_profile clockwork (with_object alice) 0 with
  | Some (st, _) => st
  | None => init
  end.



End Stores.

(** ** Events and facts *)

Module CompactorNotions.
Import PyStr Compactor.


(** The labels a fact can carry. *)
Definition fact_labels : list string :=
  [ "Emissions data: "; "Commitment: "; "Diet: "; "Transport: "; "Location: " ].

(** How many facts carry a label. *)
Definition count_labelled (label : string) (facts : list string) : nat :=
  length (List.filter (String.prefix label) facts).

End CompactorNotions.

(** ** The service seen by its clients *)

Module ServiceNotions.
Import PyStr MemoryService ServiceRest.

(** What the service holds for an identity. *)
Definition memories_of (st : State) (uid : string) : list MemoryEntry :=
  default [] (_memories st !! uid).

Definition records_of (st : State) (uid : string) : list FootprintRecord :=
  default [] (_footprint_history st !! uid).

(** The entry that [add_memory] builds in state [st]. *)
Definition new_entry (rt : Runtime) (st : State) (uid app content category : string)
    (meta : option Metadata) : MemoryEntry :=
  {| entry_id := "mem_" +:+ uuid4_hex12 rt (uuids st);
     me_user_id := uid; app_name := app; me_content := content;
     me_category := category; me_timestamp := now_isoformat rt (clock st);
     metadata := match meta with Some m => m | None => MetaDict [] end |}.

(** The record that [record_footprint] builds in state [st]. *)
Definition new_record (rt : Runtime) (st : State) (uid category act : string)
    (emissions : float) (det : option Dict) : FootprintRecord :=
  {| record_id := "fp_" +:+ uuid4_hex12 rt (uuids st);
     fr_user_id := uid; fr_timestamp := now_isoformat rt (clock st);
     fr_category := category; activity := act; emissions_kg_co2 := emissions;
     details := match det with Some d => d | None => [] end |}.

(** One call of a client: on the service, or building a profile object
    that it will hand to [save_profile]. *)
Inductive Call :=
| AddMemory (user_id app content category : string) (meta : option Metadata)
| RecordFootprint (user_id category act : string) (emissions : float) (det : option Dict)
| RecordHabit (user_id habit : string) (completed : bool)
| AddSession (session : Session)
| BuildProfile (p : UserProfile)
| SaveProfile (ref : nat)
| UpdateProfile (user_id : string) (updates : Dict).

(** The state after a call, whether it returned or raised; [None]
    where the embedding stops. *)
Definition run_call (rt : Runtime) (st : State) (c : Call) : option State :=
  match c with
  | AddMemory uid app content category meta =>
      Some (fst (add_memory rt st uid app content category meta))
  | RecordFootprint uid category act e det =>
      Some (fst (record_footprint rt st uid category act e det))
  | RecordHabit uid habit completed => Some (fst (record_habit rt st uid habit completed))
  | AddSession session => Some (fst (add_session_to_memory rt st session))
  | BuildProfile p => Some (fst (alloc st p))
  | SaveProfile ref => option_map fst (save_profile rt st ref)
  | UpdateProfile uid updates => option_map fst (update_profile rt st uid updates)
  end.

Fixpoint run_calls (rt : Runtime) (st : State) (calls : list Call) : option State :=
  match calls with
  | [] => Some st
  | c :: rest =>
      match run_call rt st c with
      | Some st' => run_calls rt st' rest
      | None => None
      end
  end.

(** The identity whose memories or measurements a call adds to, for
    the calls that name it. *)
Definition writes_to (c : Call) : option string :=
  match c with
  | AddMemory uid _ _ _ _ => Some uid
  | RecordFootprint uid _ _ _ _ => Some uid
  | RecordHabit uid _ _ => Some uid
  | AddSession session =>
      Some (match session_user_id session with Some u => u | None => "unknown" end)
  | _ => None
  end.

(** [st'] holds all that [st] holds, in the same places. *)
Definition extends (st st' : State) : Prop :=
  (forall uid, exists more, memories_of st' uid = memories_of st uid ++ more) /\
  (forall uid, exists more, records_of st' uid = records_of st uid ++ more) /\
  (forall uid, is_Some (_profiles st !! uid) -> is_Some (_profiles st' !! uid)) /\
  (forall ref, is_Some (heap st !! ref) -> is_Some (heap st' !! ref)) /\
  (clock st <= clock st')%nat /\ (uuids st <= uuids st')%nat.

(** What is stored is filed where it belongs: a memory and a
    measurement under the identity they name, with an identifier of
    their kind; a measurement with its mirror among the memories; a
    profile key with an object behind it. *)
Definition consistent (st : State) : Prop :=
  (forall uid e, In e (memories_of st uid) ->
     me_user_id e = uid /\ String.prefix "mem_" (entry_id e) = true) /\
  (forall uid r, In r (records_of st uid) ->
     fr_user_id r = uid /\ String.prefix "fp_" (record_id r) = true /\
     exists e, In e (memories_of st uid) /\ me_category e = "footprint" /\
               metadata e = MetaFootprint r) /\
  (forall uid ref, _profiles st !! uid = Some ref -> is_Some (heap st !! ref)).

(** Does a history query with this category look at the record: no
    category or the empty one looks at all. *)
Definition record_in_category (category : option string) (r : FootprintRecord) : bool :=
  match category with
  | Some (String a c) => String.eqb (fr_category r) (String a c)
  | _ => true
  end.

(** The identifiers of the two kinds, by the number of the draw. *)
Definition mem_id (rt : Runtime) (n : nat) : string := "mem_" +:+ uuid4_hex12 rt n.
Definition fp_id (rt : Runtime) (n : nat) : string := "fp_" +:+ uuid4_hex12 rt n.

(** The identifiers that each identity holds come from draws below
    [bound], no draw used twice, neither by one identity nor by two. *)
Definition ids_numbered (f : nat -> string) (bound : nat) (ids_of : string -> list string)
    : Prop :=
  exists draws : string -> list nat,
    (forall uid, ids_of uid = map f (draws uid) /\
                 Forall (fun n => (n < bound)%nat) (draws uid) /\
                 List.NoDup (draws uid)) /\
    (forall u1 u2 n, In n (draws u1) -> In n (draws u2) -> u1 = u2).

Definition numbered (rt : Runtime) (st : State) : Prop :=
  ids_numbered (mem_id rt) (uuids st) (fun uid => map entry_id (memories_of st uid)) /\
  ids_numbered (fp_id rt) (uuids st) (fun uid => map record_id (records_of st uid)).

(** The distinct elements of a list, each at its first occurrence. *)
Definition first_occurrences (l : list string) : list string :=
  fold_left (fun seen c => if in_list c seen then seen else seen ++ [c]) l [].

(** The report of [get_footprint_history] over the records it looks at. *)
Definition history_of (rt : Runtime) (uid : string) (records : list FootprintRecord)
    : History :=
  {| h_status := "success";
     h_user_id := uid;
     records_count := Z.of_nat (length records);
     total_emissions_kg_co2 :=
       match records with
       | [] => 0%float
       | _ => round2 rt (float_sum rt (map emissions_kg_co2 records))
       end;
     by_category :=
       map (fun kv => (fst kv, round2 rt (snd kv)))
           (fold_left (fun d r => add_to_category d (fr_category r) (emissions_kg_co2 r))
                      records []);
     h_records := list_slice_from (-10) records;
     trend := if ((1 <? Z.of_nat (length records)) &&
                  PrimFloat.ltb (last_emissions records) (first_emissions records))%bool
              then "improving" else "needs_attention" |}.

End ServiceNotions.

(** ** The actions of the planner *)

Module PlannerNotions.
Import Planner.

(** Every action of the table, category after category. *)
Definition all_actions : list Action := flat_map snd CARBON_ACTIONS.

End PlannerNotions.

(** ** Concrete sequences of calls *)

Module Scenarios.
Import PyStr MemoryService ServiceRest ServiceNotions Stores.

(** The service after a sequence of calls from its start. *)
Definition after (calls : list Call) : State :=
  default init (run_calls clockwork init calls).

(** A profile, a measurement, a habit, a session and a patch. *)
Definition first_day : list Call :=
  [ BuildProfile alice; SaveProfile 0;
    RecordFootprint "alice" "transport" "Daily commute by car" 10.5%float None;
    RecordHabit "alice" "Meatless Monday" true;
    AddSession {| session_user_id := Some "alice"; session_id := Some "s1" |};
    UpdateProfile "alice" [("city", VStr "Rome")] ].

End Scenarios.

(* ================================================================== *)
(** * Part III: properties                                             *)
(* ================================================================== *)

(** ** Facts about the string primitives *)

Module PyStrFacts.
Import PyStr TextNotions.

Lemma app_nil_l (s : string) : "" +:+ s = s.
Proof. reflexivity. Qed.

Lemma app_cons (c : ascii) (s1 s2 : string) : String c s1 +:+ s2 = String c (s1 +:+ s2).
Proof. reflexivity. Qed.

Lemma app_assoc (s1 s2 s3 : string) : (s1 +:+ s2) +:+ s3 = s1 +:+ (s2 +:+ s3).
Proof.
  induction s1 as [|c s1 IH]; [reflexivity|]. rewrite !app_cons. now rewrite IH.
Qed.

Lemma app_empty_r (s : string) : s +:+ "" = s.
Proof. induction s as [|c s IH]; [reflexivity|]. rewrite app_cons. now rewrite IH. Qed.

Lemma length_app (s1 s2 : string) :
  String.length (s1 +:+ s2) = (String.length s1 + String.length s2)%nat.
Proof.
  induction s1 as [|c s1 IH]; [reflexivity|]. rewrite app_cons. simpl. now rewrite IH.
Qed.

Lemma prefix_app (n r : string) : String.prefix n (n +:+ r) = true.
Proof.
  induction n as [|c n IH].
  - now destruct r.
  - rewrite app_cons. simpl.
    destruct (ascii_dec c c) as [_|Hc]; [exact IH | now contradict Hc].
Qed.

Lemma prefix_inv (n h : string) : String.prefix n h = true -> exists r, h = n +:+ r.
Proof.
  revert h; induction n as [|c n IH]; intros h H.
  - now exists h.
  - destruct h as [|d h]; simpl in H; [discriminate|].
    destruct (ascii_dec c d) as [->|_]; [|discriminate].
    destruct (IH _ H) as [r ->]. now exists r.
Qed.

Lemma contains_nil (n : string) : contains n "" = String.prefix n "".
Proof. unfold contains. apply orb_false_r. Qed.

Lemma contains_cons (n : string) (c : ascii) (h : string) :
  contains n (String c h) = (String.prefix n (String c h) || contains n h)%bool.
Proof. reflexivity. Qed.

(** [needle in hay] holds exactly when [hay] splits around [needle]. *)
Lemma contains_iff (n h : string) :
  contains n h = true <-> exists a b, h = a +:+ n +:+ b.
Proof.
  split.
  - induction h as [|c h IH].
    + rewrite contains_nil. intros H.
      destruct (prefix_inv _ _ H) as [r Hr]. now exists "", r.
    + rewrite contains_cons, orb_true_iff. intros [H|H].
      * destruct (prefix_inv _ _ H) as [r Hr]. now exists "", r.
      * destruct (IH H) as (a & b & ->). now exists (String c a), b.
  - intros (a & b & ->). induction a as [|c a IH].
    + rewrite app_nil_l.
      destruct (n +:+ b) as [|d r] eqn:E.
      * now rewrite contains_nil, <- E, prefix_app.
      * now rewrite contains_cons, <- E, prefix_app.
    + rewrite app_cons, contains_cons, IH. apply orb_true_r.
Qed.

Lemma contains_refl (s : string) : contains s s = true.
Proof. apply contains_iff. exists "", "". now rewrite app_nil_l, app_empty_r. Qed.


Lemma contains_app_r (n s t : string) : contains n s = true -> contains n (t +:+ s) = true.
Proof.
  rewrite !contains_iff. intros (a & b & ->). exists (t +:+ a), b. now rewrite app_assoc.
Qed.

Lemma contains_app_l (n s t : string) : contains n s = true -> contains n (s +:+ t) = true.
Proof.
  rewrite !contains_iff. intros (a & b & ->). exists a, (b +:+ t). now rewrite !app_assoc.
Qed.

Lemma lower_app (s1 s2 : string) : lower (s1 +:+ s2) = lower s1 +:+ lower s2.
Proof.
  induction s1 as [|c s1 IH]; [reflexivity|]. rewrite app_cons. simpl.
  now rewrite IH, app_cons.
Qed.

(** Lower-casing both sides keeps an occurrence. *)
Lemma contains_lower (n h : string) :
  contains n h = true -> contains (lower n) (lower h) = true.
Proof.
  rewrite !contains_iff. intros (a & b & ->).
  exists (lower a), (lower b). now rewrite !lower_app.
Qed.










Lemma is_space_lower_char (c : ascii) : is_space (lower_char c) = is_space c.
Proof. destruct c as [[] [] [] [] [] [] [] []]; reflexivity. Qed.

Lemma split_on_space_lower (s : string) :
  split_on is_space (lower s) = map lower (split_on is_space s).
Proof.
  induction s as [|c s IH]; [reflexivity|].
  simpl. rewrite is_space_lower_char, IH.
  destruct (is_space c); [reflexivity|].
  destruct (split_on is_space s); reflexivity.
Qed.

(** Lower-casing a query and splitting it, or the other way round. *)
Lemma split_lower (s : string) : split (lower s) = map lower (split s).
Proof.
  unfold split. rewrite split_on_space_lower.
  induction (split_on is_space s) as [|x l IH]; [reflexivity|].
  simpl. destruct x; simpl; now rewrite IH.
Qed.

End PyStrFacts.

(** ** The iteration order of sets *)

Module SetOrderFacts.
Import SetOrders.

Lemma set_list_in (o : SetOrder) (xs : list string) (x : string) :
  In x (set_list o xs) <-> In x xs.
Proof.
  split; intros H.
  - eapply nodup_In, Permutation_in; [apply set_list_perm | exact H].
  - eapply Permutation_in; [apply Permutation_sym, set_list_perm|].
    now apply nodup_In.
Qed.

Lemma set_list_NoDup (o : SetOrder) (xs : list string) : List.NoDup (set_list o xs).
Proof.
  eapply Permutation_NoDup; [apply Permutation_sym, set_list_perm | apply NoDup_nodup].
Qed.

Lemma set_list_nil (o : SetOrder) : set_list o [] = [].
Proof. apply Permutation_nil, Permutation_sym, (set_list_perm o []). Qed.

Lemma set_list_not_nil (o : SetOrder) (xs : list string) :
  xs <> [] -> set_list o xs <> [].
Proof.
  destruct xs as [|x xs]; [congruence|]. intros _ E.
  assert (H : In x (set_list o (x :: xs))) by (apply set_list_in; now left).
  now rewrite E in H.
Qed.

End SetOrderFacts.

(** ** The compactor *)

Module CompactorFacts.
Import PyStr PyStrFacts Re Compactor SetOrderFacts.

Lemma raw_facts_empty (cfg : CompactionConfig) : raw_facts cfg "" = [].
Proof. reflexivity. Qed.

Lemma extract_key_facts_empty (o : SetOrder) (cfg : CompactionConfig) :
  extract_key_facts o cfg "" = [].
Proof. unfold extract_key_facts. rewrite raw_facts_empty. apply set_list_nil. Qed.

Lemma turns_of_dicts (turns : list Turn) : turns_of (map EvDict turns) = turns.
Proof. induction turns as [|t l IH]; [reflexivity|]. simpl. now rewrite IH. Qed.

(** The two branches of [compact] on a non-empty sequence. *)
Lemma compact_turns_within (o : SetOrder) (cfg : CompactionConfig) (turns : list Turn) :
  estimate_tokens (joined_content turns) <= max_tokens cfg ->
  compact_turns o cfg turns =
    {| original_tokens := estimate_tokens (joined_content turns);
       compacted_tokens := estimate_tokens (joined_content turns);
       compression_ratio := 1%float;
       summary := "";
       preserved_facts := extract_key_facts o cfg (joined_content turns);
       kept_turns := Z.of_nat (length turns);
       compacted_turns := 0 |}.
Proof.
  intros H. destruct turns as [|t l].
  - unfold compact_turns. change (joined_content []) with "".
    now rewrite extract_key_facts_empty.
  - unfold compact_turns. apply Z.leb_le in H. now rewrite H.
Qed.

Lemma compact_turns_over (o : SetOrder) (cfg : CompactionConfig) (turns : list Turn) :
  turns <> [] ->
  max_tokens cfg < estimate_tokens (joined_content turns) ->
  let k := keep_count cfg turns in
  let r := compact_turns o cfg turns in
  summary r = summarize_turns o cfg (list_slice_to (- k) turns) /\
  preserved_facts r = firstn 10 (extract_key_facts o cfg (joined_content turns)) /\
  kept_turns r = Z.of_nat (length (list_slice_from (- k) turns)) /\
  compacted_turns r = Z.of_nat (length (list_slice_to (- k) turns)).
Proof.
  intros Hne H. destruct turns as [|t l]; [congruence|].
  unfold compact_turns. apply Z.leb_gt in H. rewrite H. now repeat split.
Qed.

(** The slices [turns[:-k]] and [turns[-k:]] for a positive [k]. *)
Lemma slice_neg_to {A} (k : Z) (l : list A) :
  0 < k -> list_slice_to (- k) l = firstn (length l - Z.to_nat k) l.
Proof.
  intros Hk. unfold list_slice_to.
  destruct (0 <=? - k) eqn:E; [apply Z.leb_le in E; lia|]. now rewrite Z.opp_involutive.
Qed.

Lemma slice_neg_from {A} (k : Z) (l : list A) :
  0 < k -> list_slice_from (- k) l = skipn (length l - Z.to_nat k) l.
Proof.
  intros Hk. unfold list_slice_from.
  destruct (0 <=? - k) eqn:E; [apply Z.leb_le in E; lia|]. now rewrite Z.opp_involutive.
Qed.

Lemma keep_count_nonneg (cfg : CompactionConfig) (turns : list Turn) :
  0 <= keep_count cfg turns.
Proof.
  unfold keep_count.
  assert (0 <= Z.of_nat (length turns) / 3) by (apply Z.div_pos; lia). lia.
Qed.

(** Whatever the keep count, the two slices share out the turns. *)
Lemma slices_partition {A} (k : Z) (l : list A) :
  0 <= k -> list_slice_to (- k) l ++ list_slice_from (- k) l = l.
Proof.
  intros Hk. destruct (Z.eq_dec k 0) as [->|Hne].
  - reflexivity.
  - rewrite slice_neg_to, slice_neg_from by lia. apply firstn_skipn.
Qed.

Lemma preserved_facts_within (o : SetOrder) (cfg : CompactionConfig) (turns : list Turn) :
  estimate_tokens (joined_content turns) <= max_tokens cfg ->
  preserved_facts (compact_turns o cfg turns)
  = extract_key_facts o cfg (joined_content turns).
Proof. intros H. now rewrite compact_turns_within. Qed.

Lemma preserved_facts_over (o : SetOrder) (cfg : CompactionConfig) (turns : list Turn) :
  max_tokens cfg < estimate_tokens (joined_content turns) ->
  preserved_facts (compact_turns o cfg turns)
  = firstn 10 (extract_key_facts o cfg (joined_content turns)).
Proof.
  intros H. destruct turns as [|t l].
  - change (joined_content []) with "". now rewrite extract_key_facts_empty.
  - now apply compact_turns_over.
Qed.

(** For a positive keep count the partition is the one the
    specification describes; the counts add up in every case. *)
Lemma compact_over_budget_partition (o : SetOrder) (cfg : CompactionConfig)
    (turns : list Turn) :
  turns <> [] ->
  max_tokens cfg < estimate_tokens (joined_content turns) ->
  let n := length turns in
  let k := keep_count cfg turns in
  let r := compact_turns o cfg turns in
  k = Z.max (min_turns_to_keep cfg) (Z.of_nat n / 3) /\
  (0 < k ->
     summary r = summarize_turns o cfg (firstn (n - Z.to_nat k) turns) /\
     kept_turns r = Z.min k (Z.of_nat n) /\
     compacted_turns r = Z.of_nat n - Z.min k (Z.of_nat n)) /\
  kept_turns r + compacted_turns r = Z.of_nat n /\
  Z.min (min_turns_to_keep cfg) (Z.of_nat n) <= kept_turns r.
Proof.
  intros Hne Hover n k r.
  destruct (compact_turns_over o cfg turns Hne Hover) as (Hs & _ & Hk & Hc).
  fold k r in Hs, Hk, Hc.
  assert (Hk0 : 0 <= k) by apply keep_count_nonneg.
  assert (Hpart := slices_partition k turns Hk0).
  apply (f_equal (@length _)) in Hpart. rewrite List.length_app in Hpart. fold n in Hpart.
  split; [reflexivity|]. split; [|split].
  - intros Hpos. rewrite Hs, Hk, Hc, slice_neg_to, slice_neg_from by assumption.
    fold n. rewrite length_skipn, length_firstn. fold n. repeat split; lia.
  - lia.
  - rewrite Hk. destruct (Z.eq_dec k 0) as [E|E].
    + rewrite E. change (list_slice_from (- 0) turns) with turns. fold n. lia.
    + rewrite slice_neg_from, length_skipn by lia. fold n. unfold k, keep_count in *. lia.
Qed.

End CompactorFacts.


Module CompactorTheorems.
Import PyStr TextNotions PyStrFacts Re Compactor SetOrders SetOrderFacts CompactorFacts Conversations.

(** C1. A turn sequence whose estimated token count is at most
    [max_tokens] comes back whole: no turn compacted, an empty
    summary, the token count unchanged, ratio 1.0, every turn kept,
    and the facts of the whole joined text preserved. *)
Theorem compact_within_budget (o : SetOrder) (cfg : CompactionConfig)
    (events : list Event) :
  let turns := turns_of events in
  let text := joined_content turns in
  estimate_tokens text <= max_tokens cfg ->
  compact o cfg events =
    {| original_tokens := estimate_tokens text;
       compacted_tokens := estimate_tokens text;
       compression_ratio := 1%float;
       summary := "";
       preserved_facts := extract_key_facts o cfg text;
       kept_turns := Z.of_nat (length turns);
       compacted_turns := 0 |}.
Proof. intros turns text H. now apply compact_turns_within. Qed.

Lemma compact_within_budget_witness :
  estimate_tokens (joined_content (turns_of (map EvDict mock_turns)))
    <= max_tokens default_config /\
  compact list_order default_config (map EvDict mock_turns) =
    {| original_tokens := 195;
       compacted_tokens := 195;
       compression_ratio := 1%float;
       summary := "";
       preserved_facts :=
         extract_key_facts list_order default_config
           (joined_content (turns_of (map EvDict mock_turns)));
       kept_turns := 10;
       compacted_turns := 0 |}.
Proof.
  split; [now vm_compute|].
  apply (compact_within_budget list_order default_config (map EvDict mock_turns)).
  now vm_compute.
Defined.

(** C2, where the code leaves the claim. With [min_turns_to_keep = 0]
    and fewer than three turns the keep count is 0, and [turns[:-0]],
    [turns[-0:]] are the empty list and the whole list: over budget,
    nothing is summarized and every turn is kept, where the claim
    summarizes all of them and keeps none. *)
Theorem compact_zero_keep_count_keeps_all (o : SetOrder) :
  let cfg := make_config 0 0 1 500 None in
  let turns := [ user "hello world" ] in
  let r := compact o cfg (map EvDict turns) in
  (max_tokens cfg <? estimate_tokens (joined_content turns)) = true /\
  keep_count cfg turns = 0 /\
  kept_turns r = 1 /\
  compacted_turns r = 0 /\
  summary r = "".
Proof. now repeat split. Qed.

(** C3, as the code has it. The preserved facts are distinct facts of
    the whole joined text; over budget they are its first ten, within
    budget all of them, however many; and they are not empty when the
    text has a fact. *)
Theorem preserved_facts_of_text (o : SetOrder) (cfg : CompactionConfig)
    (events : list Event) :
  let text := joined_content (turns_of events) in
  let all := extract_key_facts o cfg text in
  let r := compact o cfg events in
  incl (preserved_facts r) all /\
  List.NoDup (preserved_facts r) /\
  (max_tokens cfg < estimate_tokens text ->
     preserved_facts r = firstn 10 all /\ (length (preserved_facts r) <= 10)%nat) /\
  (estimate_tokens text <= max_tokens cfg -> preserved_facts r = all) /\
  (all <> [] -> preserved_facts r <> []).
Proof.
  intros text all r.
  assert (Hnd : List.NoDup all) by apply set_list_NoDup.
  assert (Hover : max_tokens cfg < estimate_tokens text ->
                  preserved_facts r = firstn 10 all)
    by (intros H; now apply preserved_facts_over).
  assert (Hwithin : estimate_tokens text <= max_tokens cfg -> preserved_facts r = all)
    by (intros H; now apply preserved_facts_within).
  assert (Hcases : preserved_facts r = all \/ preserved_facts r = firstn 10 all).
  { destruct (Z_le_gt_dec (estimate_tokens text) (max_tokens cfg)) as [Hle|Hgt];
      [left; auto | right; apply Hover; lia]. }
  split; [|split; [|split; [|split]]].
  - destruct Hcases as [->| ->]; [apply incl_refl|].
    intros x Hx. rewrite <- (firstn_skipn 10 all). apply in_or_app. now left.
  - destruct Hcases as [->| ->]; [exact Hnd|].
    rewrite <- (firstn_skipn 10 all) in Hnd. now apply NoDup_app_remove_r in Hnd.
  - intros H. rewrite (Hover H). split; [reflexivity | rewrite length_firstn; lia].
  - exact Hwithin.
  - intros Hne. destruct Hcases as [->| ->]; [exact Hne|].
    destruct all; [congruence | discriminate].
Qed.

(** C3 fails as stated: within budget the facts are not capped. Eleven
    measurements in a short turn are all preserved. *)
Lemma preserved_facts_uncapped_within_budget :
  (estimate_tokens (joined_content eleven_measurements) <=? max_tokens default_config) = true /\
  length (preserved_facts
            (compact list_order default_config (map EvDict eleven_measurements))) = 11%nat.
Proof. split; now vm_compute. Qed.

Lemma preserved_facts_of_text_witness :
  (length (preserved_facts
             (compact list_order (make_config 10 3 1 500 None) (map EvDict crowded_turns)))
   <= 10)%nat.
Proof.
destruct (preserved_facts_of_text list_order (make_config 10 3 1 500 None)
            (map EvDict crowded_turns)) as (_ & _ & H & _).
apply H. now vm_compute.
Defined.

End CompactorTheorems.

(** ** Commitments through the extractor *)

Module CommitmentFacts.
Import PyStr TextNotions PyStrFacts Re Compactor SetOrders SetOrderFacts CompactorFacts.






End CommitmentFacts.

(** ** The summary of the older turns *)

Module SummaryFacts.
Import PyStr TextNotions PyStrFacts Re Compactor SetOrders SetOrderFacts CompactorFacts.
Import CompactorNotions.

Lemma length_take (n : nat) (s : string) :
  String.length (take n s) = Nat.min n (String.length s).
Proof.
revert s. induction n as [|n IH]; intros [|c s]; simpl; try reflexivity. now rewrite IH.
Qed.

Lemma take_drop (n : nat) (s : string) : take n s +:+ drop n s = s.
Proof.
revert s. induction n as [|n IH]; intros [|c s]; try reflexivity.
simpl. rewrite app_cons. now rewrite IH.
Qed.

Lemma contains_take (n : nat) (s : string) : contains (take n s) s = true.
Proof.
apply contains_iff. exists "", (drop n s). now rewrite app_nil_l, take_drop.
Qed.

Lemma app_not_empty_r (s t : string) : t <> "" -> s +:+ t <> "".
Proof.
intros Ht E. apply (f_equal String.length) in E. rewrite length_app in E.
destruct t; [congruence | simpl in E; lia].
Qed.

Lemma flat_map_nil {A B} (f : A -> list B) (l : list A) :
  flat_map f l = [] <-> forall x, In x l -> f x = [].
Proof.
induction l as [|a l IH]; simpl.
- split; [intros _ x [] | reflexivity].
- split.
  + intros H. apply app_eq_nil in H as [Ha Hl]. intros x [<-|Hx]; [exact Ha|].
    now apply IH.
  + intros H. rewrite (H a) by now left. apply IH. intros x Hx. apply H. now right.
Qed.

(** The summary before it is cut to length. *)
Lemma summarize_turns_shape (o : SetOrder) (cfg : CompactionConfig) (t : Turn)
    (l : list Turn) :
  exists whole,
    (whole = "" <->
     flat_map topics_of (t :: l) = [] /\
     flat_map (fun t => extract_key_facts o cfg (get_content t)) (t :: l) = []) /\
    summarize_turns o cfg (t :: l) =
      if summary_max_length cfg <? len whole
      then slice_to (summary_max_length cfg - 3) whole +:+ "..."
      else whole.
Proof.
unfold summarize_turns.
set (topics := flat_map topics_of (t :: l)).
set (facts := flat_map (fun t => extract_key_facts o cfg (get_content t)) (t :: l)).
eexists. split; [|reflexivity].
destruct topics as [|a topics], facts as [|b facts]; cbn [List.app join String.concat].
- tauto.
- split; [intros H; discriminate H | intros [_ H]; discriminate H].
- split; [intros H; discriminate H | intros [H _]; discriminate H].
- split; [intros H; discriminate H | intros [H _]; discriminate H].
Qed.

Lemma compact_turns_all_kept (o : SetOrder) (cfg : CompactionConfig) (turns : list Turn) :
  Z.of_nat (length turns) <= min_turns_to_keep cfg ->
  let r := compact_turns o cfg turns in
  compacted_turns r = 0 /\ kept_turns r = Z.of_nat (length turns) /\ summary r = "" /\
  original_tokens r <= compacted_tokens r.
Proof.
intros Hsmall r.
destruct (Z_le_gt_dec (estimate_tokens (joined_content turns)) (max_tokens cfg)) as [Hle|Hgt].
- unfold r. rewrite compact_turns_within by exact Hle. cbn. repeat split; lia.
- destruct turns as [|t l]; [cbn; repeat split; lia|].
  assert (Hne : t :: l <> []) by discriminate.
  assert (Hover : max_tokens cfg < estimate_tokens (joined_content (t :: l))) by lia.
  assert (Hk : Z.of_nat (length (t :: l)) <= keep_count cfg (t :: l)).
  { unfold keep_count. lia. }
  assert (Hpos : 0 < keep_count cfg (t :: l)) by (simpl length in Hk; lia).
  assert (Hto : list_slice_to (- keep_count cfg (t :: l)) (t :: l) = []).
  { rewrite slice_neg_to by exact Hpos.
    replace (length (t :: l) - Z.to_nat (keep_count cfg (t :: l)))%nat with 0%nat by lia.
    reflexivity. }
  assert (Hfrom : list_slice_from (- keep_count cfg (t :: l)) (t :: l) = t :: l).
  { rewrite slice_neg_from by exact Hpos.
    replace (length (t :: l) - Z.to_nat (keep_count cfg (t :: l)))%nat with 0%nat by lia.
    reflexivity. }
  unfold r, compact_turns. apply Z.leb_gt in Hover. rewrite Hover.
  cbv zeta. rewrite Hto, Hfrom. cbn [summarize_turns compacted_turns kept_turns summary
    original_tokens compacted_tokens length].
  repeat split; try reflexivity.
  unfold estimate_tokens, len. rewrite app_nil_l, app_cons, app_nil_l. simpl String.length.
  apply Z.div_le_mono; lia.
Qed.


End SummaryFacts.

Module ScenarioTheorems.
Import PyStr TextNotions PyStrFacts Re Compactor SetOrders SetOrderFacts CompactorFacts
       CommitmentFacts SummaryFacts Conversations.







End ScenarioTheorems.

(** ** The memory service *)

Module MemoryServiceFacts.
Import PyStr PyStrFacts MemoryService StoreNotions.

Lemma dict_get_set (d : Dict) (k k' : string) (v : PyVal) :
  dict_get (dict_set d k v) k' = if String.eqb k k' then Some v else dict_get d k'.
Proof.
  induction d as [|[k0 w] d IH]; simpl.
  - reflexivity.
  - destruct (String.eqb_spec k0 k) as [->|Hne]; simpl.
    + destruct (String.eqb k k'); reflexivity.
    + rewrite IH. destruct (String.eqb_spec k k') as [<-|Hne'].
      * apply String.eqb_neq in Hne. now rewrite Hne.
      * reflexivity.
Qed.

Lemma dict_has_set (d : Dict) (k k' : string) (v : PyVal) :
  dict_has (dict_set d k v) k' = (String.eqb k k' || dict_has d k')%bool.
Proof. unfold dict_has. rewrite dict_get_set. now destruct (String.eqb k k'). Qed.

Lemma getattr_setattr_ne (p : UserProfile) (k name : string) (v : PyVal) :
  String.eqb k name = false -> getattr (setattr p k v) name = getattr p name.
Proof. intros H. unfold getattr, setattr. now rewrite dict_get_set, H. Qed.

Lemma getattr_has (p : UserProfile) (name : string) :
  dict_has p name = true -> exists v, getattr p name = Some v /\ dict_get p name = Some v.
Proof.
  unfold dict_has, getattr. destruct (dict_get p name) as [v|]; [|discriminate].
  intros _. now exists v.
Qed.

Lemma asdict_fields_total (p : UserProfile) (fields : list string) :
  (forall f, In f fields -> dict_has p f = true) ->
  exists d, asdict_fields p fields = Some d.
Proof.
  induction fields as [|f fs IH]; intros H; simpl.
  - now exists [].
  - destruct (getattr_has p f) as (v & -> & _); [apply H; now left|].
    destruct IH as [d ->]; [intros g Hg; apply H; now right|]. eauto.
Qed.

Lemma has_fields_in (p : UserProfile) (f : string) :
  has_fields p = true -> In f profile_fields -> dict_has p f = true.
Proof. unfold has_fields. rewrite forallb_forall. intros H. apply H. Qed.

Lemma has_fields_setattr (p : UserProfile) (k : string) (v : PyVal) :
  has_fields p = true -> has_fields (setattr p k v) = true.
Proof.
  unfold has_fields. rewrite !forallb_forall. intros H f Hf.
  unfold setattr. rewrite dict_has_set, (H f Hf). apply orb_true_r.
Qed.

Lemma new_profile_intact (c u : string) (uid : PyVal) (p : UserProfile) :
  new_profile c u uid [] = Some p -> intact p = true.
Proof. intros H. injection H as <-. reflexivity. Qed.

(** [save_profile] on an object with all its fields and a string
    identity: it fails exactly when [to_dict] is hidden. *)
Lemma save_profile_with_fields (rt : Runtime) (st : State) (ref : nat) (p : UserProfile)
    (uid : string) :
  heap st !! ref = Some p ->
  has_fields p = true ->
  dict_get p "user_id" = Some (VStr uid) ->
  let p1 := setattr p "updated_at" (VStr (now_isoformat rt (clock st))) in
  let st3 := set_profile (set_heap (fst (now rt st)) ref p1) uid ref in
  exists d,
    asdict p1 = Some d /\
    save_profile rt st ref =
      Some (if dict_has p "to_dict" then (st3, Raised "TypeError")
            else (fst (add_memory rt st3 uid "climateguard" (profile_summary rt p)
                         "profile" (Some (MetaDict d))),
                  Returned (profile_saved uid))).
Proof.
  intros Hheap Hint Huid p1 st3.
  assert (Hfields : forall f, In f profile_fields -> dict_has p1 f = true).
  { intros f Hf. apply has_fields_in; [now apply has_fields_setattr | exact Hf]. }
  destruct (asdict_fields_total p1 profile_fields Hfields) as [d Hd].
  exists d. split; [exact Hd|].
  assert (Hstr : forall name, String.eqb "updated_at" name = false ->
                   In name profile_fields ->
                   attr_str rt p1 name = Some (field_str rt p name)).
  { intros name Hne Hin. unfold attr_str, field_str, p1.
    rewrite getattr_setattr_ne by exact Hne.
    destruct (getattr_has p name (has_fields_in p name Hint Hin)) as (v & -> & _).
    reflexivity. }
  unfold save_profile. rewrite Hheap. cbn [now fst snd]. fold p1.
  assert (Hu : getattr p1 "user_id" = Some (VStr uid)).
  { unfold p1. rewrite getattr_setattr_ne by reflexivity.
    unfold getattr. now rewrite Huid. }
  rewrite Hu.
  rewrite (Hstr "diet_type"), (Hstr "primary_transport"), (Hstr "city");
    try reflexivity; try (cbv; tauto).
  assert (Hm : dict_has p1 "to_dict" = dict_has p "to_dict").
  { unfold p1, setattr. now rewrite dict_has_set. }
  rewrite Hm. fold st3. destruct (dict_has p "to_dict"); [reflexivity|].
  unfold asdict in Hd. unfold asdict. rewrite Hd.
  unfold profile_summary, profile_saved.
  destruct (add_memory rt _ uid "climateguard" _ "profile" _) as [st4 res] eqn:E.
  cbn [fst]. reflexivity.
Qed.

Lemma add_memory_memories (rt : Runtime) (st : State) (uid app content category : string)
    (meta : option Metadata) :
  exists entry,
    _memories (fst (add_memory rt st uid app content category meta))
    = <[uid := default [] (_memories st !! uid) ++ [entry]]> (_memories st) /\
    me_user_id entry = uid /\ me_content entry = content /\ me_category entry = category /\
    app_name entry = app /\
    _profiles (fst (add_memory rt st uid app content category meta)) = _profiles st /\
    heap (fst (add_memory rt st uid app content category meta)) = heap st /\
    _footprint_history (fst (add_memory rt st uid app content category meta))
    = _footprint_history st.
Proof. unfold add_memory. cbn. eexists. split; [reflexivity|]. now repeat split. Qed.

(** [update_profile] on an identity that has no profile. *)
Lemma update_profile_not_found (rt : Runtime) (st : State) (uid : string) (updates : Dict) :
  _profiles st !! uid = None ->
  update_profile rt st uid updates =
    Some (st, Returned [ ("status", VStr "error");
                         ("message", VStr ("Profile not found for user " +:+ uid)) ]).
Proof. intros H. unfold update_profile. now rewrite H. Qed.

(** The record a call of [record_footprint] appends. *)
Lemma record_footprint_history (rt : Runtime) (st : State) (uid category act : string)
    (e : float) (det : option Dict) :
  exists r,
    _footprint_history (fst (record_footprint rt st uid category act e det))
    = <[uid := default [] (_footprint_history st !! uid) ++ [r]]> (_footprint_history st)
    /\ emissions_kg_co2 r = e /\ fr_category r = category.
Proof. unfold record_footprint. cbn. eexists. split; [reflexivity|]. now split. Qed.

Lemma trend_of_history (rt : Runtime) (st : State) (uid : string)
    (category : option string) (days : Z) :
  trend (get_footprint_history rt st uid category days) =
    let records := filtered_records st uid category in
    if ((1 <? Z.of_nat (length records)) &&
        PrimFloat.ltb (last_emissions records) (first_emissions records))%bool
    then "improving" else "needs_attention".
Proof. unfold get_footprint_history, filtered_records. now destruct category as [[|a c]|]. Qed.

Lemma first_last_shape (records : list FootprintRecord) :
  ((1 <? Z.of_nat (length records)) &&
   PrimFloat.ltb (last_emissions records) (first_emissions records))%bool = true
  <-> exists first mid last,
        records = first :: mid ++ [last] /\
        PrimFloat.ltb (emissions_kg_co2 last) (emissions_kg_co2 first) = true.
Proof.
  rewrite andb_true_iff, Z.ltb_lt. split.
  - intros [Hlen Hlt]. destruct records as [|first rest]; [simpl in Hlen; lia|].
    destruct (@exists_last _ rest) as (mid & last & ->).
    { intros ->. simpl in Hlen. lia. }
    exists first, mid, last. split; [reflexivity|].
    unfold last_emissions, first_emissions in Hlt.
    change (first :: mid ++ [last]) with ((first :: mid) ++ [last]) in Hlt.
    now rewrite rev_app_distr in Hlt.
  - intros (first & mid & last & -> & Hlt). split.
    + simpl. rewrite List.length_app. simpl. lia.
    + unfold last_emissions, first_emissions.
      change (first :: mid ++ [last]) with ((first :: mid) ++ [last]).
      now rewrite rev_app_distr.
Qed.

End MemoryServiceFacts.


Module StoreTheorems.
Import PyStr PyStrFacts MemoryService StoreNotions MemoryServiceFacts Stores.

(** C5, as the code has it. [save_profile] checks nothing: for every
    profile object, whatever its identity (the empty one included), it
    succeeds, stores the object under its identity and appends to the
    identity's memories one entry tagged "profile" that names the
    diet, the transport and the city. *)
Theorem save_profile_any_identity (rt : Runtime) (st : State) (ref : nat)
    (p : UserProfile) (uid : string) :
  heap st !! ref = Some p ->
  intact p = true ->
  dict_get p "user_id" = Some (VStr uid) ->
  exists st' entry,
    save_profile rt st ref = Some (st', Returned (profile_saved uid)) /\
    _profiles st' = <[uid := ref]> (_profiles st) /\
    _memories st' = <[uid := default [] (_memories st !! uid) ++ [entry]]> (_memories st) /\
    me_user_id entry = uid /\
    me_category entry = "profile" /\
    me_content entry = profile_summary rt p.
Proof.
  intros Hheap Hint Huid. unfold intact in Hint. apply andb_true_iff in Hint as [Hf Hm].
  apply negb_true_iff in Hm.
  destruct (save_profile_with_fields rt st ref p uid Hheap Hf Huid) as (d & _ & Hsave).
  rewrite Hm in Hsave.
  match type of Hsave with
  | _ = Some (fst (add_memory rt ?s ?u ?a ?c ?k ?m), _) =>
      destruct (add_memory_memories rt s u a c k m)
        as (entry & Hmem & Hu & Hc & Hk & _ & Hp & _)
  end.
  eexists _, entry. split; [exact Hsave|]. rewrite Hmem, Hp. now repeat split.
Qed.

Lemma save_profile_any_identity_witness :
  heap (with_object alice) !! 0%nat = Some alice /\
  intact alice = true /\
  dict_get alice "user_id" = Some (VStr "alice") /\
  option_map snd (save_profile clockwork (with_object alice) 0)
  = Some (Returned (profile_saved "alice")).
Proof.
  assert (H1 : heap (with_object alice) !! 0%nat = Some alice) by reflexivity.
  assert (H2 : intact alice = true) by reflexivity.
  assert (H3 : dict_get alice "user_id" = Some (VStr "alice")) by reflexivity.
  split; [exact H1 | split; [exact H2 | split; [exact H3|]]].
  destruct (save_profile_any_identity clockwork (with_object alice) 0 alice "alice" H1 H2 H3)
    as (st' & entry & -> & _).
  reflexivity.
Defined.

(** C5 fails as stated: no identity is refused. A profile whose
    identity is the empty string is saved and stored under it. *)
Lemma save_profile_accepts_empty_identity :
  dict_get anonymous "user_id" = Some (VStr "") /\
  option_map snd (save_profile clockwork (with_object anonymous) 0)
  = Some (Returned (profile_saved "")) /\
  option_map (fun r => _profiles (fst r) !! "") (save_profile clockwork (with_object anonymous) 0)
  = Some (Some 0%nat).
Proof. repeat split; now vm_compute. Qed.

(** C6, where the code leaves the claim. [to_dict] is no field of the
    profile, yet [hasattr] holds for it, so a patch with that key is
    applied and hides the method; the [save_profile] that follows
    fails with [TypeError] when it calls [profile.to_dict()], and the
    stored object keeps the attribute. *)
Theorem update_profile_method_key_raises (rt : Runtime) (st : State) (uid owner : string)
    (ref : nat) (p : UserProfile) (v : PyVal) :
  _profiles st !! uid = Some ref ->
  heap st !! ref = Some p ->
  intact p = true ->
  dict_get p "user_id" = Some (VStr owner) ->
  in_list "to_dict" profile_fields = false /\
  hasattr p "to_dict" = true /\
  exists st',
    update_profile rt st uid [("to_dict", v)] = Some (st', Raised "TypeError") /\
    option_map (fun q => dict_get q "to_dict") (heap st' !! ref) = Some (Some v).
Proof.
  intros Hprof Hheap Hint Huid. unfold intact in Hint.
  apply andb_true_iff in Hint as [Hf Hm]. apply negb_true_iff in Hm.
  assert (Hhas : hasattr p "to_dict" = true) by (unfold hasattr; now rewrite Hm).
  split; [reflexivity|]. split; [exact Hhas|].
  unfold update_profile. rewrite Hprof, Hheap.
  cbn [existsb fst snd starts_with_underscore String.prefix orb].
  replace (if ascii_dec "_" "t" then true else false) with false by reflexivity.
  unfold apply_updates. cbn [fold_left fst snd]. rewrite Hhas. cbn [now fst snd].
  set (q := setattr (setattr p "to_dict" v) "updated_at" _).
  set (st1 := set_heap _ ref q).
  assert (Hq : heap st1 !! ref = Some q) by (unfold st1, set_heap; cbn; apply lookup_insert_eq).
  assert (Hqf : has_fields q = true) by (unfold q; now do 2 apply has_fields_setattr).
  assert (Hqu : dict_get q "user_id" = Some (VStr owner)).
  { unfold q, setattr. now rewrite !dict_get_set. }
  assert (Hqm : dict_has q "to_dict" = true).
  { unfold q, setattr. now rewrite !dict_has_set. }
  destruct (save_profile_with_fields rt st1 ref q owner Hq Hqf Hqu) as (d & _ & Hsave).
  rewrite Hqm in Hsave. eexists. split; [exact Hsave|].
  unfold set_profile, set_heap. cbn. rewrite lookup_insert_eq. cbn.
  unfold q, setattr. now rewrite !dict_get_set.
Qed.

Lemma update_profile_method_key_raises_witness :
  _profiles alice_saved !! "alice" = Some 0%nat /\
  option_map snd (update_profile clockwork alice_saved "alice" [("to_dict", VStr "x")])
  = Some (Raised "TypeError").
Proof.
  assert (H1 : _profiles alice_saved !! "alice" = Some 0%nat) by now vm_compute.
  split; [exact H1|].
  destruct (update_profile_method_key_raises clockwork alice_saved "alice" "alice" 0
              (setattr alice "updated_at" (VStr "2025-01-01T00:00:0")) (VStr "x") H1)
    as (_ & _ & st' & -> & _); now vm_compute.
Defined.

(** C8. The trend of a history is "improving" exactly when the
    records of the identity, restricted to the category when one is
    given, are at least two and the last has a strictly smaller
    magnitude than the first; otherwise it is "needs_attention". Two
    measurements of 10.5 and then 8.0 for an identity without earlier
    ones give "improving". *)
Theorem trend_is_first_against_last (rt : Runtime) (st : State) (uid : string)
    (category : option string) (days : Z) :
  let h := get_footprint_history rt st uid category days in
  (trend h = "improving" <->
   exists first mid last,
     filtered_records st uid category = first :: mid ++ [last] /\
     PrimFloat.ltb (emissions_kg_co2 last) (emissions_kg_co2 first) = true) /\
  (trend h = "improving" \/ trend h = "needs_attention") /\
  (forall c1 a1 d1 c2 a2 d2,
     _footprint_history st !! uid = None ->
     let st1 := fst (record_footprint rt st uid c1 a1 10.5%float d1) in
     let st2 := fst (record_footprint rt st1 uid c2 a2 8%float d2) in
     trend (get_footprint_history rt st2 uid None days) = "improving").
Proof.
  intros h. split; [|split].
  - unfold h. rewrite trend_of_history. cbv zeta. rewrite <- first_last_shape.
    destruct (_ && _)%bool; split; intros H; try reflexivity; discriminate.
  - unfold h. rewrite trend_of_history. cbv zeta. destruct (_ && _)%bool; auto.
  - intros c1 a1 d1 c2 a2 d2 Hnone st1 st2.
    destruct (record_footprint_history rt st uid c1 a1 10.5%float d1) as (r1 & H1 & E1 & _).
    destruct (record_footprint_history rt st1 uid c2 a2 8%float d2) as (r2 & H2 & E2 & _).
    fold st1 in H1. fold st2 in H2.
    rewrite trend_of_history. unfold filtered_records.
    rewrite H2, lookup_insert_eq, H1, lookup_insert_eq, Hnone. cbn [default].
    unfold last_emissions, first_emissions. cbn. rewrite E1, E2. reflexivity.
Qed.

(** C10. The [days] argument of [get_footprint_history] is never
    read: any two values give the same history, in every field. *)
Theorem history_ignores_days (rt : Runtime) (st : State) (uid : string)
    (category : option string) (days1 days2 : Z) :
  get_footprint_history rt st uid category days1
  = get_footprint_history rt st uid category days2.
Proof. reflexivity. Qed.

Lemma trend_is_first_against_last_witness :
  trend (get_footprint_history clockwork
           (fst (record_footprint clockwork
                   (fst (record_footprint clockwork init "test_user_123" "transport"
                           "Daily commute by car" 10.5%float None))
                   "test_user_123" "transport" "Daily commute by bus" 8%float None))
           "test_user_123" None 30)
  = "improving".
Proof.
destruct (trend_is_first_against_last clockwork init "test_user_123" None 30)
  as (_ & _ & H).
apply H. reflexivity.
Defined.

End StoreTheorems.

(** ** Retrieval *)

Module RetrievalFacts.
Import PyStr PyStrFacts MemoryService SetOrders SetOrderFacts RetrievalNotions.

Lemma filter_length_perm {A} (f : A -> bool) (l l' : list A) :
  Permutation l l' -> length (List.filter f l) = length (List.filter f l').
Proof.
  induction 1 as [|x l l' _ IH|x y l|l l' l'' _ IH1 _ IH2]; simpl.
  - reflexivity.
  - destruct (f x); simpl; now rewrite IH.
  - destruct (f x), (f y); reflexivity.
  - now rewrite IH1.
Qed.

Lemma filter_none {A} (f : A -> bool) (l : list A) :
  (forall x, In x l -> f x = false) -> List.filter f l = [].
Proof.
  induction l as [|x l IH]; intros H; [reflexivity|]. simpl.
  rewrite (H x) by now left. apply IH. intros y Hy. apply H. now right.
Qed.

(** *** The stable descending sort *)

Lemma insert_desc_perm (x : Z * MemoryEntry) (l : list (Z * MemoryEntry)) :
  Permutation (insert_desc x l) (x :: l).
Proof.
  induction l as [|y l IH]; simpl; [reflexivity|].
  destruct (fst y <=? fst x); [reflexivity|].
  rewrite IH. apply perm_swap.
Qed.

Lemma sort_desc_perm (l : list (Z * MemoryEntry)) : Permutation (sort_desc l) l.
Proof.
  induction l as [|x l IH]; [reflexivity|].
  unfold sort_desc. simpl. rewrite insert_desc_perm. now constructor.
Qed.





(** *** The code's score and candidates against the specification's *)

Lemma score_of_overlap (o : SetOrder) (query : string) (mem : MemoryEntry) :
  score_of (query_words o query) mem = overlap query mem.
Proof.
  unfold score_of, overlap, query_words, word_set. f_equal.
  apply filter_length_perm, set_list_perm.
Qed.

Lemma category_skips_in_category (category : option string) (mem : MemoryEntry) :
  category_skips category (me_category mem) = negb (in_category category mem).
Proof. destruct category as [[|a c]|]; reflexivity. Qed.

Lemma scored_results_candidates (o : SetOrder) (query : string) (category : option string)
    (memories : list MemoryEntry) :
  scored_results (query_words o query) category memories
  = candidates query category memories.
Proof.
  unfold candidates. induction memories as [|m l IH]; [reflexivity|].
  simpl. rewrite IH, category_skips_in_category, score_of_overlap.
  destruct (in_category category m); simpl; [|reflexivity].
  destruct (0 <? overlap query m); reflexivity.
Qed.

Lemma search_memory_unfold (o : SetOrder) (st : State) (app uid query : string)
    (category : option string) (limit : Z) :
  search_memory o st app uid query category limit
  = map hit_of (list_slice_to limit
                  (sort_desc (candidates query category
                                (default [] (_memories st !! uid))))).
Proof.
  unfold search_memory. rewrite <- (scored_results_candidates o).
  destruct (default [] (_memories st !! uid)) as [|m l]; [|reflexivity].
  unfold list_slice_to. simpl. now destruct (0 <=? limit); rewrite ?firstn_nil.
Qed.

(** A word of the query that occurs in the content scores. *)
Lemma overlap_positive (query w : string) (mem : MemoryEntry) :
  In w (split query) -> contains w (me_content mem) = true -> 1 <= overlap query mem.
Proof.
  intros Hw Hc. unfold overlap, word_set.
  assert (Hin : In (lower w)
                   (List.filter (fun w => contains w (lower (me_content mem)))
                                (nodup string_dec (split (lower query))))).
  { apply filter_In. split; [|now apply contains_lower].
    apply nodup_In. rewrite split_lower. now apply in_map. }
  destruct (List.filter _ _) as [|x l]; [contradiction | simpl; lia].
Qed.



End RetrievalFacts.

Module RetrievalTheorems.
Import PyStr TextNotions PyStrFacts MemoryService SetOrders SetOrderFacts RetrievalNotions
       RetrievalFacts Stores.




End RetrievalTheorems.


(** ** What holds of the partition and of the patch *)

Module PatchFacts.
Import PyStr PyStrFacts MemoryService StoreNotions MemoryServiceFacts.

Lemma dict_has_keys (d : Dict) (k : string) : dict_has d k = in_list k (map fst d).
Proof.
unfold dict_has, in_list. induction d as [|[k0 w] d IH]; [reflexivity|].
simpl. rewrite (String.eqb_sym k k0). destruct (String.eqb k0 k); [reflexivity | exact IH].
Qed.

Lemma dict_set_keys (d : Dict) (k : string) (v : PyVal) :
  dict_has d k = true -> map fst (dict_set d k v) = map fst d.
Proof.
unfold dict_has. induction d as [|[k0 w] d IH]; simpl; [discriminate|].
destruct (String.eqb k0 k); simpl; [reflexivity|]. intros H. now rewrite IH.
Qed.

Lemma in_list_In (k : string) (l : list string) : in_list k l = true <-> In k l.
Proof.
unfold in_list. rewrite existsb_exists. split.
- intros (x & Hin & Hx). apply String.eqb_eq in Hx. now subst.
- intros H. exists k. split; [exact H | apply String.eqb_refl].
Qed.

Lemma class_defaults_are_fields (k : string) :
  dict_has class_defaults k = true -> in_list k profile_fields = true.
Proof.
rewrite dict_has_keys, in_list_In. intros Hk.
assert (H : forallb (fun f => in_list f profile_fields) (map fst class_defaults) = true)
  by reflexivity.
rewrite forallb_forall in H. now apply H.
Qed.

(** On a plain object, [hasattr] holds of the fields and of the two
    methods, and of nothing else. *)
Lemma hasattr_plain (p : UserProfile) (k : string) :
  plain p ->
  hasattr p k = (in_list k profile_fields || in_list k profile_methods)%bool.
Proof.
intros Hp. unfold hasattr. rewrite (dict_has_keys p), Hp.
destruct (in_list k profile_fields) eqn:E; [reflexivity|]. simpl.
destruct (dict_has class_defaults k) eqn:E'; [|reflexivity].
apply class_defaults_are_fields in E'. congruence.
Qed.

Lemma plain_setattr (p : UserProfile) (k : string) (v : PyVal) :
  plain p -> in_list k profile_fields = true -> plain (setattr p k v).
Proof.
intros Hp Hk. unfold plain, setattr. rewrite dict_set_keys; [exact Hp|].
now rewrite dict_has_keys, Hp.
Qed.

Lemma apply_updates_recognized (p : UserProfile) (updates : Dict) :
  plain p ->
  forallb (fun kv => negb (in_list (fst kv) profile_methods)) updates = true ->
  apply_updates p updates = write_all p (recognized updates) /\
  plain (apply_updates p updates).
Proof.
revert p. unfold apply_updates, write_all, recognized.
induction updates as [|[k v] updates IH]; intros p Hp Hm; [now split|].
cbn [forallb fst] in Hm. apply andb_true_iff in Hm as [Hk Hm]. apply negb_true_iff in Hk.
cbn [fold_left List.filter fst snd]. rewrite (hasattr_plain p k Hp), Hk, orb_false_r.
destruct (in_list k profile_fields) eqn:E; cbn [fold_left fst snd].
- apply IH; [now apply plain_setattr | exact Hm].
- now apply IH.
Qed.

(** The constructor builds plain objects, and plain objects are intact. *)
Lemma new_profile_plain (c u : string) (uid : PyVal) (kwargs : Dict) (p : UserProfile) :
  new_profile c u uid kwargs = Some p -> plain p.
Proof.
unfold new_profile. destruct (forallb _ kwargs) eqn:E; [|discriminate].
intros [= <-]. rewrite forallb_forall in E.
match goal with |- plain (fold_left _ _ ?d) => assert (Hd : plain d) by reflexivity; revert Hd;
  generalize d end.
induction kwargs as [|kv l IH]; intros d Hd; [exact Hd|].
simpl. apply IH.
- intros x Hx. apply E. now right.
- apply (plain_setattr d (fst kv) (snd kv) Hd). apply E. now left.
Qed.

Lemma plain_intact (p : UserProfile) : plain p -> intact p = true.
Proof.
intros Hp. unfold intact, has_fields. apply andb_true_iff. split.
- apply forallb_forall. intros f Hf. rewrite dict_has_keys, Hp. now apply in_list_In.
- now rewrite dict_has_keys, Hp.
Qed.

End PatchFacts.

Module FurtherTheorems.
Import PyStr TextNotions PyStrFacts Re Compactor SetOrders SetOrderFacts CompactorFacts Conversations.
Import MemoryService StoreNotions MemoryServiceFacts PatchFacts Stores.

(** X1. Over budget and with a positive keep count
    [k = max(min_turns_to_keep, length // 3)], [compact] summarizes the
    first [length - k] turns and keeps the last [k] (all of them when
    [k >= length]); whatever the keep count, kept and compacted turns
    add up to the length and at least
    [min(min_turns_to_keep, length)] turns are kept. *)
Theorem compact_partition_for_positive_keep_count (o : SetOrder) (cfg : CompactionConfig)
    (events : list Event) :
  let turns := turns_of events in
  let n := length turns in
  let k := Z.max (min_turns_to_keep cfg) (Z.of_nat n / 3) in
  let r := compact o cfg events in
  turns <> [] ->
  max_tokens cfg < estimate_tokens (joined_content turns) ->
  (0 < k ->
     summary r = summarize_turns o cfg (firstn (n - Z.to_nat k) turns) /\
     kept_turns r = Z.of_nat (length (skipn (n - Z.to_nat k) turns)) /\
     kept_turns r = Z.min k (Z.of_nat n) /\
     compacted_turns r = Z.of_nat n - Z.min k (Z.of_nat n)) /\
  kept_turns r + compacted_turns r = Z.of_nat n /\
  Z.min (min_turns_to_keep cfg) (Z.of_nat n) <= kept_turns r.
Proof.
intros turns n k r Hne Hover.
destruct (compact_over_budget_partition o cfg turns Hne Hover) as (Hk & Hpos & Hsum & Hmin).
split; [|split; [exact Hsum | exact Hmin]].
intros Hk0. destruct (Hpos Hk0) as (Hs & Hkept & Hcomp).
repeat split; try assumption.
fold turns n k in Hkept. unfold r, compact. fold turns.
rewrite Hkept, length_skipn. fold n. change (keep_count cfg turns) with k. lia.
Qed.

Lemma compact_partition_for_positive_keep_count_witness :
  kept_turns (compact list_order (make_config 100 3 1 500 None) (map EvDict mock_turns))
  + compacted_turns (compact list_order (make_config 100 3 1 500 None) (map EvDict mock_turns))
  = 10.
Proof.
apply (compact_partition_for_positive_keep_count list_order (make_config 100 3 1 500 None)
         (map EvDict mock_turns)); now vm_compute.
Defined.

(** X2. [update_profile] for an identity without a profile returns the
    error dictionary and leaves the service as it was. *)
Theorem update_profile_unknown_identity (rt : Runtime) (st : State) (uid : string)
    (updates : Dict) :
  _profiles st !! uid = None ->
  update_profile rt st uid updates =
    Some (st, Returned [ ("status", VStr "error");
                         ("message", VStr ("Profile not found for user " +:+ uid)) ]).
Proof. apply update_profile_not_found. Qed.

Lemma update_profile_unknown_identity_witness :
  update_profile clockwork alice_saved "bob" [("city", VStr "Rome")] =
    Some (alice_saved, Returned [ ("status", VStr "error");
                                  ("message", VStr "Profile not found for user bob") ]).
Proof.
apply (update_profile_unknown_identity clockwork alice_saved "bob" [("city", VStr "Rome")]).
now vm_compute.
Defined.

(** X3. On a profile object as the constructor builds it, a patch
    without a method name or an underscore key writes exactly its
    entries that name a declared field, in order, ignores the others,
    stamps the object and hands it to [save_profile]. *)
Theorem update_profile_patches_fields (rt : Runtime) (st : State) (uid : string)
    (ref : nat) (p : UserProfile) (updates : Dict) :
  _profiles st !! uid = Some ref ->
  heap st !! ref = Some p ->
  plain p ->
  forallb (fun kv => negb (starts_with_underscore (fst kv))) updates = true ->
  forallb (fun kv => negb (in_list (fst kv) profile_methods)) updates = true ->
  update_profile rt st uid updates =
    save_profile rt
      (set_heap (fst (now rt st)) ref
         (setattr (write_all p (recognized updates)) "updated_at"
                  (VStr (now_isoformat rt (clock st)))))
      ref.
Proof.
intros Hprof Hheap Hp Hu Hm. unfold update_profile. rewrite Hprof, Hheap.
assert (Hex : existsb (fun kv => starts_with_underscore (fst kv)) updates = false).
{ clear -Hu. induction updates as [|kv l IH]; [reflexivity|]. simpl in *.
  apply andb_true_iff in Hu as [H1 H2]. apply negb_true_iff in H1. now rewrite H1, IH. }
rewrite Hex. destruct (apply_updates_recognized p updates Hp Hm) as [-> _]. reflexivity.
Qed.

Lemma update_profile_patches_fields_witness :
  option_map (fun r => (snd r, option_map (fun q => (dict_get q "city", dict_get q "color"))
                                 (get_profile (fst r) "alice")))
    (update_profile clockwork alice_saved "alice"
       [("city", VStr "Rome"); ("color", VStr "red")])
  = Some (Returned (profile_saved "alice"), Some (Some (VStr "Rome"), None)).
Proof.
rewrite (update_profile_patches_fields clockwork alice_saved "alice" 0
           (setattr alice "updated_at" (VStr "2025-01-01T00:00:0"))
           [("city", VStr "Rome"); ("color", VStr "red")]); now vm_compute.
Defined.

End FurtherTheorems.


(** ** More on the compactor: summaries, small conversations, facts *)


Module SummaryTheorems.
Import PyStr TextNotions PyStrFacts Re Compactor SetOrders SetOrderFacts CompactorFacts.
Import CompactorNotions SummaryFacts Conversations.

(** X4. With [summary_max_length] of at least 3, the text that
    [summarize_turns] returns is never longer than
    [summary_max_length]. *)
Theorem summary_within_max_length (o : SetOrder) (cfg : CompactionConfig)
    (turns : list Turn) :
  3 <= summary_max_length cfg ->
  len (summarize_turns o cfg turns) <= summary_max_length cfg.
Proof.
intros Hmax. destruct turns as [|t l]; [change (0 <= summary_max_length cfg); lia|].
destruct (summarize_turns_shape o cfg t l) as (whole & _ & ->).
destruct (summary_max_length cfg <? len whole) eqn:E.
- apply Z.ltb_lt in E. unfold len in *. rewrite length_app. unfold slice_to.
  replace (0 <=? summary_max_length cfg - 3) with true by (symmetry; apply Z.leb_le; lia).
  rewrite length_take. simpl String.length. lia.
- now apply Z.ltb_ge in E.
Qed.

Lemma summary_within_max_length_witness :
  len (summarize_turns list_order (make_config 100 3 1 40 None) mock_turns) <= 40.
Proof.
apply (summary_within_max_length list_order (make_config 100 3 1 40 None) mock_turns).
now vm_compute.
Defined.

(** X5. With a [summary_max_length] that is not negative,
    [summarize_turns] returns the empty string exactly when there is
    no turn to summarize, or no turn mentions a topic keyword and no
    turn yields a fact. *)
Theorem summary_empty_iff (o : SetOrder) (cfg : CompactionConfig) (turns : list Turn) :
  0 <= summary_max_length cfg ->
  (summarize_turns o cfg turns = "" <->
   turns = [] \/
   (forall t, In t turns ->
              topics_of t = [] /\ extract_key_facts o cfg (get_content t) = [])).
Proof.
intros Hmax. destruct turns as [|t l].
- split; [now left | reflexivity].
- destruct (summarize_turns_shape o cfg t l) as (whole & Hwhole & ->).
  rewrite !flat_map_nil in Hwhole.
  split.
  + intros H. right. destruct (summary_max_length cfg <? len whole).
    * exfalso. revert H. apply app_not_empty_r. discriminate.
    * rewrite H in Hwhole. destruct Hwhole as [[H1 H2] _]; [reflexivity|].
      intros x Hx. split; [now apply H1 | now apply H2].
  + intros [H|H]; [discriminate|].
    assert (E : whole = "").
    { apply Hwhole. split; intros x Hx; now apply H. }
    rewrite E. replace (summary_max_length cfg <? len "") with false; [reflexivity|].
    symmetry. apply Z.ltb_ge. exact Hmax.
Qed.

Lemma summary_empty_iff_witness :
  summarize_turns list_order default_config [user "Hello"; assistant "Good morning"] = "".
Proof.
apply (summary_empty_iff list_order default_config [user "Hello"; assistant "Good morning"]);
  [now vm_compute|].
right. intros t [<-|[<-|[]]]; now vm_compute.
Defined.

(** X6. A conversation of at most [min_turns_to_keep] turns is never
    summarized, whatever the budget: every turn is kept, the summary
    and the compacted context are empty, and the compacted token count
    is not below the original one. *)
Theorem short_conversation_is_kept_whole (o : SetOrder) (cfg : CompactionConfig)
    (events : list Event) :
  Z.of_nat (length (turns_of events)) <= min_turns_to_keep cfg ->
  let r := compact o cfg events in
  compacted_turns r = 0 /\
  kept_turns r = Z.of_nat (length (turns_of events)) /\
  summary r = "" /\
  original_tokens r <= compacted_tokens r /\
  get_compacted_context o cfg events = "".
Proof.
intros Hsmall r.
destruct (compact_turns_all_kept o cfg (turns_of events) Hsmall) as (H1 & H2 & H3 & H4).
repeat split; try assumption.
unfold get_compacted_context. fold r. unfold r, compact. now rewrite H3.
Qed.

Lemma short_conversation_is_kept_whole_witness :
  kept_turns (compact list_order (make_config 0 3 1 500 None) (map EvDict lone_commitment)) = 1
  /\ original_tokens (compact list_order (make_config 0 3 1 500 None)
                        (map EvDict lone_commitment))
     <= compacted_tokens (compact list_order (make_config 0 3 1 500 None)
                            (map EvDict lone_commitment)).
Proof.
destruct (short_conversation_is_kept_whole list_order (make_config 0 3 1 500 None)
            (map EvDict lone_commitment)) as (_ & H2 & _ & H4 & _); [now vm_compute|].
split; [exact H2 | exact H4].
Defined.

End SummaryTheorems.


(** ** The shape of the extracted facts, and events without text *)

Module FactFacts.
Import PyStr TextNotions PyStrFacts Re Compactor SetOrders SetOrderFacts CompactorFacts.
Import CompactorNotions SummaryFacts RetrievalFacts.

(** A match is a piece of the text it was found in. *)
Lemma finditer_from_contains (r : regex) (s : string) :
  forall skip m, In m (finditer_from r skip s) -> contains m s = true.
Proof.
induction s as [|c s IH]; intros skip m Hin.
- destruct skip as [|k]; [|contradiction]. simpl in Hin.
  destruct (match_here r "") as [[n g]|]; [|contradiction].
  destruct Hin as [<-|[]]. apply contains_take.
- destruct skip as [|k]; simpl in Hin.
  + destruct (match_here r (String c s)) as [[n g]|].
    * destruct Hin as [<-|Hin]; [apply contains_take|].
      rewrite contains_cons, (IH _ _ Hin). apply orb_true_r.
    * rewrite contains_cons, (IH _ _ Hin). apply orb_true_r.
  + rewrite contains_cons, (IH _ _ Hin). apply orb_true_r.
Qed.

Lemma filter_nodup_length (f : string -> bool) (l : list string) :
  (length (List.filter f (nodup string_dec l)) <= length (List.filter f l))%nat.
Proof.
induction l as [|x l IH]; [reflexivity|]. simpl.
destruct (in_dec string_dec x l); simpl; destruct (f x); simpl; lia.
Qed.

Lemma count_labelled_set (o : SetOrder) (label : string) (l : list string) :
  (count_labelled label (set_list o l) <= count_labelled label l)%nat.
Proof.
unfold count_labelled.
rewrite (filter_length_perm _ _ _ (set_list_perm o l)). apply filter_nodup_length.
Qed.

Lemma count_labelled_app (label : string) (l1 l2 : list string) :
  count_labelled label (l1 ++ l2)
  = (count_labelled label l1 + count_labelled label l2)%nat.
Proof. unfold count_labelled. now rewrite List.filter_app, List.length_app. Qed.

Lemma count_labelled_none (label : string) (l : list string) :
  (forall f, In f l -> String.prefix label f = false) -> count_labelled label l = 0%nat.
Proof. intros H. unfold count_labelled. now rewrite filter_none. Qed.

Lemma emission_fact_inv (text_lower f : string) :
  In f (emission_facts text_lower) ->
  exists m, f = "Emissions data: " +:+ m /\ contains m text_lower = true.
Proof.
unfold emission_facts. rewrite in_map_iff. intros (m & <- & Hin).
exists m. split; [reflexivity|]. now apply finditer_from_contains in Hin.
Qed.

Lemma commitment_fact_inv (cfg : CompactionConfig) (text f : string) :
  In f (commitment_facts cfg text) ->
  exists sentence,
    f = "Commitment: " +:+ strip sentence /\
    In sentence (split_on is_sentence_end text) /\
    any_in commitment_words (lower sentence) = true /\
    any_in (priority_keywords cfg) (lower sentence) = true.
Proof.
unfold commitment_facts. rewrite in_flat_map. intros (sentence & Hin & Hf).
destruct (any_in commitment_words (lower sentence)) eqn:E1; [|contradiction].
destruct (any_in (priority_keywords cfg) (lower sentence)) eqn:E2; [|contradiction].
destruct Hf as [<-|[]]. now exists sentence.
Qed.

Lemma preference_facts_cases (text_lower : string) :
  exists diet transport location,
    preference_facts text_lower = diet ++ transport ++ location /\
    (diet = [] \/ exists x, diet = ["Diet: " +:+ x]) /\
    (transport = [] \/ exists x, transport = ["Transport: " +:+ x]) /\
    (location = [] \/ exists x, location = ["Location: " +:+ x]).
Proof.
pose (found := fun (pattern : regex) (template : string) =>
  match search pattern text_lower with
  | Some (_, g) => [template +:+ match g with Some x => x | None => "None" end]
  | None => []
  end).
exists (found diet_pattern "Diet: "), (found transport_pattern "Transport: "),
  (found location_pattern "Location: ").
split.
- unfold preference_facts, preference_patterns. cbn [flat_map].
  now rewrite app_nil_r.
- unfold found.
  destruct (search diet_pattern text_lower) as [[m1 g1]|];
    destruct (search transport_pattern text_lower) as [[m2 g2]|];
    destruct (search location_pattern text_lower) as [[m3 g3]|];
    repeat split; eauto.
Qed.

(** Where each label can come from. *)
Lemma raw_fact_label (cfg : CompactionConfig) (text f : string) :
  In f (raw_facts cfg text) ->
  exists label body, f = label +:+ body /\ In label fact_labels.
Proof.
unfold raw_facts. rewrite !in_app_iff. intros [H|[H|H]].
- apply emission_fact_inv in H as (m & -> & _).
  exists "Emissions data: ", m. split; [reflexivity | cbv; tauto].
- apply commitment_fact_inv in H as (s & -> & _).
  exists "Commitment: ", (strip s). split; [reflexivity | cbv; tauto].
- destruct (preference_facts_cases (lower text)) as (d & t & l & E & Hd & Ht & Hl).
  rewrite E, !in_app_iff in H.
  destruct H as [H|[H|H]];
    [destruct Hd as [->|[x ->]] | destruct Ht as [->|[x ->]] | destruct Hl as [->|[x ->]]];
    try contradiction; destruct H as [<-|[]]; do 2 eexists;
    (split; [reflexivity | cbv; tauto]).
Qed.

Lemma raw_facts_count (cfg : CompactionConfig) (text label : string) :
  In label ["Diet: "; "Transport: "; "Location: "] ->
  (count_labelled label (raw_facts cfg text) <= 1)%nat.
Proof.
intros Hl. unfold raw_facts. rewrite !count_labelled_app.
assert (He : count_labelled label (emission_facts (lower text)) = 0%nat).
{ apply count_labelled_none. intros f Hf. apply emission_fact_inv in Hf as (m & -> & _).
  destruct Hl as [<-|[<-|[<-|[]]]]; reflexivity. }
assert (Hc : count_labelled label (commitment_facts cfg text) = 0%nat).
{ apply count_labelled_none. intros f Hf. apply commitment_fact_inv in Hf as (m & -> & _).
  destruct Hl as [<-|[<-|[<-|[]]]]; reflexivity. }
rewrite He, Hc.
destruct (preference_facts_cases (lower text)) as (d & t & l & -> & Hd & Ht & Hloc).
rewrite !count_labelled_app. unfold count_labelled.
destruct Hl as [<-|[<-|[<-|[]]]];
  destruct Hd as [->|[x ->]], Ht as [->|[y ->]], Hloc as [->|[z ->]];
  cbn [List.filter length];
  rewrite ?(prefix_app "Diet: "), ?(prefix_app "Transport: "), ?(prefix_app "Location: ");
  repeat match goal with
         | |- context [String.prefix ?a (?b +:+ ?c)] =>
             change (String.prefix a (b +:+ c)) with false
         end;
  cbn [length]; lia.
Qed.

(** [turn_of_event] gives nothing exactly for the events without text. *)
Lemma collected_text_length (parts : list (option string)) (acc : string) :
  (String.length acc <=
   String.length
     (fold_left (fun acc part => match part with
                                 | Some (String a rest) => acc +:+ String a rest
                                 | _ => acc
                                 end) parts acc))%nat.
Proof.
revert acc. induction parts as [|part parts IH]; intros acc; [reflexivity|].
cbn [fold_left]. destruct part as [[|a rest]|]; try apply IH.
eapply Nat.le_trans; [|apply IH]. rewrite length_app. lia.
Qed.





End FactFacts.

Module FactTheorems.
Import PyStr TextNotions PyStrFacts Re Compactor SetOrders SetOrderFacts CompactorFacts.
Import CompactorNotions SummaryFacts FactFacts Conversations.

(** X7. The facts that [extract_key_facts] returns are distinct; each
    begins with one of the five labels; a measurement is quoted from
    the lower-cased text; and there is at most one diet fact, one
    transport fact and one location fact. *)
Theorem extracted_facts_are_labelled (o : SetOrder) (cfg : CompactionConfig)
    (text : string) :
  let facts := extract_key_facts o cfg text in
  List.NoDup facts /\
  (forall f, In f facts ->
     exists label body, f = label +:+ body /\ In label fact_labels) /\
  (forall body, In ("Emissions data: " +:+ body) facts ->
     contains body (lower text) = true) /\
  (count_labelled "Diet: " facts <= 1)%nat /\
  (count_labelled "Transport: " facts <= 1)%nat /\
  (count_labelled "Location: " facts <= 1)%nat.
Proof.
intros facts. unfold facts, extract_key_facts.
split; [apply set_list_NoDup|]. split; [|split].
- intros f Hf. apply set_list_in in Hf. now apply raw_fact_label in Hf.
- intros body Hf. apply set_list_in in Hf. unfold raw_facts in Hf.
  rewrite !in_app_iff in Hf. destruct Hf as [H|[H|H]].
  + apply emission_fact_inv in H as (m & E & Hm).
    cbv beta iota delta [String.append] in E. now injection E as ->.
  + apply commitment_fact_inv in H as (s & E & _).
    cbv beta iota delta [String.append] in E. discriminate E.
  + destruct (preference_facts_cases (lower text)) as (d & t & l & E & Hd & Ht & Hl).
    rewrite E, !in_app_iff in H.
    destruct H as [H|[H|H]];
      [destruct Hd as [->|[x ->]] | destruct Ht as [->|[x ->]] | destruct Hl as [->|[x ->]]];
      try contradiction; destruct H as [H|[]];
      cbv beta iota delta [String.append] in H; discriminate H.
- repeat split; (eapply Nat.le_trans; [apply count_labelled_set|]);
    apply raw_facts_count; cbv; tauto.
Qed.



End FactTheorems.


(** ** The service under sequences of calls *)

Module ServiceFacts.
Import PyStr PyStrFacts MemoryService ServiceRest AgentTools.
Import StoreNotions ServiceNotions MemoryServiceFacts PatchFacts.

(** *** What each call does to the state *)

Lemma add_memory_state (rt : Runtime) (st : State) (uid app content category : string)
    (meta : option Metadata) :
  fst (add_memory rt st uid app content category meta)
  = {| heap := heap st; _profiles := _profiles st;
       _memories := <[uid := memories_of st uid
                              ++ [new_entry rt st uid app content category meta]]>
                      (_memories st);
       _footprint_history := _footprint_history st;
       clock := S (clock st); uuids := S (uuids st) |}.
Proof. reflexivity. Qed.

Lemma add_memory_result (rt : Runtime) (st : State) (uid app content category : string)
    (meta : option Metadata) :
  snd (add_memory rt st uid app content category meta)
  = [ ("status", VStr "success");
      ("entry_id", VStr (entry_id (new_entry rt st uid app content category meta)));
      ("message", VStr "Memory added successfully") ].
Proof. reflexivity. Qed.

(** The measurement is appended, then mirrored as a memory. *)
Lemma record_footprint_state (rt : Runtime) (st : State) (uid category act : string)
    (e : float) (det : option Dict) :
  let r := new_record rt st uid category act e det in
  let st1 := {| heap := heap st; _profiles := _profiles st; _memories := _memories st;
                _footprint_history := <[uid := records_of st uid ++ [r]]>
                                        (_footprint_history st);
                clock := S (clock st); uuids := S (uuids st) |} in
  fst (record_footprint rt st uid category act e det)
  = fst (add_memory rt st1 uid "climateguard"
           ("Footprint recorded: " +:+ act +:+ " - " +:+ float_str rt e
            +:+ " kg CO2 (" +:+ category +:+ ")")
           "footprint" (Some (MetaFootprint r))).
Proof. reflexivity. Qed.

Lemma record_habit_state (rt : Runtime) (st : State) (uid habit : string) (completed : bool) :
  fst (record_habit rt st uid habit completed)
  = fst (add_memory rt st uid "climateguard"
           ("Habit " +:+ (if completed then "completed" else "missed") +:+ ": " +:+ habit)
           "habit"
           (Some (MetaDict [("habit", VStr habit); ("completed", VBool completed)]))).
Proof. reflexivity. Qed.

Lemma add_session_state (rt : Runtime) (st : State) (session : Session) :
  let uid := match session_user_id session with Some u => u | None => "unknown" end in
  let sid := match session_id session with Some i => i | None => "unknown" end in
  let meta := Some (MetaDict [("session_id", VStr sid)]) in
  fst (add_session_to_memory rt st session)
  = fst (add_memory rt
           (fst (add_memory rt st uid "climateguard" ("Session " +:+ sid +:+ " completed")
                   "conversation" meta))
           uid "climateguard" "User discussed carbon footprint goals" "conversation" meta).
Proof. reflexivity. Qed.

(** *** Reading an identity's memories and measurements *)

Lemma memories_of_add_memory (rt : Runtime) (st : State) (uid app content category : string)
    (meta : option Metadata) (other : string) :
  memories_of (fst (add_memory rt st uid app content category meta)) other
  = if String.eqb uid other
    then memories_of st uid ++ [new_entry rt st uid app content category meta]
    else memories_of st other.
Proof.
rewrite add_memory_state. unfold memories_of at 1. cbn [_memories].
destruct (String.eqb_spec uid other) as [<-|Hne].
- now rewrite lookup_insert_eq.
- now rewrite lookup_insert_ne.
Qed.

Lemma records_of_add_memory (rt : Runtime) (st : State) (uid app content category : string)
    (meta : option Metadata) (other : string) :
  records_of (fst (add_memory rt st uid app content category meta)) other
  = records_of st other.
Proof. reflexivity. Qed.

Lemma memories_of_record_footprint (rt : Runtime) (st : State) (uid category act : string)
    (e : float) (det : option Dict) (other : string) :
  exists entry,
    String.prefix "mem_" (entry_id entry) = true /\
    me_category entry = "footprint" /\ me_user_id entry = uid /\
    metadata entry = MetaFootprint (new_record rt st uid category act e det) /\
    me_content entry = "Footprint recorded: " +:+ act +:+ " - " +:+ float_str rt e
                       +:+ " kg CO2 (" +:+ category +:+ ")" /\
    memories_of (fst (record_footprint rt st uid category act e det)) other
    = if String.eqb uid other then memories_of st uid ++ [entry] else memories_of st other.
Proof.
rewrite record_footprint_state. cbv zeta. eexists. rewrite memories_of_add_memory.
refine (conj _ (conj _ (conj _ (conj _ (conj _ eq_refl))))); try reflexivity.
apply (prefix_app "mem_").
Qed.

Lemma records_of_record_footprint (rt : Runtime) (st : State) (uid category act : string)
    (e : float) (det : option Dict) (other : string) :
  records_of (fst (record_footprint rt st uid category act e det)) other
  = if String.eqb uid other
    then records_of st uid ++ [new_record rt st uid category act e det]
    else records_of st other.
Proof.
rewrite record_footprint_state. cbv zeta. rewrite records_of_add_memory.
unfold records_of at 1. cbn [_footprint_history].
destruct (String.eqb_spec uid other) as [<-|Hne].
- now rewrite lookup_insert_eq.
- now rewrite lookup_insert_ne.
Qed.

(** *** Nothing stored is lost *)

Lemma extends_refl (st : State) : extends st st.
Proof.
repeat split; auto; intros uid; exists []; now rewrite app_nil_r.
Qed.

Lemma extends_trans (a b c : State) : extends a b -> extends b c -> extends a c.
Proof.
intros (M1 & R1 & P1 & H1 & C1 & U1) (M2 & R2 & P2 & H2 & C2 & U2).
repeat split; auto; try lia.
- intros uid. destruct (M1 uid) as [m1 E1], (M2 uid) as [m2 E2].
  exists (m1 ++ m2). now rewrite E2, E1, <- List.app_assoc.
- intros uid. destruct (R1 uid) as [m1 E1], (R2 uid) as [m2 E2].
  exists (m1 ++ m2). now rewrite E2, E1, <- List.app_assoc.
Qed.

(** A step that leaves memories and measurements alone. *)
Lemma extends_same_lists (st st' : State) :
  _memories st' = _memories st ->
  _footprint_history st' = _footprint_history st ->
  (forall uid, is_Some (_profiles st !! uid) -> is_Some (_profiles st' !! uid)) ->
  (forall ref, is_Some (heap st !! ref) -> is_Some (heap st' !! ref)) ->
  (clock st <= clock st')%nat -> (uuids st <= uuids st')%nat ->
  extends st st'.
Proof.
intros Hm Hr Hp Hh Hc Hu. repeat split; auto; intros uid; exists [];
  unfold memories_of, records_of; now rewrite ?Hm, ?Hr, app_nil_r.
Qed.

Lemma is_Some_insert {K A} `{Countable K} (m : gmap K A) (i j : K) (x : A) :
  is_Some (m !! j) -> is_Some (<[i := x]> m !! j).
Proof.
intros Hj. destruct (decide (i = j)) as [->|Hne].
- rewrite lookup_insert_eq. eauto.
- now rewrite lookup_insert_ne.
Qed.

Lemma extends_now (rt : Runtime) (st : State) : extends st (fst (now rt st)).
Proof. apply extends_same_lists; cbn; auto. Qed.

Lemma extends_set_heap (st : State) (ref : nat) (p : UserProfile) :
  extends st (set_heap st ref p).
Proof. apply extends_same_lists; cbn; auto. intros r. apply is_Some_insert. Qed.

Lemma extends_set_profile (st : State) (uid : string) (ref : nat) :
  extends st (set_profile st uid ref).
Proof. apply extends_same_lists; cbn; auto. intros r. apply is_Some_insert. Qed.

Lemma extends_alloc (st : State) (p : UserProfile) : extends st (fst (alloc st p)).
Proof. apply extends_same_lists; cbn; auto. intros r. apply is_Some_insert. Qed.

Lemma extends_add_memory (rt : Runtime) (st : State) (uid app content category : string)
    (meta : option Metadata) :
  extends st (fst (add_memory rt st uid app content category meta)).
Proof.
repeat split; auto; try (cbn; lia).
- intros other. rewrite memories_of_add_memory.
  destruct (String.eqb_spec uid other) as [<-|Hne]; [eauto|].
  exists []. now rewrite app_nil_r.
- intros other. exists []. now rewrite records_of_add_memory, app_nil_r.
Qed.

Lemma extends_record_footprint (rt : Runtime) (st : State) (uid category act : string)
    (e : float) (det : option Dict) :
  extends st (fst (record_footprint rt st uid category act e det)).
Proof.
repeat split; auto; try (cbn; lia).
- intros other.
  destruct (memories_of_record_footprint rt st uid category act e det other)
    as (entry & _ & _ & _ & _ & _ & ->).
  destruct (String.eqb_spec uid other) as [<-|Hne]; [eauto|].
  exists []. now rewrite app_nil_r.
- intros other. rewrite records_of_record_footprint.
  destruct (String.eqb_spec uid other) as [<-|Hne]; [eauto|].
  exists []. now rewrite app_nil_r.
Qed.

(** The states in which [save_profile] can leave the service. *)
Lemma save_profile_states (rt : Runtime) (st st' : State) (ref : nat) (out : outcome Dict) :
  save_profile rt st ref = Some (st', out) ->
  exists p,
    heap st !! ref = Some p /\
    let q := setattr p "updated_at" (VStr (now_isoformat rt (clock st))) in
    let st2 := set_heap (fst (now rt st)) ref q in
    st' = st2 \/
    (exists uid, getattr q "user_id" = Some (VStr uid) /\
       (st' = set_profile st2 uid ref \/
        exists content d,
          out = Returned (profile_saved uid) /\
          st' = fst (add_memory rt (set_profile st2 uid ref) uid "climateguard" content
                       "profile" (Some (MetaDict d))))).
Proof.
unfold save_profile. destruct (heap st !! ref) as [p|] eqn:Eh; [|discriminate].
cbn [now fst snd]. intros H. exists p. split; [reflexivity|]. cbv zeta.
destruct (getattr _ "user_id") as [[| | | |uid|]|]; try discriminate.
- right. exists uid. split; [reflexivity|].
  destruct (attr_str rt _ "diet_type");
    [destruct (attr_str rt _ "primary_transport");
       [destruct (attr_str rt _ "city")|]|].
  + destruct (dict_has _ "to_dict").
    * injection H as <- <-. now left.
    * destruct (asdict _) as [d|].
      -- right. do 2 eexists.
         match type of H with
         | (let '(_, _) := ?call in _) = _ => destruct call as [st4 r] eqn:E
         end.
         injection H as <- <-. apply (f_equal fst) in E. cbn [fst] in E.
         split; [reflexivity | now rewrite <- E].
      -- injection H as <- <-. now left.
  + injection H as <- <-. now left.
  + injection H as <- <-. now left.
  + injection H as <- <-. now left.
- injection H as <- <-. now left.
Qed.

Lemma save_profile_extends (rt : Runtime) (st st' : State) (ref : nat) (out : outcome Dict) :
  save_profile rt st ref = Some (st', out) -> extends st st'.
Proof.
intros H. destruct (save_profile_states rt st st' ref out H) as (p & _ & Hst).
cbv zeta in Hst.
assert (H2 : extends st (set_heap (fst (now rt st)) ref
                           (setattr p "updated_at" (VStr (now_isoformat rt (clock st)))))).
{ eapply extends_trans; [apply extends_now | apply extends_set_heap]. }
destruct Hst as [->|(uid & _ & [->|(content & d & _ & ->)])].
- exact H2.
- eapply extends_trans; [exact H2 | apply extends_set_profile].
- eapply extends_trans; [exact H2|].
  eapply extends_trans; [apply extends_set_profile | apply extends_add_memory].
Qed.

(** [update_profile] leaves the state alone, or hands a patched object
    to [save_profile]. *)
Lemma update_profile_states (rt : Runtime) (st st' : State) (uid : string) (updates : Dict)
    (out : outcome Dict) :
  update_profile rt st uid updates = Some (st', out) ->
  (st' = st /\ _profiles st !! uid = None) \/
  exists ref p,
    _profiles st !! uid = Some ref /\ heap st !! ref = Some p /\
    existsb (fun kv => starts_with_underscore (fst kv)) updates = false /\
    save_profile rt
      (set_heap (fst (now rt st)) ref
         (setattr (apply_updates p updates) "updated_at"
                  (VStr (now_isoformat rt (clock st)))))
      ref = Some (st', out).
Proof.
unfold update_profile. destruct (_profiles st !! uid) as [ref|].
- destruct (heap st !! ref) as [p|] eqn:Eh; [|discriminate].
  destruct (existsb _ updates); [discriminate|]. intros H. right. now exists ref, p.
- intros [= <- <-]. now left.
Qed.

Lemma update_profile_extends (rt : Runtime) (st st' : State) (uid : string) (updates : Dict)
    (out : outcome Dict) :
  update_profile rt st uid updates = Some (st', out) -> extends st st'.
Proof.
intros H. destruct (update_profile_states rt st st' uid updates out H)
  as [[-> _]|(ref & p & _ & _ & _ & Hs)]; [apply extends_refl|].
apply save_profile_extends in Hs.
eapply extends_trans; [|exact Hs].
eapply extends_trans; [apply extends_now | apply extends_set_heap].
Qed.

Lemma run_call_extends (rt : Runtime) (st st' : State) (c : Call) :
  run_call rt st c = Some st' -> extends st st'.
Proof.
destruct c as [uid app content category meta|uid category act e det|uid habit completed
              |session|p|ref|uid updates]; cbn [run_call].
- intros [= <-]. apply extends_add_memory.
- intros [= <-]. apply extends_record_footprint.
- intros H. assert (E : st' = fst (record_habit rt st uid habit completed)) by congruence.
  rewrite E, record_habit_state. apply extends_add_memory.
- intros H. assert (E : st' = fst (add_session_to_memory rt st session)) by congruence.
  rewrite E, add_session_state. cbv zeta.
  eapply extends_trans; apply extends_add_memory.
- intros [= <-]. apply extends_alloc.
- destruct (save_profile rt st ref) as [[s out]|] eqn:E; [|discriminate].
  intros [= <-]. now apply save_profile_extends in E.
- destruct (update_profile rt st uid updates) as [[s out]|] eqn:E; [|discriminate].
  intros [= <-]. now apply update_profile_extends in E.
Qed.

Lemma run_calls_extends (rt : Runtime) (calls : list Call) :
  forall st st', run_calls rt st calls = Some st' -> extends st st'.
Proof.
induction calls as [|c calls IH]; intros st st'; cbn [run_calls].
- intros [= <-]. apply extends_refl.
- destruct (run_call rt st c) as [s|] eqn:E; [|discriminate].
  intros H. exact (extends_trans _ _ _ (run_call_extends _ _ _ _ E) (IH _ _ H)).
Qed.

(** *** A query reads what the service holds for its identity *)

Lemma filtered_records_of (st : State) (uid : string) (category : option string) :
  filtered_records st uid category
  = match category with
    | Some (String a c) =>
        List.filter (fun r => String.eqb (fr_category r) (String a c)) (records_of st uid)
    | _ => records_of st uid
    end.
Proof. reflexivity. Qed.

Lemma get_footprint_history_of (rt : Runtime) (st : State) (uid : string)
    (category : option string) (days : Z) :
  get_footprint_history rt st uid category days
  = history_of rt uid (filtered_records st uid category).
Proof. now destruct category as [[|a c]|]. Qed.

Lemma get_profile_add_memory (rt : Runtime) (st : State) (uid app content category : string)
    (meta : option Metadata) (other : string) :
  get_profile (fst (add_memory rt st uid app content category meta)) other
  = get_profile st other.
Proof. reflexivity. Qed.

Lemma get_profile_record_footprint (rt : Runtime) (st : State) (uid category act : string)
    (e : float) (det : option Dict) (other : string) :
  get_profile (fst (record_footprint rt st uid category act e det)) other
  = get_profile st other.
Proof. reflexivity. Qed.

(** Two states that hold the same for an identity answer its queries
    alike. *)
Lemma queries_read_the_identity (rt : Runtime) (o : SetOrder) (round1 : float -> float)
    (st st' : State) (u : string) :
  memories_of st' u = memories_of st u ->
  records_of st' u = records_of st u ->
  get_profile st' u = get_profile st u ->
  (forall app q cat l, search_memory o st' app u q cat l = search_memory o st app u q cat l) /\
  (forall cat d, get_footprint_history rt st' u cat d = get_footprint_history rt st u cat d) /\
  (forall h, get_habit_streak round1 st' u h = get_habit_streak round1 st u h) /\
  get_user_profile st' u = get_user_profile st u /\
  (forall loop_running,
     get_user_status rt loop_running st' u = get_user_status rt loop_running st u) /\
  (forall plan, get_plan_progress o round1 st' u plan = get_plan_progress o round1 st u plan).
Proof.
intros Hm Hr Hp.
assert (Hs : forall app q cat l,
          search_memory o st' app u q cat l = search_memory o st app u q cat l).
{ intros app q cat l. unfold search_memory.
  change (default [] (_memories st' !! u)) with (memories_of st' u).
  change (default [] (_memories st !! u)) with (memories_of st u). now rewrite Hm. }
assert (Hh : forall cat d,
          get_footprint_history rt st' u cat d = get_footprint_history rt st u cat d).
{ intros cat d. rewrite !get_footprint_history_of, !filtered_records_of. now rewrite Hr. }
repeat split.
- exact Hs.
- exact Hh.
- intros h. unfold get_habit_streak, habit_memories.
  change (default [] (_memories st' !! u)) with (memories_of st' u).
  change (default [] (_memories st !! u)) with (memories_of st u). now rewrite Hm.
- unfold get_user_profile. now rewrite Hp.
- intros loop_running. unfold get_user_status. now rewrite Hp, Hh.
- intros plan. unfold get_plan_progress. now rewrite Hs.
Qed.

(** A call that adds to one identity leaves what is held for another. *)
Lemma writes_to_other (rt : Runtime) (st st' : State) (c : Call) (uid other : string) :
  writes_to c = Some uid -> uid <> other -> run_call rt st c = Some st' ->
  memories_of st' other = memories_of st other /\
  records_of st' other = records_of st other /\
  get_profile st' other = get_profile st other.
Proof.
intros Hw Hne Hrun. apply String.eqb_neq in Hne.
destruct c as [u app content category meta|u category act e det|u habit completed
              |session|p|ref|u updates]; cbn [writes_to] in Hw; try discriminate;
  injection Hw as Hw; cbn [run_call] in Hrun.
- subst u. assert (E : st' = fst (add_memory rt st uid app content category meta))
    by congruence.
  rewrite E, memories_of_add_memory, Hne. now repeat split.
- subst u. assert (E : st' = fst (record_footprint rt st uid category act e det))
    by congruence.
  rewrite E, records_of_record_footprint, Hne.
  destruct (memories_of_record_footprint rt st uid category act e det other)
    as (entry & _ & _ & _ & _ & _ & ->). rewrite Hne. now repeat split.
- subst u. assert (E : st' = fst (record_habit rt st uid habit completed)) by congruence.
  rewrite E, record_habit_state, memories_of_add_memory, Hne. now repeat split.
- assert (E : st' = fst (add_session_to_memory rt st session)) by congruence.
  rewrite E, add_session_state. cbv zeta. rewrite Hw.
  rewrite !memories_of_add_memory, Hne. now repeat split.
Qed.

(** *** What is stored is filed where it belongs *)

Lemma consistent_init : consistent init.
Proof.
unfold consistent, memories_of, records_of. cbn. split; [|split]; intros uid x;
  rewrite lookup_empty; cbn; try contradiction; discriminate.
Qed.

(** A step that leaves memories, measurements and profile keys alone
    and keeps the objects. *)
Lemma consistent_same_lists (st st' : State) :
  _memories st' = _memories st ->
  _footprint_history st' = _footprint_history st ->
  (forall uid ref, _profiles st' !! uid = Some ref -> is_Some (heap st' !! ref)) ->
  consistent st -> consistent st'.
Proof.
intros Hm Hr Hp (M & R & P). unfold consistent, memories_of, records_of in *.
rewrite Hm, Hr. auto.
Qed.

Lemma consistent_now (rt : Runtime) (st : State) : consistent st -> consistent (fst (now rt st)).
Proof. intros H. apply (consistent_same_lists st); auto. apply H. Qed.

Lemma consistent_set_heap (st : State) (ref : nat) (p : UserProfile) :
  consistent st -> consistent (set_heap st ref p).
Proof.
intros H. apply (consistent_same_lists st); auto.
intros uid r Hr. cbn. apply is_Some_insert. destruct H as (_ & _ & P). now apply (P uid).
Qed.

Lemma consistent_alloc (st : State) (p : UserProfile) :
  consistent st -> consistent (fst (alloc st p)).
Proof.
intros H. apply (consistent_same_lists st); auto.
intros uid r Hr. cbn. apply is_Some_insert. destruct H as (_ & _ & P). now apply (P uid).
Qed.

Lemma consistent_set_profile (st : State) (uid : string) (ref : nat) :
  is_Some (heap st !! ref) -> consistent st -> consistent (set_profile st uid ref).
Proof.
intros Href H. apply (consistent_same_lists st); auto.
intros u r. cbn. destruct (decide (uid = u)) as [->|Hne].
- rewrite lookup_insert_eq. now intros [= <-].
- rewrite lookup_insert_ne by exact Hne. destruct H as (_ & _ & P). apply P.
Qed.

Lemma consistent_add_memory (rt : Runtime) (st : State) (uid app content category : string)
    (meta : option Metadata) :
  consistent st -> consistent (fst (add_memory rt st uid app content category meta)).
Proof.
intros (M & R & P). split; [|split].
- intros u e. rewrite memories_of_add_memory.
  destruct (String.eqb_spec uid u) as [<-|Hne]; [|apply M].
  rewrite in_app_iff. intros [He|[<-|[]]]; [now apply M|].
  split; [reflexivity | apply (prefix_app "mem_")].
- intros u r Hr. rewrite records_of_add_memory in Hr.
  destruct (R u r Hr) as (H1 & H2 & e & He & Hc & Hmeta).
  split; [exact H1|]. split; [exact H2|]. exists e. split; [|now split].
  rewrite memories_of_add_memory. destruct (String.eqb_spec uid u) as [<-|Hne]; [|exact He].
  apply in_or_app. now left.
- exact P.
Qed.

Lemma consistent_record_footprint (rt : Runtime) (st : State) (uid category act : string)
    (e : float) (det : option Dict) :
  consistent st -> consistent (fst (record_footprint rt st uid category act e det)).
Proof.
intros (M & R & P). split; [|split].
- intros u m.
  destruct (memories_of_record_footprint rt st uid category act e det u)
    as (entry & Hid & Hc & Hu & Hmeta & _ & ->).
  destruct (String.eqb_spec uid u) as [<-|Hne]; [|apply M].
  rewrite in_app_iff. intros [He|[<-|[]]]; [now apply M | now split].
- intros u r. rewrite records_of_record_footprint.
  destruct (memories_of_record_footprint rt st uid category act e det u)
    as (entry & Hid & Hc & Hu & Hmeta & _ & ->).
  destruct (String.eqb_spec uid u) as [<-|Hne].
  + rewrite in_app_iff. intros [Hr|[<-|[]]].
    * destruct (R uid r Hr) as (H1 & H2 & m & Hm & Hmc & Hmm).
      split; [exact H1|]. split; [exact H2|]. exists m. split; [|now split].
      apply in_or_app. now left.
    * split; [reflexivity|]. split; [apply (prefix_app "fp_")|].
      exists entry. split; [|now split]. apply in_or_app. right. now left.
  + apply R.
- exact P.
Qed.

Lemma consistent_save_profile (rt : Runtime) (st st' : State) (ref : nat)
    (out : outcome Dict) :
  save_profile rt st ref = Some (st', out) -> consistent st -> consistent st'.
Proof.
intros H Hc. destruct (save_profile_states rt st st' ref out H) as (p & Hp & Hst).
cbv zeta in Hst.
set (st2 := set_heap (fst (now rt st)) ref
              (setattr p "updated_at" (VStr (now_isoformat rt (clock st))))) in Hst.
assert (H2 : consistent st2) by apply consistent_set_heap, consistent_now, Hc.
assert (Hl : is_Some (heap st2 !! ref)).
{ unfold st2, set_heap. cbn. rewrite lookup_insert_eq. eauto. }
destruct Hst as [->|(uid & _ & [->|(content & d & _ & ->)])].
- exact H2.
- now apply consistent_set_profile.
- apply consistent_add_memory. now apply consistent_set_profile.
Qed.

Lemma consistent_update_profile (rt : Runtime) (st st' : State) (uid : string)
    (updates : Dict) (out : outcome Dict) :
  update_profile rt st uid updates = Some (st', out) -> consistent st -> consistent st'.
Proof.
intros H Hc. destruct (update_profile_states rt st st' uid updates out H)
  as [[-> _]|(ref & p & _ & _ & _ & Hs)]; [exact Hc|].
apply (consistent_save_profile _ _ _ _ _ Hs). apply consistent_set_heap, consistent_now, Hc.
Qed.

Lemma consistent_run_call (rt : Runtime) (st st' : State) (c : Call) :
  run_call rt st c = Some st' -> consistent st -> consistent st'.
Proof.
destruct c as [uid app content category meta|uid category act e det|uid habit completed
              |session|p|ref|uid updates]; cbn [run_call]; intros H Hc.
- injection H as <-. now apply consistent_add_memory.
- injection H as <-. now apply consistent_record_footprint.
- assert (E : st' = fst (record_habit rt st uid habit completed)) by congruence.
  rewrite E, record_habit_state. now apply consistent_add_memory.
- assert (E : st' = fst (add_session_to_memory rt st session)) by congruence.
  rewrite E, add_session_state. cbv zeta. now do 2 apply consistent_add_memory.
- injection H as <-. now apply consistent_alloc.
- destruct (save_profile rt st ref) as [[s out]|] eqn:E; [|discriminate].
  injection H as <-. exact (consistent_save_profile _ _ _ _ _ E Hc).
- destruct (update_profile rt st uid updates) as [[s out]|] eqn:E; [|discriminate].
  injection H as <-. exact (consistent_update_profile _ _ _ _ _ _ E Hc).
Qed.

Lemma consistent_run_calls (rt : Runtime) (calls : list Call) :
  forall st st', run_calls rt st calls = Some st' -> consistent st -> consistent st'.
Proof.
induction calls as [|c calls IH]; intros st st'; cbn [run_calls].
- now intros [= <-].
- destruct (run_call rt st c) as [s|] eqn:E; [|discriminate].
  intros H Hc. apply (IH s st' H). exact (consistent_run_call _ _ _ _ E Hc).
Qed.

(** *** Histories *)

Lemma filter_true {A} (l : list A) : List.filter (fun _ => true) l = l.
Proof. induction l as [|x l IH]; [reflexivity|]. simpl. now rewrite IH. Qed.

Lemma filtered_records_filter (st : State) (uid : string) (category : option string) :
  filtered_records st uid category
  = List.filter (record_in_category category) (records_of st uid).
Proof.
rewrite filtered_records_of.
destruct category as [[|a c]|]; cbn [record_in_category]; now rewrite ?filter_true.
Qed.

Lemma slice_last_ten {A} (l : list A) :
  list_slice_from (-10) l = skipn (length l - 10) l.
Proof. reflexivity. Qed.

Lemma slice_last_ten_snoc {A} (l : list A) (x : A) :
  list_slice_from (-10) (l ++ [x]) = list_slice_from (-10) l ++ [x] \/
  exists y rest, list_slice_from (-10) l = y :: rest /\
                 list_slice_from (-10) (l ++ [x]) = rest ++ [x].
Proof.
rewrite !slice_last_ten, List.length_app. cbn [length].
destruct (Nat.le_gt_cases (length l) 9) as [Hle|Hgt].
- left. replace (length l + 1 - 10)%nat with 0%nat by lia.
  replace (length l - 10)%nat with 0%nat by lia. reflexivity.
- right. replace (length l + 1 - 10)%nat with (S (length l - 10)) by lia.
  rewrite skipn_app. replace (S (length l - 10) - length l)%nat with 0%nat by lia.
  cbn [skipn].
  destruct (skipn (length l - 10) l) as [|y rest] eqn:E.
  + apply (f_equal (@length A)) in E. rewrite length_skipn in E. simpl in E. lia.
  + exists y, rest. split; [reflexivity|].
    f_equal. change (S (length l - 10)) with (1 + (length l - 10))%nat.
    rewrite <- skipn_skipn, E. reflexivity.
Qed.

(** The keys of [by_category] as the loop builds them. *)
Lemma add_to_category_keys (d : list (string * float)) (c : string) (x : float) :
  map fst (add_to_category d c x)
  = if in_list c (map fst d) then map fst d else map fst d ++ [c].
Proof.
induction d as [|[k v] d IH]; [reflexivity|]. cbn [add_to_category map fst in_list existsb].
rewrite (String.eqb_sym c k). destruct (String.eqb k c); [reflexivity|].
cbn [map fst orb]. rewrite IH. fold (in_list c (map fst d)).
now destruct (in_list c (map fst d)).
Qed.

Lemma by_category_keys_from (records : list FootprintRecord) :
  forall d,
    map fst (fold_left (fun d r => add_to_category d (fr_category r) (emissions_kg_co2 r))
                       records d)
    = fold_left (fun seen c => if in_list c seen then seen else seen ++ [c])
                (map fr_category records) (map fst d).
Proof.
induction records as [|r records IH]; intros d; [reflexivity|].
cbn [fold_left map]. now rewrite IH, add_to_category_keys.
Qed.

Lemma first_occurrences_from (l : list string) :
  forall seen,
    List.NoDup seen ->
    let out := fold_left (fun seen c => if in_list c seen then seen else seen ++ [c]) l seen in
    List.NoDup out /\ (forall c, In c out <-> In c seen \/ In c l) /\
    exists more, out = seen ++ more.
Proof.
induction l as [|x l IH]; intros seen Hnd; cbn [fold_left].
- split; [exact Hnd|]. split; [intros c; cbn; tauto|]. exists []. now rewrite app_nil_r.
- destruct (in_list x seen) eqn:E.
  + destruct (IH seen Hnd) as (H1 & H2 & H3). split; [exact H1|]. split; [|exact H3].
    intros c. rewrite H2. cbn [In]. apply in_list_In in E.
    split; [tauto|]. intros [H|[<-|H]]; auto.
  + assert (Hx : ~ In x seen).
    { intros Hin. apply in_list_In in Hin. congruence. }
    assert (Hnd' : List.NoDup (seen ++ [x])).
    { apply List.NoDup_app; [exact Hnd | |].
      - constructor; [intros [] | constructor].
      - intros y Hy [<-|[]]. contradiction. }
    destruct (IH (seen ++ [x]) Hnd') as (H1 & H2 & more & H3).
    split; [exact H1|]. split.
    * intros c. rewrite H2, in_app_iff. cbn [In]. tauto.
    * exists (x :: more). rewrite H3, <- List.app_assoc. reflexivity.
Qed.

(** *** Profiles *)

Lemma asdict_fields_keys (p : UserProfile) (fields : list string) (d : Dict) :
  asdict_fields p fields = Some d ->
  map fst d = fields /\ forall f, In f fields -> dict_get d f = getattr p f.
Proof.
revert d. induction fields as [|f fs IH]; intros d; cbn [asdict_fields].
- intros [= <-]. split; [reflexivity | intros f []].
- destruct (getattr p f) as [v|] eqn:Ev; [|discriminate].
  destruct (asdict_fields p fs) as [d'|]; [|discriminate]. intros [= <-].
  destruct (IH d' eq_refl) as [Hk Hv]. split; [cbn; now rewrite Hk|].
  intros g Hg. cbn [dict_get]. destruct (String.eqb_spec f g) as [<-|Hne]; [now rewrite Ev|].
  destruct Hg as [Hg|Hg]; [contradiction | now apply Hv].
Qed.

Lemma dict_set_twice (d : Dict) (k : string) (v w : PyVal) :
  dict_set (dict_set d k w) k v = dict_set d k v.
Proof.
induction d as [|[k0 x] d IH]; cbn [dict_set].
- now rewrite String.eqb_refl.
- destruct (String.eqb k0 k) eqn:E; cbn [dict_set]; rewrite E; [reflexivity | now rewrite IH].
Qed.

(** [save_profile] on an object that has its fields and its methods. *)
Lemma save_profile_on_intact (rt : Runtime) (st : State) (ref : nat) (p : UserProfile)
    (uid : string) :
  heap st !! ref = Some p ->
  intact p = true ->
  dict_get p "user_id" = Some (VStr uid) ->
  let q := setattr p "updated_at" (VStr (now_isoformat rt (clock st))) in
  exists st' d entry,
    save_profile rt st ref = Some (st', Returned (profile_saved uid)) /\
    asdict q = Some d /\
    heap st' = <[ref := q]> (heap st) /\
    _profiles st' = <[uid := ref]> (_profiles st) /\
    (forall u, memories_of st' u
               = if String.eqb uid u then memories_of st uid ++ [entry] else memories_of st u) /\
    me_category entry = "profile" /\ me_content entry = profile_summary rt p /\
    metadata entry = MetaDict d /\
    (forall u, records_of st' u = records_of st u) /\
    clock st' = S (S (clock st)) /\ uuids st' = S (uuids st).
Proof.
intros Hheap Hint Huid q. unfold intact in Hint. apply andb_true_iff in Hint as [Hf Hm].
apply negb_true_iff in Hm.
destruct (save_profile_with_fields rt st ref p uid Hheap Hf Huid) as (d & Hd & Hsave).
rewrite Hm in Hsave. cbv zeta in Hd, Hsave.
eexists _, d, _. split; [exact Hsave|]. split; [exact Hd|].
split; [reflexivity|]. split; [reflexivity|]. split.
- intros u. rewrite memories_of_add_memory. reflexivity.
- repeat split; reflexivity.
Qed.

(** A patch on a stored object as the constructor builds it. *)
Lemma update_profile_on_plain (rt : Runtime) (st : State) (uid : string) (ref : nat)
    (p : UserProfile) (updates : Dict) (owner : string) :
  _profiles st !! uid = Some ref ->
  heap st !! ref = Some p ->
  plain p ->
  forallb (fun kv => negb (starts_with_underscore (fst kv))) updates = true ->
  forallb (fun kv => negb (in_list (fst kv) profile_methods)) updates = true ->
  dict_get (write_all p (recognized updates)) "user_id" = Some (VStr owner) ->
  let q := setattr (write_all p (recognized updates)) "updated_at"
             (VStr (now_isoformat rt (S (clock st)))) in
  exists st' d entry,
    update_profile rt st uid updates = Some (st', Returned (profile_saved owner)) /\
    plain q /\ asdict q = Some d /\
    heap st' !! ref = Some q /\
    (forall r, r <> ref -> heap st' !! r = heap st !! r) /\
    _profiles st' = <[owner := ref]> (_profiles st) /\
    (forall u, memories_of st' u
               = if String.eqb owner u then memories_of st owner ++ [entry]
                 else memories_of st u) /\
    me_category entry = "profile" /\ metadata entry = MetaDict d /\
    (forall u, records_of st' u = records_of st u).
Proof.
intros Hprof Hheap Hp Hu Hm Hown q.
destruct (apply_updates_recognized p updates Hp Hm) as [Eap Hplain].
set (p1 := write_all p (recognized updates)) in *.
set (p2 := setattr p1 "updated_at" (VStr (now_isoformat rt (clock st)))).
set (st1 := set_heap (fst (now rt st)) ref p2).
assert (Hp2 : plain p2) by (apply plain_setattr; [now rewrite <- Eap | reflexivity]).
assert (Hh1 : heap st1 !! ref = Some p2) by (unfold st1, set_heap; cbn; apply lookup_insert_eq).
assert (Hu2 : dict_get p2 "user_id" = Some (VStr owner)).
{ unfold p2, setattr. now rewrite dict_get_set. }
destruct (save_profile_on_intact rt st1 ref p2 owner Hh1 (plain_intact p2 Hp2) Hu2)
  as (st' & d & entry & Hsave & Hd & Hheap' & Hprof' & Hmem & Hc & _ & Hmeta & Hrec & _).
cbv zeta in Hd, Hheap'.
assert (Eq : setattr p2 "updated_at" (VStr (now_isoformat rt (clock st1))) = q).
{ unfold q, p2, setattr. now rewrite dict_set_twice. }
rewrite Eq in Hd, Hheap'.
exists st', d, entry. split.
- unfold update_profile. rewrite Hprof, Hheap.
  assert (Hex : existsb (fun kv => starts_with_underscore (fst kv)) updates = false).
  { clear -Hu. induction updates as [|kv l IH]; [reflexivity|]. simpl in *.
    apply andb_true_iff in Hu as [H1 H2]. apply negb_true_iff in H1. now rewrite H1, IH. }
  rewrite Hex, Eap. exact Hsave.
- split; [unfold q; apply plain_setattr; [now rewrite <- Eap | reflexivity]|].
  split; [exact Hd|]. split; [rewrite Hheap'; apply lookup_insert_eq|]. split.
  + intros r Hr. rewrite Hheap', lookup_insert_ne by congruence.
    unfold st1, set_heap. cbn. now rewrite lookup_insert_ne by congruence.
  + split; [exact Hprof'|]. split; [exact Hmem|]. now repeat split.
Qed.

End ServiceFacts.

Module ServiceTheorems.
Import PyStr PyStrFacts MemoryService ServiceRest AgentTools.
Import StoreNotions ServiceNotions MemoryServiceFacts PatchFacts ServiceFacts.
Import SetOrders Stores Scenarios.

(** X9. The service only ever adds. Whatever calls a client makes,
    the memories and the measurements of every identity keep what they
    held, in order, with the new ones after them; an identity that had
    a profile has one, a profile object stays in place, and the clock
    and the identifier generator never run backwards. So no call
    lowers the [records_count] of a history. *)
Theorem store_is_append_only (rt : Runtime) (st st' : State) (calls : list Call) :
  run_calls rt st calls = Some st' ->
  extends st st' /\
  (forall uid category days,
     records_count (get_footprint_history rt st uid category days)
     <= records_count (get_footprint_history rt st' uid category days)).
Proof.
intros H. apply run_calls_extends in H. split; [exact H|].
intros uid category days. destruct H as (_ & Hr & _). destruct (Hr uid) as [more E].
rewrite !get_footprint_history_of, !filtered_records_of, E. cbn [records_count history_of].
destruct category as [[|a c]|]; rewrite ?List.filter_app, !List.length_app; lia.
Qed.

Lemma store_is_append_only_witness :
  extends init (after first_day) /\
  records_count (get_footprint_history clockwork init "alice" None 30)
  <= records_count (get_footprint_history clockwork (after first_day) "alice" None 30).
Proof.
destruct (store_is_append_only clockwork init (after first_day) first_day) as [H1 H2].
- now vm_compute.
- split; [exact H1 | exact (H2 "alice" None 30)].
Defined.

(** X10. A call that adds a memory, a measurement, a habit or a
    session for one identity changes no answer for another: its
    searches, its history, its streaks, its profile, its status and
    its progress are as before. *)
Theorem writes_leave_other_identities (rt : Runtime) (o : SetOrder)
    (round1 : float -> float) (st st' : State) (c : Call) (uid other : string) :
  writes_to c = Some uid -> uid <> other -> run_call rt st c = Some st' ->
  (forall app q cat l,
     search_memory o st' app other q cat l = search_memory o st app other q cat l) /\
  (forall cat d,
     get_footprint_history rt st' other cat d = get_footprint_history rt st other cat d) /\
  (forall h, get_habit_streak round1 st' other h = get_habit_streak round1 st other h) /\
  get_user_profile st' other = get_user_profile st other /\
  (forall loop_running,
     get_user_status rt loop_running st' other = get_user_status rt loop_running st other) /\
  (forall plan,
     get_plan_progress o round1 st' other plan = get_plan_progress o round1 st other plan).
Proof.
intros Hw Hne Hrun.
destruct (writes_to_other rt st st' c uid other Hw Hne Hrun) as (Hm & Hr & Hp).
now apply queries_read_the_identity.
Qed.

Lemma writes_leave_other_identities_witness :
  get_footprint_history clockwork
    (fst (record_footprint clockwork (after first_day) "bob" "food" "Lunch" 2.5%float None))
    "alice" None 30
  = get_footprint_history clockwork (after first_day) "alice" None 30.
Proof.
destruct (writes_leave_other_identities clockwork list_order (fun x => x) (after first_day)
            (fst (record_footprint clockwork (after first_day) "bob" "food" "Lunch"
                    2.5%float None))
            (RecordFootprint "bob" "food" "Lunch" 2.5%float None) "bob" "alice")
  as (_ & H & _).
- reflexivity.
- discriminate.
- reflexivity.
- apply H.
Defined.

(** X11. In every state that calls lead to from the start of the
    service, each memory is filed under the identity it names and has
    an identifier that begins with "mem_", each measurement is filed
    under the identity it names, has an identifier that begins with
    "fp_" and is mirrored by a memory tagged "footprint" that carries
    it, and each identity's profile key has an object behind it. *)
Theorem reachable_store_is_consistent (rt : Runtime) (calls : list Call) (st : State) :
  run_calls rt init calls = Some st -> consistent st.
Proof. intros H. exact (consistent_run_calls rt calls init st H consistent_init). Qed.

Lemma reachable_store_is_consistent_witness : consistent (after first_day).
Proof. apply (reachable_store_is_consistent clockwork first_day). now vm_compute. Defined.

(** X12. [record_footprint] followed by [get_footprint_history]. The
    call returns the identifier of the record it built; the record is
    then the last that the identity's history looks at whenever the
    query's category admits it, so the count grows by one for a query
    without category (or with the empty one) and for the record's own
    category, and stays for any other; and the unfiltered listing ends
    with the record. The magnitude is taken as it comes. *)
Theorem recorded_footprint_shows_in_history (rt : Runtime) (st : State)
    (uid category act : string) (e : float) (det : option Dict) :
  let st' := fst (record_footprint rt st uid category act e det) in
  let r := new_record rt st uid category act e det in
  snd (record_footprint rt st uid category act e det)
  = [ ("status", VStr "success"); ("record_id", VStr (record_id r));
      ("emissions_kg_co2", VFloat e) ] /\
  (forall c days,
     filtered_records st' uid c
     = filtered_records st uid c ++ (if record_in_category c r then [r] else []) /\
     records_count (get_footprint_history rt st' uid c days)
     = records_count (get_footprint_history rt st uid c days)
       + (if record_in_category c r then 1 else 0)) /\
  (forall days, exists earlier,
     h_records (get_footprint_history rt st' uid None days) = earlier ++ [r]).
Proof.
intros st' r.
assert (Hf : forall c, filtered_records st' uid c
             = filtered_records st uid c ++ (if record_in_category c r then [r] else [])).
{ intros c. rewrite !filtered_records_filter. unfold st'.
  rewrite records_of_record_footprint, String.eqb_refl, List.filter_app. reflexivity. }
split; [reflexivity|]. split.
- intros c days. split; [apply Hf|].
  rewrite !get_footprint_history_of, Hf. cbn [records_count history_of].
  rewrite List.length_app. destruct (record_in_category c r); cbn [length]; lia.
- intros days. rewrite get_footprint_history_of, (Hf None). cbn [record_in_category h_records history_of].
  destruct (slice_last_ten_snoc (filtered_records st uid None) r) as [->|(y & rest & _ & ->)];
    eauto.
Qed.

(** X13. What a history lists. [records_count] counts every record
    the query looks at: those of the identity, in the category when a
    non-empty one is given. [records] holds the last ten of them in
    order, all of them when they are fewer; each belongs to the
    category asked for. *)
Theorem history_lists_last_ten (rt : Runtime) (st : State) (uid : string)
    (category : option string) (days : Z) :
  let records := filtered_records st uid category in
  let h := get_footprint_history rt st uid category days in
  records = List.filter (record_in_category category) (records_of st uid) /\
  records_count h = Z.of_nat (length records) /\
  h_records h = skipn (length records - 10) records /\
  Z.of_nat (length (h_records h)) = Z.min 10 (records_count h) /\
  (exists older, records = older ++ h_records h) /\
  (forall r, In r (h_records h) ->
     record_in_category category r = true /\ In r (records_of st uid)).
Proof.
intros records h. unfold h. rewrite get_footprint_history_of. fold records.
cbn [records_count h_records history_of]. rewrite slice_last_ten.
assert (Hr : records = List.filter (record_in_category category) (records_of st uid))
  by apply filtered_records_filter.
split; [exact Hr|]. split; [reflexivity|]. split; [reflexivity|]. split; [|split].
- rewrite length_skipn. lia.
- exists (firstn (length records - 10) records). now rewrite firstn_skipn.
- intros r Hin.
  assert (Hin' : In r records).
  { rewrite <- (firstn_skipn (length records - 10) records). apply in_or_app. now right. }
  rewrite Hr in Hin'. apply filter_In in Hin'. tauto.
Qed.

(** X14. The keys of [by_category] are the categories of the records
    the query looks at, each once, in the order in which they first
    occur; with a non-empty category asked for and a record in it,
    that category is the only key. *)
Theorem by_category_keys (rt : Runtime) (st : State) (uid : string)
    (category : option string) (days : Z) :
  let records := filtered_records st uid category in
  let keys := map fst (by_category (get_footprint_history rt st uid category days)) in
  keys = first_occurrences (map fr_category records) /\
  List.NoDup keys /\
  (forall c, In c keys <-> exists r, In r records /\ fr_category r = c) /\
  (forall a c, category = Some (String a c) -> records <> [] -> keys = [String a c]).
Proof.
intros records keys.
assert (Hk : keys = first_occurrences (map fr_category records)).
{ unfold keys. rewrite get_footprint_history_of. fold records.
  cbn [by_category history_of]. rewrite map_map. cbn [fst].
  change (map (fun x : string * float => fst x)) with (@map (string * float) _ fst).
  now rewrite by_category_keys_from. }
destruct (first_occurrences_from (map fr_category records) [] (List.NoDup_nil _))
  as (Hnd & Hin & _). cbv zeta in Hnd, Hin. fold (first_occurrences (map fr_category records)) in Hnd, Hin.
rewrite <- Hk in Hnd, Hin.
assert (Hiff : forall c, In c keys <-> exists r, In r records /\ fr_category r = c).
{ intros c. rewrite Hin, in_map_iff. cbn [In]. split.
  - intros [[]|(r & <- & Hr)]. eauto.
  - intros (r & Hr & <-). right. eauto. }
split; [exact Hk|]. split; [exact Hnd|]. split; [exact Hiff|].
intros a c -> Hne.
assert (Hall : forall k, In k keys -> k = String a c).
{ intros k Hk'. apply Hiff in Hk' as (r & Hr & <-).
  unfold records in Hr. rewrite filtered_records_filter in Hr.
  apply filter_In in Hr as [_ Hc]. now apply String.eqb_eq in Hc. }
destruct records as [|r0 rest] eqn:E; [now contradict Hne|].
assert (H0 : In (fr_category r0) keys) by (apply Hiff; exists r0; split; [now left | reflexivity]).
destruct keys as [|k1 [|k2 more]]; [contradiction| |].
- now rewrite (Hall k1) by now left.
- pose proof (Hall k1 (or_introl eq_refl)) as E1.
  pose proof (Hall k2 (or_intror (or_introl eq_refl))) as E2.
  inversion Hnd as [|? ? Hnot _]. subst. contradict Hnot. now left.
Qed.

Lemma by_category_keys_witness :
  map fst (by_category (get_footprint_history clockwork (after first_day) "alice"
                          (Some "transport") 30))
  = ["transport"].
Proof.
pose proof (by_category_keys clockwork (after first_day) "alice" (Some "transport") 30) as H.
cbv zeta in H. destruct H as (_ & _ & _ & H).
apply (H "t"%char "ransport"); [reflexivity|].
intros E. vm_compute in E. discriminate E.
Defined.

(** X15. An identity of which the service holds nothing gets an empty
    answer to every query, never an error: no search result, a history
    without records whose trend is "needs_attention", a streak of
    zeros with rate 0 (nothing is divided), no profile, the status
    that asks for a profile, and a progress of zeros with ten actions
    to the next milestone. *)
Theorem unknown_identity_gets_empty_answers (rt : Runtime) (o : SetOrder)
    (round1 : float -> float) (st : State) (uid : string) :
  _memories st !! uid = None ->
  _footprint_history st !! uid = None ->
  _profiles st !! uid = None ->
  (forall app q cat l, search_memory o st app uid q cat l = []) /\
  (forall cat d,
     get_footprint_history rt st uid cat d
     = {| h_status := "success"; h_user_id := uid; records_count := 0;
          total_emissions_kg_co2 := 0%float; by_category := []; h_records := [];
          trend := "needs_attention" |}) /\
  (forall h,
     get_habit_streak round1 st uid h
     = {| streak_status := "success"; streak_habit := h; total_tracked := 0;
          streak_completed := 0; completion_rate := 0%float;
          streak_message := "Keep going! 0 completions recorded." |}) /\
  get_profile st uid = None /\
  get_user_profile st uid
  = Returned (ProfileNotFound ("No profile found for " +:+ uid
                               +:+ ". Please complete onboarding first.")) /\
  (forall loop_running,
     get_user_status rt loop_running st uid
     = {| us_user_id := uid; has_profile := false; us_profile_summary := None;
          has_footprint_history := false; footprint_records := 0;
          recommended_next_step := "Complete your profile first" |}) /\
  (forall plan,
     get_plan_progress o round1 st uid plan
     = {| pp_user_id := uid; habits_tracked := 0; habits_completed := 0;
          pp_completion_rate := 0%float; estimated_co2_saved_kg := 0;
          pp_message := "You've completed 0 sustainable actions! Keep it up!";
          next_milestone := "Complete 10 more actions to reach your next milestone!" |}).
Proof.
intros Hm Hr Hp.
assert (Hs : forall app q cat l, search_memory o st app uid q cat l = []).
{ intros app q cat l. unfold search_memory. now rewrite Hm. }
assert (Hg : get_profile st uid = None) by (unfold get_profile; now rewrite Hp).
split; [exact Hs|]. split; [|split; [|split; [exact Hg|split; [|split]]]].
- intros cat d. rewrite get_footprint_history_of, filtered_records_filter.
  unfold records_of. now rewrite Hr.
- intros h. unfold get_habit_streak, habit_memories. now rewrite Hm.
- unfold get_user_profile. now rewrite Hg.
- intros loop_running. unfold get_user_status. now rewrite Hg.
- intros plan. unfold get_plan_progress. now rewrite Hs.
Qed.

Lemma unknown_identity_gets_empty_answers_witness :
  get_plan_progress list_order (fun x => x) (after first_day) "bob" None
  = {| pp_user_id := "bob"; habits_tracked := 0; habits_completed := 0;
       pp_completion_rate := 0%float; estimated_co2_saved_kg := 0;
       pp_message := "You've completed 0 sustainable actions! Keep it up!";
       next_milestone := "Complete 10 more actions to reach your next milestone!" |}.
Proof.
destruct (unknown_identity_gets_empty_answers clockwork list_order (fun x => x)
            (after first_day) "bob") as (_ & _ & _ & _ & _ & _ & H).
- now vm_compute.
- now vm_compute.
- now vm_compute.
- apply H.
Defined.

(** X16. A profile that was saved is read back. [save_profile] on an
    object with its fields and methods leaves under the object's
    identity that same object, with [updated_at] set to the clock's
    reading and every other attribute as it was; [get_user_profile]
    then returns its declared fields, in order; and an identity whose
    profile is another object reads what it read before. *)
Theorem saved_profile_is_read_back (rt : Runtime) (st : State) (ref : nat)
    (p : UserProfile) (uid : string) :
  heap st !! ref = Some p ->
  intact p = true ->
  dict_get p "user_id" = Some (VStr uid) ->
  let q := setattr p "updated_at" (VStr (now_isoformat rt (clock st))) in
  exists st' d,
    save_profile rt st ref = Some (st', Returned (profile_saved uid)) /\
    get_profile st' uid = Some q /\
    getattr q "updated_at" = Some (VStr (now_isoformat rt (clock st))) /\
    (forall name, name <> "updated_at" -> getattr q name = getattr p name) /\
    get_user_profile st' uid = Returned (ProfileFound d) /\
    map fst d = profile_fields /\
    (forall f, In f profile_fields -> dict_get d f = getattr q f) /\
    (forall other r, other <> uid -> _profiles st !! other = Some r -> r <> ref ->
                     get_profile st' other = get_profile st other).
Proof.
intros Hheap Hint Huid q.
destruct (save_profile_on_intact rt st ref p uid Hheap Hint Huid)
  as (st' & d & entry & Hsave & Hd & Hh & Hp & _).
fold q in Hd, Hh.
assert (Hget : get_profile st' uid = Some q).
{ unfold get_profile. now rewrite Hp, lookup_insert_eq, Hh, lookup_insert_eq. }
destruct (asdict_fields_keys q profile_fields d Hd) as [Hk Hv].
exists st', d. split; [exact Hsave|]. split; [exact Hget|]. split; [|split; [|split]].
- unfold q, getattr, setattr. now rewrite dict_get_set.
- intros name Hne. unfold q. apply getattr_setattr_ne. apply String.eqb_neq. congruence.
- unfold get_user_profile. rewrite Hget.
  unfold intact in Hint. apply andb_true_iff in Hint as [_ Hm]. apply negb_true_iff in Hm.
  assert (Hq : dict_has q "to_dict" = false) by (unfold q, setattr; now rewrite dict_has_set).
  now rewrite Hq, Hd.
- split; [exact Hk|]. split; [exact Hv|].
  intros other r Hne Hr Hrr. unfold get_profile.
  rewrite Hp, lookup_insert_ne by congruence. rewrite Hr, Hh.
  now rewrite lookup_insert_ne by congruence.
Qed.

Lemma saved_profile_is_read_back_witness :
  option_map (fun r => option_map (fun q => getattr q "city") (get_profile (fst r) "alice"))
    (save_profile clockwork (with_object alice) 0)
  = Some (Some (Some (VStr "Oslo"))).
Proof.
destruct (saved_profile_is_read_back clockwork (with_object alice) 0 alice "alice")
  as (st' & d & Hsave & Hget & _ & H & _).
- reflexivity.
- reflexivity.
- reflexivity.
- rewrite Hsave. cbn [option_map fst]. rewrite Hget. cbn [option_map].
  now rewrite H.
Defined.

(** X17. Patching [user_id] files the object under the new identity
    and leaves it under the old one: both keys then give the same
    object, whose [user_id] is the new identity, and the memory that
    describes the profile goes to the new identity. *)
Theorem renamed_profile_is_shared (rt : Runtime) (st : State) (uid new : string)
    (ref : nat) (p : UserProfile) :
  _profiles st !! uid = Some ref ->
  heap st !! ref = Some p ->
  plain p ->
  exists st' q entry,
    update_profile rt st uid [("user_id", VStr new)]
    = Some (st', Returned (profile_saved new)) /\
    _profiles st' !! uid = Some ref /\
    _profiles st' !! new = Some ref /\
    get_profile st' uid = Some q /\
    get_profile st' new = Some q /\
    getattr q "user_id" = Some (VStr new) /\
    memories_of st' new = memories_of st new ++ [entry] /\
    me_category entry = "profile".
Proof.
intros Hprof Hheap Hp.
assert (Hown : dict_get (write_all p (recognized [("user_id", VStr new)])) "user_id"
               = Some (VStr new)).
{ cbn. unfold setattr. now rewrite dict_get_set. }
destruct (update_profile_on_plain rt st uid ref p [("user_id", VStr new)] new
            Hprof Hheap Hp eq_refl eq_refl Hown)
  as (st' & d & entry & Hup & _ & _ & Hh & _ & Hpr & Hmem & Hc & _).
assert (H1 : _profiles st' !! uid = Some ref).
{ rewrite Hpr. destruct (decide (new = uid)) as [->|Hne].
  - apply lookup_insert_eq.
  - now rewrite lookup_insert_ne. }
assert (H2 : _profiles st' !! new = Some ref) by (rewrite Hpr; apply lookup_insert_eq).
eexists st', _, entry. split; [exact Hup|]. split; [exact H1|]. split; [exact H2|].
split; [unfold get_profile; rewrite H1; exact Hh|].
split; [unfold get_profile; rewrite H2; exact Hh|]. split.
- rewrite getattr_setattr_ne by reflexivity. cbn. unfold getattr, setattr.
  now rewrite dict_get_set, String.eqb_refl.
- split; [|exact Hc]. now rewrite Hmem, String.eqb_refl.
Qed.

Lemma renamed_profile_is_shared_witness :
  option_map (fun r => (_profiles (fst r) !! "alice", _profiles (fst r) !! "alicia"))
    (update_profile clockwork alice_saved "alice" [("user_id", VStr "alicia")])
  = Some (Some 0%nat, Some 0%nat).
Proof.
destruct (renamed_profile_is_shared clockwork alice_saved "alice" "alicia" 0
            (setattr alice "updated_at" (VStr "2025-01-01T00:00:0")))
  as (st' & q & entry & Hup & H1 & H2 & _).
- now vm_compute.
- now vm_compute.
- reflexivity.
- rewrite Hup. cbn [option_map fst]. now rewrite H1, H2.
Defined.

(** X18. [update_user_preference] on a stored object as the
    constructor builds it, for a key that is neither [user_id] nor
    [updated_at], no method and without leading underscore. It always
    reports success. When the key is a declared field the attribute
    becomes the given text, a string whatever the field; otherwise no
    attribute of that name appears. Every other attribute is as
    before, except [updated_at], which is the second clock reading. *)
Theorem preference_is_stored_as_text (rt : Runtime) (st : State) (uid : string)
    (ref : nat) (p : UserProfile) (key value : string) :
  _profiles st !! uid = Some ref ->
  heap st !! ref = Some p ->
  plain p ->
  dict_get p "user_id" = Some (VStr uid) ->
  starts_with_underscore key = false ->
  in_list key profile_methods = false ->
  key <> "user_id" -> key <> "updated_at" ->
  exists st' q,
    update_user_preference rt st uid key value = Some (st', Returned (profile_saved uid)) /\
    get_profile st' uid = Some q /\
    getattr q key = (if in_list key profile_fields then Some (VStr value) else None) /\
    (forall name, name <> key -> name <> "updated_at" -> getattr q name = getattr p name) /\
    getattr q "updated_at" = Some (VStr (now_isoformat rt (S (clock st)))).
Proof.
intros Hprof Hheap Hp Huid Hus Hmeth Hk1 Hk2.
set (updates := [(key, VStr value)]).
assert (Hw : write_all p (recognized updates)
             = if in_list key profile_fields then setattr p key (VStr value) else p).
{ unfold updates, recognized. cbn [List.filter fst]. now destruct (in_list key profile_fields). }
assert (Hown : dict_get (write_all p (recognized updates)) "user_id" = Some (VStr uid)).
{ rewrite Hw. destruct (in_list key profile_fields); [|exact Huid].
  unfold setattr. rewrite dict_get_set.
  destruct (String.eqb_spec key "user_id"); [contradiction | exact Huid]. }
assert (Hu : forallb (fun kv => negb (starts_with_underscore (fst kv))) updates = true).
{ unfold updates. cbn [forallb fst]. now rewrite Hus. }
assert (Hm : forallb (fun kv => negb (in_list (fst kv) profile_methods)) updates = true).
{ unfold updates. cbn [forallb fst]. now rewrite Hmeth. }
destruct (update_profile_on_plain rt st uid ref p updates uid Hprof Hheap Hp Hu Hm Hown)
  as (st' & d & entry & Hup & _ & _ & Hh & _ & Hpr & _).
rewrite Hw in Hh.
eexists st', _. split; [exact Hup|]. split.
- unfold get_profile. rewrite Hpr, lookup_insert_eq. exact Hh.
- assert (Hne : String.eqb "updated_at" key = false) by (apply String.eqb_neq; congruence).
  split; [|split].
  + rewrite getattr_setattr_ne by exact Hne.
    destruct (in_list key profile_fields) eqn:E.
    * unfold getattr, setattr. now rewrite dict_get_set, String.eqb_refl.
    * assert (Hd : dict_has p key = false) by (rewrite dict_has_keys, Hp; exact E).
      unfold getattr. unfold dict_has in Hd.
      destruct (dict_get p key); [discriminate|].
      destruct (dict_get class_defaults key) eqn:Ec; [|reflexivity].
      assert (Hc : dict_has class_defaults key = true) by (unfold dict_has; now rewrite Ec).
      apply class_defaults_are_fields in Hc. congruence.
  + intros name Hn1 Hn2.
    rewrite getattr_setattr_ne by (apply String.eqb_neq; congruence).
    destruct (in_list key profile_fields); [|reflexivity].
    apply getattr_setattr_ne. apply String.eqb_neq. congruence.
  + unfold getattr at 1. unfold setattr at 1. now rewrite dict_get_set.
Qed.

Lemma preference_is_stored_as_text_witness :
  option_map (fun r => option_map (fun q => getattr q "meat_meals_per_week")
                         (get_profile (fst r) "alice"))
    (update_user_preference clockwork alice_saved "alice" "meat_meals_per_week" "3")
  = Some (Some (Some (VStr "3"))).
Proof.
destruct (preference_is_stored_as_text clockwork alice_saved "alice" 0
            (setattr alice "updated_at" (VStr "2025-01-01T00:00:0"))
            "meat_meals_per_week" "3")
  as (st' & q & Hup & Hget & H & _).
- now vm_compute.
- now vm_compute.
- reflexivity.
- reflexivity.
- reflexivity.
- reflexivity.
- discriminate.
- discriminate.
- rewrite Hup. cbn [option_map fst]. rewrite Hget. cbn [option_map]. now rewrite H.
Defined.

End ServiceTheorems.


(** ** Round trips: dictionaries, habits, searches *)

Module RoundTripFacts.
Import PyStr PyStrFacts MemoryService ServiceRest AgentTools.
Import StoreNotions ServiceNotions RetrievalNotions.
Import MemoryServiceFacts PatchFacts RetrievalFacts ServiceFacts.

(** *** Dictionaries with distinct keys *)

Lemma dict_get_none (d : Dict) (k : string) : ~ In k (map fst d) -> dict_get d k = None.
Proof.
induction d as [|[k0 v] d IH]; [reflexivity|]. cbn [map fst In dict_get]. intros H.
destruct (String.eqb_spec k0 k) as [->|Hne]; [tauto|]. apply IH. tauto.
Qed.

Lemma dict_get_in (d : Dict) (k : string) (v : PyVal) :
  List.NoDup (map fst d) -> In (k, v) d -> dict_get d k = Some v.
Proof.
induction d as [|[k0 v0] d IH]; [intros _ []|]. cbn [map fst dict_get].
intros Hnd [[= -> ->]|Hin]; [now rewrite String.eqb_refl|].
inversion Hnd as [|? ? Hnot Hnd']. subst.
destruct (String.eqb_spec k0 k) as [->|Hne]; [|now apply IH].
contradict Hnot. change k with (fst (k, v)). now apply in_map.
Qed.

(** Two dictionaries with the same keys in the same order, distinct,
    and the same values under them are equal. *)
Lemma dict_ext (a b : Dict) :
  map fst a = map fst b ->
  List.NoDup (map fst a) ->
  (forall k, dict_get a k = dict_get b k) ->
  a = b.
Proof.
revert b. induction a as [|[k v] a IH]; intros [|[k' v'] b]; try discriminate; [reflexivity|].
cbn [map fst]. intros [= <- Hk] Hnd Hg. inversion Hnd as [|? ? Hnot Hnd']. subst.
assert (Hv : v = v').
{ specialize (Hg k). cbn [dict_get] in Hg. rewrite String.eqb_refl in Hg. congruence. }
subst v'. f_equal. apply IH; [exact Hk | exact Hnd'|].
intros k0. specialize (Hg k0). cbn [dict_get] in Hg.
destruct (String.eqb_spec k k0) as [E|Hne]; [|exact Hg].
rewrite <- E. rewrite !dict_get_none; [reflexivity | now rewrite <- Hk | exact Hnot].
Qed.

(** Writing the entries of [l] one after the other. *)
Lemma dict_get_write (l : Dict) :
  List.NoDup (map fst l) ->
  forall (d : Dict) (k : string),
    dict_get (fold_left (fun acc kv => dict_set acc (fst kv) (snd kv)) l d) k
    = match dict_get l k with Some v => Some v | None => dict_get d k end.
Proof.
induction l as [|[k0 v0] l IH]; intros Hnd d k; [reflexivity|].
cbn [map fst] in Hnd. inversion Hnd as [|? ? Hnot Hnd']. subst.
cbn [fold_left fst snd dict_get]. rewrite (IH Hnd'), dict_get_set.
destruct (String.eqb_spec k0 k) as [<-|Hne]; [|reflexivity].
now rewrite (dict_get_none l k0 Hnot).
Qed.

Lemma dict_keys_write (l : Dict) :
  forall d : Dict,
    (forall kv, In kv l -> In (fst kv) (map fst d)) ->
    map fst (fold_left (fun acc kv => dict_set acc (fst kv) (snd kv)) l d) = map fst d.
Proof.
induction l as [|[k0 v0] l IH]; intros d H; [reflexivity|].
cbn [fold_left fst snd].
assert (Hk : map fst (dict_set d k0 v0) = map fst d).
{ apply dict_set_keys. rewrite dict_has_keys. apply in_list_In.
  apply (H (k0, v0)). now left. }
rewrite IH; [exact Hk|]. intros kv Hkv. rewrite Hk. apply H. now right.
Qed.

Lemma profile_fields_NoDup : List.NoDup profile_fields.
Proof.
assert (E : nodup string_dec profile_fields = profile_fields) by reflexivity.
rewrite <- E. apply NoDup_nodup.
Qed.

Lemma recognized_all (p : Dict) :
  (forall kv, In kv p -> in_list (fst kv) profile_fields = true) -> recognized p = p.
Proof.
unfold recognized. induction p as [|kv p IH]; intros H; [reflexivity|].
cbn [List.filter]. rewrite (H kv) by now left. f_equal. apply IH. intros x Hx. apply H. now right.
Qed.

Lemma plain_keys_are_fields (p : UserProfile) (kv : string * PyVal) :
  plain p -> In kv p -> in_list (fst kv) profile_fields = true.
Proof.
intros Hp Hin. apply in_list_In. rewrite <- Hp. now apply in_map.
Qed.

(** [to_dict] of a plain object is its own dictionary. *)
Lemma asdict_plain (p : UserProfile) : plain p -> asdict p = Some p.
Proof.
intros Hp. unfold asdict. rewrite <- Hp.
assert (Hnd : List.NoDup (map fst p)) by (rewrite Hp; apply profile_fields_NoDup).
assert (H : forall suf, (forall kv, In kv suf -> getattr p (fst kv) = Some (snd kv)) ->
              asdict_fields p (map fst suf) = Some suf).
{ induction suf as [|[k v] suf IH]; intros Hs; [reflexivity|].
  cbn [map fst asdict_fields].
  pose proof (Hs (k, v) (or_introl eq_refl)) as Hkv. cbn [fst snd] in Hkv. rewrite Hkv.
  rewrite IH by (intros kv Hin; apply Hs; now right). reflexivity. }
apply H. intros [k v] Hin. unfold getattr. cbn [fst snd].
now rewrite (dict_get_in p k v Hnd Hin).
Qed.

(** *** Scores *)

Lemma overlap_positive_lower (query w : string) (mem : MemoryEntry) :
  In w (split (lower query)) -> contains w (lower (me_content mem)) = true ->
  1 <= overlap query mem.
Proof.
intros Hw Hc. unfold overlap, word_set.
assert (Hin : In w (List.filter (fun w => contains w (lower (me_content mem)))
                                (nodup string_dec (split (lower query))))).
{ apply filter_In. split; [now apply nodup_In | exact Hc]. }
destruct (List.filter _ _) as [|x l]; [contradiction | simpl; lia].
Qed.

Lemma overlap_nonneg (query : string) (mem : MemoryEntry) : 0 <= overlap query mem.
Proof. unfold overlap. lia. Qed.

Lemma candidates_app (query : string) (category : option string) (l1 l2 : list MemoryEntry) :
  candidates query category (l1 ++ l2)
  = candidates query category l1 ++ candidates query category l2.
Proof. unfold candidates. now rewrite List.filter_app, map_app. Qed.

Lemma candidates_one (query : string) (category : option string) (m : MemoryEntry) :
  candidates query category [m]
  = if (in_category category m && (0 <? overlap query m))%bool
    then [(overlap query m, m)] else [].
Proof.
unfold candidates. cbn [List.filter].
now destruct (in_category category m && (0 <? overlap query m))%bool.
Qed.

Lemma candidates_length (query : string) (category : option string) (l : list MemoryEntry) :
  (length (candidates query category l) <= length l)%nat.
Proof. unfold candidates. rewrite length_map. apply List.filter_length_le. Qed.

Lemma candidates_wordless (query : string) (category : option string) (l : list MemoryEntry) :
  split query = [] -> candidates query category l = [].
Proof.
intros H. unfold candidates.
rewrite filter_none; [reflexivity|]. intros m _.
unfold overlap, word_set. rewrite split_lower, H. cbn. apply andb_false_r.
Qed.

Lemma sort_desc_length (l : list (Z * MemoryEntry)) : length (sort_desc l) = length l.
Proof. apply Permutation_length, sort_desc_perm. Qed.

Lemma search_memory_of (o : SetOrder) (st : State) (app uid query : string)
    (category : option string) (limit : Z) :
  search_memory o st app uid query category limit
  = map hit_of (list_slice_to limit
                  (sort_desc (candidates query category (memories_of st uid)))).
Proof. apply search_memory_unfold. Qed.

Lemma slice_to_length {A} (limit : Z) (l : list A) :
  Z.of_nat (length (list_slice_to limit l))
  = if 0 <=? limit then Z.min limit (Z.of_nat (length l))
    else Z.max 0 (Z.of_nat (length l) + limit).
Proof.
unfold list_slice_to. destruct (0 <=? limit) eqn:E; rewrite length_firstn.
- apply Z.leb_le in E. lia.
- apply Z.leb_gt in E. lia.
Qed.

Lemma slice_to_all {A} (limit : Z) (l : list A) :
  Z.of_nat (length l) <= limit -> list_slice_to limit l = l.
Proof.
intros H. unfold list_slice_to.
destruct (0 <=? limit) eqn:E; [|apply Z.leb_gt in E; lia].
apply firstn_all2. lia.
Qed.

(** *** Habits *)

Lemma habit_memories_after_record (rt : Runtime) (st : State) (uid habit : string)
    (completed : bool) (query : string) :
  let text := "Habit " +:+ (if completed then "completed" else "missed") +:+ ": " +:+ habit in
  habit_memories (fst (record_habit rt st uid habit completed)) uid query
  = habit_memories st uid query
    ++ (if contains (lower query) (lower text)
        then [new_entry rt st uid "climateguard" text "habit"
                (Some (MetaDict [("habit", VStr habit); ("completed", VBool completed)]))]
        else []).
Proof.
intros text. unfold habit_memories.
change (default [] (_memories (fst (record_habit rt st uid habit completed)) !! uid))
  with (memories_of (fst (record_habit rt st uid habit completed)) uid).
change (default [] (_memories st !! uid)) with (memories_of st uid).
rewrite record_habit_state, memories_of_add_memory, String.eqb_refl.
rewrite List.filter_app. cbn [List.filter me_category me_content new_entry].
reflexivity.
Qed.

Lemma habit_text_names_habit (habit query : string) (completed : bool) :
  contains (lower query) (lower habit) = true ->
  contains (lower query)
    (lower ("Habit " +:+ (if completed then "completed" else "missed") +:+ ": " +:+ habit))
  = true.
Proof. intros H. rewrite !lower_app. now do 3 apply contains_app_r. Qed.

End RoundTripFacts.

Module RoundTripTheorems.
Import PyStr TextNotions PyStrFacts MemoryService ServiceRest AgentTools.
Import StoreNotions ServiceNotions RetrievalNotions.
Import MemoryServiceFacts PatchFacts RetrievalFacts ServiceFacts RoundTripFacts.
Import SetOrders Stores Scenarios.

(** X19. [from_dict] undoes [to_dict]. On a profile object as the
    constructor builds it, [to_dict] gives the object's own
    dictionary, and [from_dict] of that dictionary rebuilds the
    object, whatever the clock reads at that time and whatever
    entries under other keys were added to the dictionary. *)
Theorem from_dict_inverts_to_dict (created updated : string) (p : UserProfile)
    (extra : Dict) :
  plain p ->
  (forall kv, In kv extra -> in_list (fst kv) profile_fields = false) ->
  asdict p = Some p /\
  from_dict created updated (p ++ extra) = Some p.
Proof.
intros Hp Hex. split; [now apply asdict_plain|].
assert (Hnd : List.NoDup (map fst p)) by (rewrite Hp; apply profile_fields_NoDup).
unfold from_dict. change (List.filter _ (p ++ extra)) with (recognized (p ++ extra)).
assert (Hrec : recognized (p ++ extra) = p).
{ unfold recognized. rewrite List.filter_app.
  change (List.filter _ p) with (recognized p).
  rewrite (recognized_all p) by (intros kv Hkv; now apply (plain_keys_are_fields p)).
  rewrite (filter_none _ extra Hex). apply app_nil_r. }
rewrite Hrec.
destruct p as [|[k uid] rest] eqn:E; [discriminate Hp|]. rewrite <- E in *.
assert (Hk : k = "user_id") by (rewrite E in Hp; now injection Hp).
assert (Hget : dict_get p "user_id" = Some uid).
{ rewrite E, Hk. cbn [dict_get]. now rewrite String.eqb_refl. }
rewrite Hget. unfold new_profile.
assert (Hall : forallb (fun kv => in_list (fst kv) profile_fields) p = true).
{ apply forallb_forall. intros kv Hkv. now apply (plain_keys_are_fields p). }
rewrite Hall. f_equal.
set (defaults := [("user_id", uid); ("created_at", VStr created);
                  ("updated_at", VStr updated)] ++ class_defaults
                 ++ [("priority_areas", VStrList [])]).
assert (Hd : map fst defaults = profile_fields) by reflexivity.
assert (Hkeys : map fst (fold_left (fun d kv => dict_set d (fst kv) (snd kv)) p defaults)
                = map fst p).
{ rewrite dict_keys_write; [now rewrite Hd, Hp|].
  intros kv Hkv. rewrite Hd, <- Hp. now apply in_map. }
apply dict_ext; [exact Hkeys | now rewrite Hkeys|].
intros key. rewrite (dict_get_write p Hnd).
destruct (dict_get p key) eqn:Eg; [reflexivity|].
assert (Hno : dict_has defaults key = false).
{ rewrite dict_has_keys, Hd, <- Hp, <- dict_has_keys. unfold dict_has. now rewrite Eg. }
unfold dict_has in Hno. now destruct (dict_get defaults key).
Qed.

Lemma from_dict_inverts_to_dict_witness :
  from_dict "2030-01-01T00:00:00" "2030-01-01T00:00:00" (alice ++ [("color", VStr "red")])
  = Some alice.
Proof.
apply (from_dict_inverts_to_dict "2030-01-01T00:00:00" "2030-01-01T00:00:00" alice
         [("color", VStr "red")]).
- reflexivity.
- intros kv [<-|[]]. reflexivity.
Defined.

(** X20. [record_habit] followed by [get_habit_streak]. The memory
    that [record_habit] adds reads "Habit completed: <habit>" or
    "Habit missed: <habit>". A streak query counts it when the query,
    in lower case, occurs in that text in lower case, which is so
    whenever it occurs in the habit's name; [total_tracked] then grows
    by one and [completed] by one when the habit was completed. *)
Theorem recorded_habit_counts_in_streak (rt : Runtime) (round1 : float -> float)
    (st : State) (uid habit : string) (completed : bool) (query : string) :
  let st' := fst (record_habit rt st uid habit completed) in
  let text := "Habit " +:+ (if completed then "completed" else "missed") +:+ ": " +:+ habit in
  let counted := contains (lower query) (lower text) in
  let before := get_habit_streak round1 st uid query in
  let after := get_habit_streak round1 st' uid query in
  total_tracked after = total_tracked before + (if counted then 1 else 0) /\
  streak_completed after
  = streak_completed before + (if (counted && completed)%bool then 1 else 0) /\
  (contains (lower query) (lower habit) = true -> counted = true).
Proof.
intros st' text counted before after.
assert (Hm : habit_memories st' uid query
             = habit_memories st uid query
               ++ (if counted
                   then [new_entry rt st uid "climateguard" text "habit"
                           (Some (MetaDict [("habit", VStr habit);
                                            ("completed", VBool completed)]))]
                   else []))
  by apply habit_memories_after_record.
unfold after, before, get_habit_streak. cbn [total_tracked streak_completed].
rewrite Hm, List.filter_app, !List.length_app. split; [|split].
- destruct counted; cbn [length]; lia.
- destruct counted; cbn [List.filter length andb]; [|lia].
  cbn [metadata new_entry meta_completed dict_get String.eqb]. cbn.
  destruct completed; cbn [length]; lia.
- intros H. now apply habit_text_names_habit.
Qed.

Lemma recorded_habit_counts_in_streak_witness :
  total_tracked (get_habit_streak (fun x => x)
                   (fst (record_habit clockwork (after first_day) "alice" "Bike to work" true))
                   "alice" "bike")
  = total_tracked (get_habit_streak (fun x => x) (after first_day) "alice" "bike") + 1.
Proof.
pose proof (recorded_habit_counts_in_streak clockwork (fun x => x) (after first_day)
              "alice" "Bike to work" true "bike") as H.
cbv zeta in H. destruct H as (Ht & _ & Hc).
rewrite Ht, Hc by reflexivity. reflexivity.
Defined.

(** X21. The progress of [get_plan_progress] is read from a search
    for "habit completed" among the memories tagged "habit", cut at
    five results. So [habits_tracked] is the number of those memories
    that contain "habit" or "completed", but never more than 5;
    [habits_completed] lies between 0 and [habits_tracked]; the saving
    is 5 kg for each and at most 25 kg; the plan identifier and the
    iteration order of the query's words make no difference; and a
    habit recorded with [record_habit] always counts as tracked, up to
    the cut. *)
Theorem plan_progress_is_capped (rt : Runtime) (o : SetOrder) (round1 : float -> float)
    (st : State) (uid : string) (plan : option string) :
  let tagged := candidates "habit completed" (Some "habit") (memories_of st uid) in
  let pp := get_plan_progress o round1 st uid plan in
  habits_tracked pp = Z.min 5 (Z.of_nat (length tagged)) /\
  0 <= habits_completed pp <= habits_tracked pp /\
  estimated_co2_saved_kg pp = 5 * habits_completed pp /\
  estimated_co2_saved_kg pp <= 25 /\
  (forall o' plan', get_plan_progress o' round1 st uid plan' = pp) /\
  (forall habit completed,
     habits_tracked (get_plan_progress o round1
                       (fst (record_habit rt st uid habit completed)) uid plan)
     = Z.min 5 (Z.of_nat (length tagged) + 1)).
Proof.
intros tagged pp.
assert (Ht : forall s,
          habits_tracked (get_plan_progress o round1 s uid plan)
          = Z.min 5 (Z.of_nat (length (candidates "habit completed" (Some "habit")
                                          (memories_of s uid))))).
{ intros s. unfold get_plan_progress. cbn [habits_tracked].
  rewrite search_memory_of, length_map, slice_to_length, sort_desc_length. reflexivity. }
assert (H1 : habits_tracked pp = Z.min 5 (Z.of_nat (length tagged))).
{ unfold pp, tagged. apply Ht. }
assert (H2 : 0 <= habits_completed pp <= habits_tracked pp).
{ unfold pp, get_plan_progress. cbn [habits_completed habits_tracked].
  split; [lia|]. apply inj_le, List.filter_length_le. }
split; [exact H1|]. split; [exact H2|]. split; [|split; [|split]].
- unfold pp, get_plan_progress. cbn [estimated_co2_saved_kg habits_completed]. lia.
- assert (E : estimated_co2_saved_kg pp = 5 * habits_completed pp).
  { unfold pp, get_plan_progress. cbn [estimated_co2_saved_kg habits_completed]. lia. }
  lia.
- intros o' plan'. unfold pp, get_plan_progress. now rewrite !search_memory_of.
- intros habit completed. rewrite Ht. f_equal.
  rewrite record_habit_state, memories_of_add_memory, String.eqb_refl, candidates_app.
  fold tagged. rewrite List.length_app, candidates_one.
  set (e := new_entry rt st uid "climateguard" _ "habit" _).
  assert (Hs : 1 <= overlap "habit completed" e).
  { apply (overlap_positive_lower "habit completed" "habit" e); [now left|].
    unfold e. cbn [me_content new_entry]. rewrite lower_app.
    now apply contains_app_l. }
  assert (Hc : in_category (Some "habit") e = true) by reflexivity.
  rewrite Hc. cbn [andb].
  destruct (0 <? overlap "habit completed" e) eqn:E; [cbn [length]; lia|].
  apply Z.ltb_ge in E. lia.
Qed.

(** X22. The status of [get_user_status] counts measurements only
    behind a profile, and only when the tool is called while an event
    loop is running. Without a profile it reports no history and no
    records and asks for the profile, in either calling context, and
    recording a measurement changes nothing of that, although the
    history then holds a record. With a profile and a running loop it
    reports the number of the identity's records and asks for a
    footprint when there is none, for a plan otherwise. With a profile
    and no running loop the history is never read: it reports no
    records and asks for a footprint, whatever was recorded. *)
Theorem status_counts_history_behind_profile (rt : Runtime) (st : State) (uid : string) :
  let n := Z.of_nat (length (records_of st uid)) in
  (get_profile st uid = None ->
     forall loop_running,
       let s := get_user_status rt loop_running st uid in
       has_profile s = false /\ has_footprint_history s = false /\
       footprint_records s = 0 /\
       recommended_next_step s = "Complete your profile first" /\
       forall category act e det,
         let st' := fst (record_footprint rt st uid category act e det) in
         get_user_status rt loop_running st' uid = s /\
         0 < records_count (get_footprint_history rt st' uid None 30)) /\
  (forall p, get_profile st uid = Some p ->
     let s := get_user_status rt true st uid in
     has_profile s = true /\ footprint_records s = n /\
     has_footprint_history s = (0 <? n) /\
     recommended_next_step s
     = if 0 <? n then "Create a weekly plan" else "Calculate your footprint") /\
  (forall p, get_profile st uid = Some p ->
     let s := get_user_status rt false st uid in
     has_profile s = true /\ footprint_records s = 0 /\
     has_footprint_history s = false /\
     recommended_next_step s = "Calculate your footprint").
Proof.
intros n. split; [|split].
- intros Hp loop_running s.
  assert (Hs : s = {| us_user_id := uid; has_profile := false; us_profile_summary := None;
                      has_footprint_history := false; footprint_records := 0;
                      recommended_next_step := "Complete your profile first" |}).
  { unfold s, get_user_status. now rewrite Hp. }
  rewrite Hs. do 4 (split; [reflexivity|]).
  intros category act e det st'. split.
  + unfold get_user_status, st'. rewrite get_profile_record_footprint, Hp. reflexivity.
  + unfold st'.
    rewrite get_footprint_history_of, filtered_records_filter, records_of_record_footprint,
      String.eqb_refl. cbn [records_count history_of record_in_category].
    rewrite filter_true, List.length_app. cbn [length]. lia.
- intros p Hp s. unfold s, get_user_status. rewrite Hp.
  rewrite get_footprint_history_of, filtered_records_filter.
  cbn [record_in_category]. rewrite filter_true.
  cbn [has_profile footprint_records has_footprint_history recommended_next_step
       records_count history_of]. fold n.
  repeat split. cbn [andb]. now destruct (0 <? n).
- intros p Hp s. unfold s, get_user_status. rewrite Hp. now repeat split.
Qed.

Lemma status_counts_history_behind_profile_witness :
  recommended_next_step (get_user_status clockwork true (after first_day) "bob")
  = "Complete your profile first" /\
  recommended_next_step (get_user_status clockwork true (after first_day) "alice")
  = "Create a weekly plan" /\
  recommended_next_step (get_user_status clockwork false (after first_day) "alice")
  = "Calculate your footprint".
Proof.
pose proof (status_counts_history_behind_profile clockwork (after first_day) "bob") as Hb.
pose proof (status_counts_history_behind_profile clockwork (after first_day) "alice") as Ha.
cbv zeta in Hb, Ha. destruct Hb as [Hb _]. destruct Ha as (_ & Ha & Hc).
split; [|split].
- apply Hb. now vm_compute.
- destruct (Ha (default [] (get_profile (after first_day) "alice"))) as (_ & _ & _ & H);
    [now vm_compute|].
  rewrite H. reflexivity.
- apply (Hc (default [] (get_profile (after first_day) "alice"))). now vm_compute.
Defined.

(** X23. The size of a search result. With [n] the number of the
    identity's memories that are in the category and contain a word of
    the query, [search_memory] returns [min(limit, n)] hits for a
    limit that is not negative, and for a negative limit all but the
    last [-limit] of the ranking, not an error and not nothing. The
    application name plays no part, nor does the order in which the
    query's words are visited, and a query without a word finds
    nothing. *)
Theorem search_result_size (o : SetOrder) (st : State) (app uid query : string)
    (category : option string) (limit : Z) :
  let n := Z.of_nat (length (candidates query category (memories_of st uid))) in
  let found := search_memory o st app uid query category limit in
  Z.of_nat (length found)
  = (if 0 <=? limit then Z.min limit n else Z.max 0 (n + limit)) /\
  n <= Z.of_nat (length (memories_of st uid)) /\
  (forall o' app', search_memory o' st app' uid query category limit = found) /\
  (split query = [] -> found = []).
Proof.
intros n found. unfold found. rewrite search_memory_of. repeat split.
- now rewrite length_map, slice_to_length, sort_desc_length.
- apply inj_le, candidates_length.
- intros o' app'. now rewrite search_memory_of.
- intros H. rewrite candidates_wordless by exact H. cbn.
  unfold list_slice_to. cbn. now destruct (0 <=? limit); rewrite firstn_nil.
Qed.

Lemma search_result_size_witness :
  search_memory list_order (after first_day) "climateguard" "alice" "  " None 5 = [].
Proof.
pose proof (search_result_size list_order (after first_day) "climateguard" "alice" "  "
              None 5) as H.
cbv zeta in H. destruct H as (_ & _ & _ & H). apply H. reflexivity.
Defined.

(** X24. What [add_memory] adds, [search_memory] finds. After a memory
    with an ASCII content is added for an identity, a search of that
    identity whose query is ASCII and has a word that occurs in the
    content, with no category or the memory's own, and with a limit
    above the number of memories held before, returns a hit with the
    identifier that [add_memory] returned, the content, and a score of
    at least 1. *)
Theorem added_memory_can_be_found (rt : Runtime) (o : SetOrder) (st : State)
    (uid app content category : string) (meta : option Metadata)
    (app' query w : string) (cat : option string) (limit : Z) :
  let st' := fst (add_memory rt st uid app content category meta) in
  let e := new_entry rt st uid app content category meta in
  ascii_text query = true ->
  ascii_text content = true ->
  In w (split query) ->
  contains w content = true ->
  in_category cat e = true ->
  Z.of_nat (length (memories_of st uid)) < limit ->
  dict_get (snd (add_memory rt st uid app content category meta)) "entry_id"
  = Some (VStr (entry_id e)) /\
  exists hit,
    In hit (search_memory o st' app' uid query cat limit) /\
    hit_entry_id hit = entry_id e /\
    hit_content hit = content /\
    hit_category hit = category /\
    1 <= relevance_score hit.
Proof.
intros st' e _ _ Hw Hc Hcat Hlimit. split; [reflexivity|].
assert (Hs : 1 <= overlap query e) by now apply (overlap_positive query w e).
exists (hit_of (overlap query e, e)). split; [|now repeat split].
rewrite search_memory_of. apply in_map.
unfold st'. rewrite memories_of_add_memory, String.eqb_refl. fold e.
rewrite slice_to_all.
- apply (Permutation_in _ (Permutation_sym (sort_desc_perm _))).
  rewrite candidates_app, candidates_one, Hcat. cbn [andb].
  apply in_or_app. right.
  destruct (0 <? overlap query e) eqn:E; [now left|]. apply Z.ltb_ge in E. lia.
- rewrite sort_desc_length.
  pose proof (candidates_length query cat (memories_of st uid ++ [e])) as Hlen.
  rewrite List.length_app in Hlen. cbn [length] in Hlen. lia.
Qed.

Lemma added_memory_can_be_found_witness :
  exists hit,
    In hit (search_memory list_order
              (fst (add_memory clockwork (after first_day) "alice" "climateguard"
                      "Switched to a green energy tariff" "goal" None))
              "climateguard" "alice" "green tariff" (Some "goal") 7) /\
    hit_content hit = "Switched to a green energy tariff".
Proof.
destruct (added_memory_can_be_found clockwork list_order (after first_day) "alice"
            "climateguard" "Switched to a green energy tariff" "goal" None
            "climateguard" "green tariff" "green" (Some "goal") 7)
  as (_ & hit & Hin & _ & Hc & _).
- reflexivity.
- reflexivity.
- now left.
- reflexivity.
- reflexivity.
- now vm_compute.
- exists hit. split; [exact Hin | exact Hc].
Defined.

End RoundTripTheorems.


(** ** Identifiers *)

Module IdentifierFacts.
Import PyStr PyStrFacts MemoryService ServiceRest AgentTools.
Import StoreNotions ServiceNotions MemoryServiceFacts PatchFacts ServiceFacts.

Lemma string_app_inv_head (a b c : string) : a +:+ b = a +:+ c -> b = c.
Proof.
induction a as [|x a IH]; [now rewrite !app_nil_l|].
rewrite !app_cons. intros [= H]. now apply IH.
Qed.

Lemma ids_numbered_empty (f : nat -> string) (bound : nat) :
  ids_numbered f bound (fun _ => []).
Proof.
exists (fun _ => []). split; [|intros u1 u2 n []].
intros uid. repeat split; constructor.
Qed.

(** Nothing added, the bound not lowered. *)
Lemma ids_numbered_weaken (f : nat -> string) (bound bound' : nat)
    (ids_of ids_of' : string -> list string) :
  (bound <= bound')%nat ->
  (forall uid, ids_of' uid = ids_of uid) ->
  ids_numbered f bound ids_of -> ids_numbered f bound' ids_of'.
Proof.
intros Hb He (draws & Hd & Hx). exists draws. split; [|exact Hx].
intros uid. destruct (Hd uid) as (H1 & H2 & H3). rewrite He.
split; [exact H1|]. split; [|exact H3].
eapply List.Forall_impl; [|exact H2]. intros n Hn. cbv beta in *. lia.
Qed.

(** One identifier added, of a draw at or above the old bound. *)
Lemma ids_numbered_snoc (f : nat -> string) (bound bound' n : nat)
    (ids_of ids_of' : string -> list string) (uid : string) :
  (bound <= n < bound')%nat ->
  (forall u, ids_of' u = if String.eqb uid u then ids_of uid ++ [f n] else ids_of u) ->
  ids_numbered f bound ids_of -> ids_numbered f bound' ids_of'.
Proof.
intros Hn He (draws & Hd & Hx).
assert (Hold : forall u m, In m (draws u) -> (m < bound)%nat).
{ intros u m Hm. destruct (Hd u) as (_ & H2 & _). rewrite List.Forall_forall in H2.
  now apply H2. }
exists (fun u => if String.eqb uid u then draws uid ++ [n] else draws u). split.
- intros u. rewrite He. destruct (Hd u) as (H1 & H2 & H3).
  destruct (String.eqb_spec uid u) as [<-|Hne].
  + rewrite map_app, H1. split; [reflexivity|]. split.
    * apply List.Forall_app. split.
      -- eapply List.Forall_impl; [|exact H2]. intros m Hm. cbv beta in *. lia.
      -- constructor; [lia | constructor].
    * apply List.NoDup_app; [exact H3 | |].
      -- constructor; [intros [] | constructor].
      -- intros m Hm [<-|[]]. apply Hold in Hm. lia.
  + split; [exact H1|]. split; [|exact H3].
    eapply List.Forall_impl; [|exact H2]. intros m Hm. cbv beta in *. lia.
- intros u1 u2 m.
  destruct (String.eqb_spec uid u1) as [<-|H1], (String.eqb_spec uid u2) as [<-|H2];
    rewrite ?in_app_iff; cbn [In]; intros Hm1 Hm2; try reflexivity.
  + destruct Hm1 as [Hm1|[<-|[]]]; [now apply (Hx uid u2 m)|].
    apply Hold in Hm2. lia.
  + destruct Hm2 as [Hm2|[<-|[]]]; [now apply (Hx u1 uid m)|].
    apply Hold in Hm1. lia.
  + now apply (Hx u1 u2 m).
Qed.

(** With draws that did not repeat below the bound, numbered
    identifiers are distinct. *)
Lemma ids_numbered_unique (f : nat -> string) (bound : nat)
    (ids_of : string -> list string) :
  (forall m n, (m < bound)%nat -> (n < bound)%nat -> f m = f n -> m = n) ->
  ids_numbered f bound ids_of ->
  (forall uid, List.NoDup (ids_of uid)) /\
  (forall u1 u2 i, In i (ids_of u1) -> In i (ids_of u2) -> u1 = u2).
Proof.
intros Hinj (draws & Hd & Hx).
assert (Hb : forall u n, In n (draws u) -> (n < bound)%nat).
{ intros u n Hn. destruct (Hd u) as (_ & H2 & _). rewrite List.Forall_forall in H2.
  now apply H2. }
split.
- intros uid. destruct (Hd uid) as (-> & _ & Hnd).
  apply Finite.Injective_map_NoDup_in; [|exact Hnd].
  intros x y Hx' Hy' E. apply Hinj; eauto.
- intros u1 u2 i. destruct (Hd u1) as (-> & _), (Hd u2) as (-> & _).
  rewrite !in_map_iff. intros (n1 & <- & H1) (n2 & E & H2).
  apply Hinj in E; eauto. subst n2. now apply (Hx u1 u2 n1).
Qed.

Lemma numbered_init (rt : Runtime) : numbered rt init.
Proof.
split.
- apply (ids_numbered_weaken _ 0 0 (fun _ => [])); [lia | | apply ids_numbered_empty].
  intros uid. unfold memories_of. cbn. now rewrite lookup_empty.
- apply (ids_numbered_weaken _ 0 0 (fun _ => [])); [lia | | apply ids_numbered_empty].
  intros uid. unfold records_of. cbn. now rewrite lookup_empty.
Qed.

(** A step that leaves memories and measurements alone. *)
Lemma numbered_same_lists (rt : Runtime) (st st' : State) :
  _memories st' = _memories st ->
  _footprint_history st' = _footprint_history st ->
  (uuids st <= uuids st')%nat ->
  numbered rt st -> numbered rt st'.
Proof.
intros Hm Hr Hu [H1 H2]. split.
- refine (ids_numbered_weaken _ _ _ _ _ Hu _ H1).
  intros uid. unfold memories_of. now rewrite Hm.
- refine (ids_numbered_weaken _ _ _ _ _ Hu _ H2).
  intros uid. unfold records_of. now rewrite Hr.
Qed.

Lemma numbered_add_memory (rt : Runtime) (st : State) (uid app content category : string)
    (meta : option Metadata) :
  numbered rt st -> numbered rt (fst (add_memory rt st uid app content category meta)).
Proof.
intros [H1 H2]. split.
- refine (ids_numbered_snoc _ (uuids st) _ (uuids st) _ _ uid _ _ H1); [cbn; lia|].
  intros u. rewrite memories_of_add_memory.
  destruct (String.eqb uid u); [|reflexivity]. now rewrite map_app.
- refine (ids_numbered_weaken _ (uuids st) _ _ _ _ _ H2); [cbn; lia|].
  intros u. now rewrite records_of_add_memory.
Qed.

Lemma numbered_record_footprint (rt : Runtime) (st : State) (uid category act : string)
    (e : float) (det : option Dict) :
  numbered rt st -> numbered rt (fst (record_footprint rt st uid category act e det)).
Proof.
intros [H1 H2]. split.
- refine (ids_numbered_snoc _ (uuids st) _ (S (uuids st)) _ _ uid _ _ H1); [cbn; lia|].
  intros u. rewrite record_footprint_state. cbv zeta. rewrite memories_of_add_memory.
  destruct (String.eqb uid u); [|reflexivity]. now rewrite map_app.
- refine (ids_numbered_snoc _ (uuids st) _ (uuids st) _ _ uid _ _ H2); [cbn; lia|].
  intros u. rewrite records_of_record_footprint.
  destruct (String.eqb uid u); [|reflexivity]. now rewrite map_app.
Qed.

Lemma numbered_save_profile (rt : Runtime) (st st' : State) (ref : nat)
    (out : outcome Dict) :
  save_profile rt st ref = Some (st', out) -> numbered rt st -> numbered rt st'.
Proof.
intros H Hn. destruct (save_profile_states rt st st' ref out H) as (p & _ & Hst).
cbv zeta in Hst.
set (st2 := set_heap (fst (now rt st)) ref
              (setattr p "updated_at" (VStr (now_isoformat rt (clock st))))) in Hst.
assert (H2 : numbered rt st2) by (apply (numbered_same_lists rt st); auto).
destruct Hst as [->|(uid & _ & [->|(content & d & _ & ->)])].
- exact H2.
- apply (numbered_same_lists rt st2); auto.
- apply numbered_add_memory. apply (numbered_same_lists rt st2); auto.
Qed.

Lemma numbered_update_profile (rt : Runtime) (st st' : State) (uid : string)
    (updates : Dict) (out : outcome Dict) :
  update_profile rt st uid updates = Some (st', out) -> numbered rt st -> numbered rt st'.
Proof.
intros H Hn. destruct (update_profile_states rt st st' uid updates out H)
  as [[-> _]|(ref & p & _ & _ & _ & Hs)]; [exact Hn|].
apply (numbered_save_profile _ _ _ _ _ Hs). apply (numbered_same_lists rt st); auto.
Qed.

Lemma numbered_run_call (rt : Runtime) (st st' : State) (c : Call) :
  run_call rt st c = Some st' -> numbered rt st -> numbered rt st'.
Proof.
destruct c as [uid app content category meta|uid category act e det|uid habit completed
              |session|p|ref|uid updates]; cbn [run_call]; intros H Hn.
- injection H as <-. now apply numbered_add_memory.
- injection H as <-. now apply numbered_record_footprint.
- assert (E : st' = fst (record_habit rt st uid habit completed)) by congruence.
  rewrite E, record_habit_state. now apply numbered_add_memory.
- assert (E : st' = fst (add_session_to_memory rt st session)) by congruence.
  rewrite E, add_session_state. cbv zeta. now do 2 apply numbered_add_memory.
- injection H as <-. apply (numbered_same_lists rt st); auto.
- destruct (save_profile rt st ref) as [[s out]|] eqn:E; [|discriminate].
  injection H as <-. exact (numbered_save_profile _ _ _ _ _ E Hn).
- destruct (update_profile rt st uid updates) as [[s out]|] eqn:E; [|discriminate].
  injection H as <-. exact (numbered_update_profile _ _ _ _ _ _ E Hn).
Qed.

Lemma numbered_run_calls (rt : Runtime) (calls : list Call) :
  forall st st', run_calls rt st calls = Some st' -> numbered rt st -> numbered rt st'.
Proof.
induction calls as [|c calls IH]; intros st st'; cbn [run_calls].
- now intros [= <-].
- destruct (run_call rt st c) as [s|] eqn:E; [|discriminate].
  intros H Hn. apply (IH s st' H). exact (numbered_run_call _ _ _ _ E Hn).
Qed.

(** The stand-in generator never repeats. *)
Lemma clockwork_draws_differ (m n : nat) :
  uuid4_hex12 Stores.clockwork m = uuid4_hex12 Stores.clockwork n -> m = n.
Proof.
assert (Hnil : forall k, Nat.to_uint k <> Decimal.Nil).
{ intros k Hk. assert (E : k = 0%nat) by (rewrite <- (Unsigned.of_to k), Hk; reflexivity).
  subst k. discriminate Hk. }
cbn [uuid4_hex12 Stores.clockwork]. intros H. apply string_app_inv_head in H.
apply (f_equal NilZero.uint_of_string) in H.
rewrite !NilZero.usu in H by apply Hnil.
injection H as H. now rewrite <- (Unsigned.of_to m), H, Unsigned.of_to.
Qed.

End IdentifierFacts.

Module IdentifierTheorems.
Import PyStr PyStrFacts MemoryService ServiceRest AgentTools.
Import StoreNotions ServiceNotions MemoryServiceFacts PatchFacts ServiceFacts IdentifierFacts.
Import SetOrders Stores Scenarios.

(** X25. As long as the generator behind [_generate_id] has not
    repeated itself in the draws made so far, the identifiers that the
    service handed out identify: in every state that calls lead to
    from the start, no two memories of an identity share their
    [entry_id], no memory of one identity has the [entry_id] of a
    memory of another, and the same holds of the measurements and
    their [record_id]. *)
Theorem issued_identifiers_are_distinct (rt : Runtime) (calls : list Call) (st : State) :
  run_calls rt init calls = Some st ->
  (forall m n, (m < uuids st)%nat -> (n < uuids st)%nat ->
               uuid4_hex12 rt m = uuid4_hex12 rt n -> m = n) ->
  (forall uid, List.NoDup (map entry_id (memories_of st uid))) /\
  (forall u1 u2 e1 e2,
     In e1 (memories_of st u1) -> In e2 (memories_of st u2) ->
     entry_id e1 = entry_id e2 -> u1 = u2) /\
  (forall uid, List.NoDup (map record_id (records_of st uid))) /\
  (forall u1 u2 r1 r2,
     In r1 (records_of st u1) -> In r2 (records_of st u2) ->
     record_id r1 = record_id r2 -> u1 = u2).
Proof.
intros Hrun Hinj.
destruct (numbered_run_calls rt calls init st Hrun (numbered_init rt)) as [Hm Hf].
apply ids_numbered_unique in Hm as [Hm1 Hm2];
  [|intros m n Hlm Hln E; apply string_app_inv_head in E; now apply Hinj].
apply ids_numbered_unique in Hf as [Hf1 Hf2];
  [|intros m n Hlm Hln E; apply string_app_inv_head in E; now apply Hinj].
split; [exact Hm1|]. split; [|split; [exact Hf1|]].
- intros u1 u2 e1 e2 H1 H2 E. apply (Hm2 u1 u2 (entry_id e1)).
  + now apply in_map.
  + rewrite E. now apply in_map.
- intros u1 u2 r1 r2 H1 H2 E. apply (Hf2 u1 u2 (record_id r1)).
  + now apply in_map.
  + rewrite E. now apply in_map.
Qed.

Lemma issued_identifiers_are_distinct_witness :
  List.NoDup (map entry_id (memories_of (after first_day) "alice")).
Proof.
apply (issued_identifiers_are_distinct clockwork first_day (after first_day)).
- now vm_compute.
- intros m n _ _. apply clockwork_draws_differ.
Defined.

End IdentifierTheorems.


(** ** The planner's tracking of actions *)

Module PlannerFacts.
Import PyStr PyStrFacts MemoryService ServiceRest Planner.
Import ServiceNotions PlannerNotions ServiceFacts RoundTripFacts.

(** What the search loop returns, over any table and any start. *)
Lemma find_loop_some (id : string) (table : list (string * list Action)) :
  forall found a,
    fold_left (fun found category =>
                 match find (fun a => String.eqb (action_id a) id) (snd category) with
                 | Some a => Some a
                 | None => found
                 end) table found = Some a ->
    found = Some a \/ (In a (flat_map snd table) /\ action_id a = id).
Proof.
induction table as [|cat table IH]; intros found a; cbn [fold_left flat_map]; [now left|].
intros H. apply IH in H as [H|[H1 H2]].
- destruct (find _ (snd cat)) as [b|] eqn:E; [|now left].
  injection H as ->. apply find_some in E as [Hin Hid]. right.
  split; [apply in_or_app; now left | now apply String.eqb_eq].
- right. split; [apply in_or_app; now right | exact H2].
Qed.

Lemma find_loop_none (id : string) (table : list (string * list Action)) :
  forall found,
    fold_left (fun found category =>
                 match find (fun a => String.eqb (action_id a) id) (snd category) with
                 | Some a => Some a
                 | None => found
                 end) table found = None ->
    found = None /\ forall a, In a (flat_map snd table) -> action_id a <> id.
Proof.
induction table as [|cat table IH]; intros found; cbn [fold_left flat_map]; [now split|].
intros H. apply IH in H as [H Hrest].
destruct (find _ (snd cat)) as [b|] eqn:E; [discriminate|].
split; [exact H|]. intros a Ha. apply in_app_or in Ha as [Ha|Ha]; [|now apply Hrest].
apply (find_none _ _ E) in Ha. now apply String.eqb_neq.
Qed.

(** No identifier occurs twice in the table, so the search finds
    every action by its identifier. *)
Lemma find_action_of_table (a : Action) :
  In a all_actions -> find_action (action_id a) = Some a.
Proof.
unfold all_actions. cbn [flat_map CARBON_ACTIONS snd app].
intros H. repeat (destruct H as [<-|H]; [reflexivity|]). destruct H.
Qed.

End PlannerFacts.

Module PlannerTheorems.
Import PyStr PyStrFacts MemoryService ServiceRest Planner.
Import ServiceNotions PlannerNotions ServiceFacts RoundTripFacts PlannerFacts.
Import Stores Scenarios.

(** X26. [track_action_completion] finds every action of the table by
    its identifier. For an identifier that no action has it returns
    the error and leaves the service as it was. Otherwise it records
    a habit under the action's name, so the streak of that name grows
    by one, and reports as saved the action's weekly saving when the
    action was completed and 0 when it was not. *)
Theorem tracked_action_is_recorded_under_its_name (rt : Runtime)
    (round1 : float -> float) (st : State) (uid id : string) (completed : bool)
    (notes : string) :
  let r := track_action_completion rt st uid id completed notes in
  (forall a, In a all_actions -> find_action (action_id a) = Some a) /\
  (find_action id = None ->
     (forall a, In a all_actions -> action_id a <> id) /\
     r = (st, ActionNotFound ("Action " +:+ id +:+ " not found"))) /\
  (forall a, find_action id = Some a ->
     In a all_actions /\ action_id a = id /\
     r = (fst (record_habit rt st uid (action_name a) completed),
          Tracked id (action_name a) completed
            (if completed then weekly_savings_kg a else 0%float) notes
            (if completed
             then "Every action counts! Keep building those sustainable habits."
             else "Tomorrow is a new opportunity!")) /\
     total_tracked (get_habit_streak round1 (fst r) uid (action_name a))
     = total_tracked (get_habit_streak round1 st uid (action_name a)) + 1 /\
     streak_completed (get_habit_streak round1 (fst r) uid (action_name a))
     = streak_completed (get_habit_streak round1 st uid (action_name a))
       + (if completed then 1 else 0)).
Proof.
intros r. split; [exact find_action_of_table|]. split.
- intros H. split.
  + apply (find_loop_none id CARBON_ACTIONS None H).
  + unfold r, track_action_completion. now rewrite H.
- intros a H.
  assert (Hr : r = (fst (record_habit rt st uid (action_name a) completed),
                    Tracked id (action_name a) completed
                      (if completed then weekly_savings_kg a else 0%float) notes
                      (if completed
                       then "Every action counts! Keep building those sustainable habits."
                       else "Tomorrow is a new opportunity!"))).
  { unfold r, track_action_completion. rewrite H.
    now destruct (record_habit rt st uid (action_name a) completed). }
  destruct (find_loop_some id CARBON_ACTIONS None a H) as [Hn|[Hin Hid]]; [discriminate|].
  split; [exact Hin|]. split; [exact Hid|]. split; [exact Hr|].
  rewrite Hr. cbn [fst]. unfold get_habit_streak. cbn [total_tracked streak_completed].
  rewrite habit_memories_after_record. cbv zeta.
  rewrite (habit_text_names_habit (action_name a) (action_name a) completed)
    by apply contains_refl.
  rewrite List.filter_app, !List.length_app. cbn [List.filter length].
  split; [lia|]. cbn. destruct completed; cbn [length]; lia.
Qed.

Lemma tracked_action_is_recorded_under_its_name_witness :
  total_tracked (get_habit_streak (fun x => x)
                   (fst (track_action_completion clockwork (after first_day) "alice"
                           "meatless_monday" true ""))
                   "alice" "Meatless Monday")
  = total_tracked (get_habit_streak (fun x => x) (after first_day) "alice"
                     "Meatless Monday") + 1.
Proof.
destruct (tracked_action_is_recorded_under_its_name clockwork (fun x => x)
            (after first_day) "alice" "meatless_monday" true "")
  as (_ & _ & H).
destruct (H (action "meatless_monday" "Meatless Monday" 6.75 "easy" "diet") eq_refl)
  as (_ & _ & _ & Ht & _).
exact Ht.
Defined.

End PlannerTheorems.
